(* ===== verification/_CoqProject ===== *)
-Q . S2P
Prelude.v
JsRuntime.v
Calendar.v
Duration.v
Store.v
Summary.v
Routes.v
Client.v
Calculator.v
Views.v
