(* ===== verification/Prelude.v ===== *)
(** * A verification library for the work-hours tracker

    The repository is a small web application: users record work shifts
    (a date, a start and an end time, an optional hourly rate) and the
    server derives the hours worked, a Monday-to-Sunday weekly summary and
    a bi-monthly ("quincena") summary; a React client shows the week and
    edits the records.  This development models the server, the API
    contract between client and server, and the parts of the client that
    compute values, and proves what makes them correct, as well as where
    they are not.

    ** Parts of the program and how they interact

    - [src/shared/schema.ts]: the [work_logs] and [settings] tables and
      the zod input schema.  The tables are [Store.v] ([WorkLog],
      [InsertWorkLog], [Database.DB]); the schema is [Routes.parse_insert]
      and [Routes.parse_update] over JSON values ([Routes.json]).
    - [src/server/storage.ts]: [DatabaseStorage], the only implementation
      of the [IStorage] interface.  In [Store.v] the interface is the
      typeclass [IStorage] with its laws [IStorageLaws] (the contract of
      spec section 6 the summary relies on); the implementation is
      [Database.DB] (a [gmap] of rows, the serial counter and the settings
      [gmap]) with one definition per method ([db_createWorkLog],
      [db_getWorkLog], [db_updateWorkLog], [db_deleteWorkLog],
      [db_getWorkLogsByRange], [db_getSetting], [db_updateSetting]) and
      the instance [DatabaseStorage_laws] proves the laws.
    - The hours computation inside [createWorkLog]/[updateWorkLog]
      (date-fns [parse(_, 'HH:mm')], the millisecond difference, the clamp
      at 0 and [toFixed(2)]) is [Duration.v].
    - [src/server/routes.ts]: [getWeekRange] and the summary handler are
      [Summary.v] (the week window, the seven day buckets in a JS [Map]
      with insertion order, the weekly totals, the quincena window and
      totals, the assembled response), written against [IStorage] only.
      The responses of every route, the create/update/delete/settings
      handlers and the start-up seed are [Routes.v]; a handler returns its
      response with the new store, a thrown error inside [try] is a 500
      and outside it no response at all (Express 4; the repository does
      not pin the version, and Express 5 would answer 500).  The id of
      the URL is read by [parseInt] as ECMAScript defines it (sign, [0x]
      prefix, longest digit run), and an id outside the [integer] column
      ([int4_ok]) makes the store's query throw, hence a 500.
    - [src/shared/routes.ts] (the API contract: [errorSchemas],
      [weeklySummarySchema], [buildUrl]) and the client
      ([hooks/use-work-logs.ts], [components/WorkLogForm.tsx],
      [components/WeekSelector.tsx], [pages/Dashboard.tsx]) are
      [Client.v]: what a response becomes in the hooks (a value or a
      thrown error), the URL of a record and the parameter the server
      reads back, the form's defaults, zod resolver and time check, the
      week navigation, the default rate and the date shown for a record,
      and the create and edit dialogs composed with the server handlers.
      The declared responses of [api] ([responses] of each route) are the
      boolean contracts [Routes.create_contract] and its siblings.
    - [components/WeeklySummary.tsx] and the rest of [pages/Dashboard.tsx]
      (the settings dialog that saves the default rate, the delete
      confirmation) are [Views.v]: the values of the summary cards
      ([Views.summary_view]) and the two flows composed with the hooks
      and the server handlers ([Views.save_rate_flow],
      [Views.delete_flow]).
    - [components/PersistentCalculator.tsx], independent of the rest, is
      [Calculator.v]: its React state is the record [Calc], its two
      [localStorage] entries the record [Storage]; [init] is the
      [useState] initialisers, [effect] the [useEffect], and each
      [onClick] a transition of the step relation [step] (executable as
      [next] and [run]); [reachable] adds the first render and reloads.
    - The JavaScript and date-fns behaviour the code relies on is
      [JsRuntime.v] (numbers kept as exact decimals with NaN,
      [toFixed(2)], the [x || 0] and [x || y] idioms, insertion-ordered
      [Map]) and [Calendar.v] (proleptic Gregorian day numbers, a fixed
      local UTC offset, [new Date("YYYY-MM-DD")], [startOfWeek],
      [endOfWeek], [addDays], [endOfMonth], [format(_, 'yyyy-MM-dd')],
      [format(_, 'EEE')], the PostgreSQL [date] column).

    ** Files and what their theorems show

    [Prelude.v] (this file: notation scope [wl_scope], the hint
    databases [wl] and [wl_rw], the tactics [case_ltb] and [zdiv], lemmas
    on folds, integer division and decimal digits); [JsRuntime.v] (laws
    of JS addition with NaN, the [Map] model); [Calendar.v] (day numbers
    and civil dates are inverse bijections, checked by computation over
    one 400-year era and extended by periodicity; the date texts round
    trip through PostgreSQL and V8; week and month boundaries);
    [Duration.v] (hours for valid times, the clamp, NaN for times date-fns
    rejects, no rounding ties); [Store.v] (the behaviour of every store
    operation, the invariant of the store preserved by every write, the
    refinement of the [IStorage] contract); [Summary.v] (the summary's
    totals, days, day names and fortnight, proved against the interface
    for any lawful store; the fortnight of a two-digit year, moved to
    1900 + y by [new Date(y, m, d)]; the NaN bucket that [|| 0] erases;
    the time-zone findings); [Routes.v] (each route on every branch,
    including ids read in hexadecimal or beyond the [integer] range, the
    guards, the seed);
    [Client.v] (the client's checks against the server's, the URL and
    body round trips, the week shown against the week fetched, and the
    dialogs end to end); [Calculator.v] (by rule induction on
    [reachable], every reachable state is the one [localStorage] holds,
    so a reload restores it; the keypad can enter any number; [=]
    followed by a digit appends the digit to the result, for any
    [eval]); [Views.v] (a saved rate of 0 opens the
    create form at 50, the delete confirmation removes exactly the
    record chosen, the day initials west of UTC).  [Routes.v] also
    proves that every response of the write and settings routes is one
    the API contract declares, or the generic 500.

    ** Modelling choices, bounds and what is left out

    - Instants are JavaScript time values (milliseconds since the epoch,
      in [Z]); local time is UTC shifted by a fixed offset [tz] in
      minutes, with [-1440 < tz < 1440].  Daylight-saving changes are not
      modelled (Argentina, the locale of the application, has none).
      Server and browser share the offset.
    - Numbers that the code keeps as decimal strings ([hoursWorked],
      [hourlyRate]) are exact integers of hundredths; products of hours
      and rates are integers of ten-thousandths; [NaN] is a separate
      value.  The rounding error of IEEE doubles in the running sums is
      not modelled; [toFixed(2)] is rounding half away from zero of the
      exact value.  For durations this is exact: a duration in minutes
      [m] is [5m/3] hundredths, never a tie.
    - The theorems about dates hold for years 1 to 9999 (four-digit
      years), the range of [format(_, 'yyyy')] and of the date column's
      text the code reads back; the era check covers all of it by
      periodicity.  [new Date(y, m, d)] reads the years 0..99 as
      1900..1999 ([date_ctor_year]); [setFullYear] (inside [endOfMonth])
      does not ([make_local]).  The fortnight theorem is stated from
      the year 100 on, and a separate theorem gives the years 1..99.  The one recursion on fuel is [ndigits_fuel], the
      number of decimal digits of [n]: [log2 n + 1] steps are enough
      since each divides by 10, and [ndigits_bound] proves that the
      count found covers [n].  Every other recursion is structural.
    - Each [new Date()] (the two of the summary handler, the two
      [parse] calls of a guard, those of the store) is a clock reading
      given as an input, so that their interleaving with midnight is
      visible.
    - [Number(s)] of a string is a parameter [Number_string]; the client
      sends numbers, and the one theorem on a typed string (the default
      rate) takes the value [Number] gives as a hypothesis.
    - The calculator's [eval] of the typed text and [String(result)] are
      a parameter [eval_js] ([None] for a thrown error); its theorems
      hold for any such function whose results are non-empty, as
      [String] of a number always is.
    - A react-query refetch after a mutation is modelled as reading the
      store again, with no cache in between.
    - The serial counter of the store is an unbounded integer: the limit
      of the [int4] sequence (2^31 - 1 records) is not modelled, while
      the range of an id read from a URL is.
    - Not modelled: rendering (JSX, styles, the es-locale labels of the
      week selector, toasts), number formatting ([toFixed(1)],
      [toLocaleString('es-AR')]), react-query's cache, the semantics of
      JavaScript [eval] over IEEE doubles (a parameter of the
      calculator), Express routing beyond the [:id] segment, and date
      strings that V8 accepts outside the [YYYY-MM-DD] shape (its legacy
      parser). *)

From stdpp Require Export base list gmap strings sorting.
From Stdlib Require Export ZArith Lia Ascii String.

Declare Scope wl_scope.
Delimit Scope wl_scope with wl.

Create HintDb wl.
Create Rewrite HintDb wl_rw.

(** Case analysis on the first integer comparison [x <? y] of the goal. *)
Ltac case_ltb :=
  match goal with |- context [(?x <? ?y)%Z] => destruct (Z.ltb_spec x y) end.

(** [lia] extended with the Euclidean equations of [/] and [mod]. *)
Ltac zdiv := Z.div_mod_to_equations; lia.

(** ** Folds whose step commutes do not depend on the order of the list. *)
Section FoldCommute.
Context {A S : Type} (step : S -> A -> S).
Hypothesis step_comm : forall s a b, step (step s a) b = step (step s b) a.

Lemma fold_left_perm (l1 l2 : list A) (s : S) :
  Permutation l1 l2 -> fold_left step l1 s = fold_left step l2 s.
Proof.
  intros Hp. revert s. induction Hp as [|x l1 l2 _ IH|x y l|l1 l2 l3 _ IH1 _ IH2];
    intros s; simpl; [done|apply IH|by rewrite step_comm|by rewrite IH1, IH2].
Qed.
End FoldCommute.

(** ** Integer division helpers *)

(** Rounding of [n / d] to the nearest integer, ties away from zero: the
    rule of [Number.prototype.toFixed] applied to an exact rational. *)
Definition round_div (n d : Z) : Z :=
  if (0 <=? n)%Z then ((2 * n + d) / (2 * d))%Z
  else (- ((2 * (- n) + d) / (2 * d)))%Z.

Lemma round_div_exact (k d : Z) : (0 < d)%Z -> round_div (k * d) d = k.
Proof.
  intros Hd. unfold round_div.
  assert (Hh : (d / (2 * d) = 0)%Z) by (apply Z.div_small; lia).
  destruct (Z.leb_spec 0 (k * d)).
  - replace (2 * (k * d) + d)%Z with (k * (2 * d) + d)%Z by ring.
    rewrite Z.div_add_l by lia. lia.
  - replace (2 * - (k * d) + d)%Z with ((- k) * (2 * d) + d)%Z by ring.
    rewrite Z.div_add_l by lia. lia.
Qed.

(** The rounded value is within half a unit of the exact quotient. *)
Lemma round_div_close (n d : Z) :
  (0 < d)%Z -> (Z.abs (2 * (n - d * round_div n d)) <= d)%Z.
Proof.
  intros Hd. unfold round_div.
  destruct (Z.leb_spec 0 n); zdiv.
Qed.

Lemma round_div_nonneg (n d : Z) : (0 < d)%Z -> (0 <= n)%Z -> (0 <= round_div n d)%Z.
Proof.
  intros Hd Hn. unfold round_div. destruct (Z.leb_spec 0 n); [|lia].
  apply Z.div_pos; lia.
Qed.

(** Scaling numerator and denominator together does not change the
    rounded quotient. *)
Lemma round_div_scale (n d k : Z) :
  (0 < d)%Z -> (0 < k)%Z -> round_div (n * k) (d * k) = round_div n d.
Proof.
  intros Hd Hk. unfold round_div.
  replace (0 <=? n * k)%Z with (0 <=? n)%Z.
  2:{ destruct (Z.leb_spec 0 n).
      - symmetry. apply Z.leb_le, Z.mul_nonneg_nonneg; lia.
      - symmetry. apply Z.leb_gt, Z.mul_neg_pos; lia. }
  replace (2 * (n * k) + d * k)%Z with ((2 * n + d) * k)%Z by ring.
  replace (2 * - (n * k) + d * k)%Z with ((2 * - n + d) * k)%Z by ring.
  replace (2 * (d * k))%Z with ((2 * d) * k)%Z by ring.
  rewrite !Z.div_mul_cancel_r by lia. done.
Qed.

#[export] Hint Resolve round_div_nonneg : wl.
#[export] Hint Rewrite round_div_exact using lia : wl_rw.

(** ** Decimal digits, as [format] and [padStart] write them *)

Definition digit_char (d : Z) : ascii := ascii_of_nat (48 + Z.to_nat d).

Definition char_digit (c : ascii) : option Z :=
  let n := nat_of_ascii c in
  if (48 <=? n)%nat && (n <=? 57)%nat then Some (Z.of_nat n - 48)%Z else None.

Lemma char_digit_char (d : Z) : (0 <= d < 10)%Z -> char_digit (digit_char d) = Some d.
Proof.
  intros Hd.
  assert (d = 0 \/ d = 1 \/ d = 2 \/ d = 3 \/ d = 4 \/ d = 5 \/ d = 6 \/ d = 7
          \/ d = 8 \/ d = 9)%Z as Hc by lia.
  repeat destruct Hc as [->|Hc]; [..|subst]; reflexivity.
Qed.

#[export] Hint Rewrite char_digit_char using lia : wl_rw.
Arguments digit_char : simpl never.
Arguments char_digit : simpl never.

(** [zdigits w n]: the [w] last decimal digits of [n], most significant
    first (leading zeros included). *)
Fixpoint zdigits (w : nat) (n : Z) : string :=
  match w with
  | O => EmptyString
  | S w' => (zdigits w' (n / 10) ++ String (digit_char (n mod 10)) EmptyString)%string
  end.

(** Number of decimal digits of a non-negative integer (at least 1). *)
Fixpoint ndigits_fuel (fuel : nat) (n : Z) : nat :=
  match fuel with
  | O => 1
  | S f => if (n <? 10)%Z then 1 else S (ndigits_fuel f (n / 10))
  end.

Definition ndigits (n : Z) : nat := ndigits_fuel (S (Z.to_nat (Z.log2 n))) n.

(** [String(n)] for a non-negative integer. *)
Definition z_to_string (n : Z) : string := zdigits (ndigits n) n.

(** [k] characters ["0"]. *)
Fixpoint zeros (k : nat) : string :=
  match k with O => EmptyString | S k' => String "0" (zeros k') end.

(** [s.padStart(w, "0")]. *)
Definition pad_start0 (w : nat) (s : string) : string :=
  (zeros (w - String.length s) ++ s)%string.

(** Reading a string of decimal digits (Horner's rule), [None] when a
    character is not a digit. *)
Fixpoint digits_value (s : string) (acc : Z) : option Z :=
  match s with
  | EmptyString => Some acc
  | String c s' =>
      match char_digit c with
      | Some d => digits_value s' (10 * acc + d)%Z
      | None => None
      end
  end.

Lemma digits_value_app (s1 s2 : string) (acc : Z) :
  digits_value (s1 ++ s2) acc =
  match digits_value s1 acc with Some v => digits_value s2 v | None => None end.
Proof.
  revert acc. induction s1 as [|c s1 IH]; intros acc; simpl; [done|].
  destruct (char_digit c); [apply IH|done].
Qed.

Lemma zdigits_value (w : nat) (n acc : Z) :
  (0 <= n)%Z ->
  digits_value (zdigits w n) acc = Some (acc * 10 ^ Z.of_nat w + n mod 10 ^ Z.of_nat w)%Z.
Proof.
  revert n acc. induction w as [|w IH]; intros n acc Hn; cbn [zdigits].
  - cbn. f_equal. rewrite Z.mod_1_r. lia.
  - rewrite digits_value_app, IH by (apply Z.div_pos; lia). cbn [digits_value].
    rewrite char_digit_char by (apply Z.mod_pos_bound; lia). f_equal.
    replace (10 ^ Z.of_nat (S w))%Z with (10 * 10 ^ Z.of_nat w)%Z by (rewrite Nat2Z.inj_succ, Z.pow_succ_r; lia).
    rewrite Z.rem_mul_r by (try apply Z.pow_pos_nonneg; lia). ring.
Qed.

Lemma string_app_cons (c : ascii) (s1 s2 : string) :
  (String c s1 ++ s2)%string = String c (s1 ++ s2).
Proof. reflexivity. Qed.

Lemma string_app_nil (s : string) : ("" ++ s)%string = s.
Proof. reflexivity. Qed.

Lemma string_app_nil_r (s : string) : (s ++ "")%string = s.
Proof. induction s as [|c s IH]; [done|]. by rewrite string_app_cons, IH. Qed.

Lemma string_app_assoc (s t u : string) : (s ++ (t ++ u))%string = ((s ++ t) ++ u)%string.
Proof. induction s as [|c s IH]; [done|]. by rewrite !string_app_cons, IH. Qed.

#[export] Hint Rewrite string_app_cons string_app_nil : wl_rw.

Lemma string_length_app (s1 s2 : string) :
  String.length (s1 ++ s2) = (String.length s1 + String.length s2)%nat.
Proof. induction s1 as [|c s1 IH]; simpl; [done|by rewrite IH]. Qed.

Lemma length_zdigits (w : nat) (n : Z) : String.length (zdigits w n) = w.
Proof.
  revert n. induction w as [|w IH]; intros n; simpl; [done|].
  rewrite string_length_app, IH. simpl. lia.
Qed.

Lemma ndigits_fuel_bound (f : nat) (n : Z) :
  (0 <= n < 2 ^ Z.of_nat f)%Z -> (n < 10 ^ Z.of_nat (ndigits_fuel f n))%Z.
Proof.
  revert n. induction f as [|f IH]; intros n Hn; simpl.
  - simpl in Hn. lia.
  - destruct (Z.ltb_spec n 10); [simpl; lia|].
    assert (Hq : (n / 10 < 10 ^ Z.of_nat (ndigits_fuel f (n / 10)))%Z).
    { apply IH. rewrite Nat2Z.inj_succ, Z.pow_succ_r in Hn by lia. zdiv. }
    rewrite Nat2Z.inj_succ, Z.pow_succ_r by lia. zdiv.
Qed.

Lemma ndigits_bound (n : Z) : (0 <= n)%Z -> (n < 10 ^ Z.of_nat (ndigits n))%Z.
Proof.
  intros Hn. apply ndigits_fuel_bound. split; [done|].
  rewrite Nat2Z.inj_succ, Z2Nat.id by apply Z.log2_nonneg.
  destruct (Z.eq_dec n 0) as [->|]; [simpl; lia|].
  apply Z.log2_spec. lia.
Qed.

(** [String(n)] reads back as [n]. *)
Lemma z_to_string_value (n : Z) : (0 <= n)%Z -> digits_value (z_to_string n) 0 = Some n.
Proof.
  intros Hn. unfold z_to_string. rewrite zdigits_value by done.
  rewrite Z.mod_small by (split; [done|apply ndigits_bound; done]). done.
Qed.

Lemma zeros_value (k : nat) (acc : Z) :
  digits_value (zeros k) acc = Some (acc * 10 ^ Z.of_nat k)%Z.
Proof.
  revert acc. induction k as [|k IH]; intros acc; [simpl; f_equal; lia|].
  cbn [zeros digits_value]. change (char_digit "0") with (Some 0%Z). cbv iota beta. rewrite IH. f_equal.
  rewrite Nat2Z.inj_succ, Z.pow_succ_r by lia. lia.
Qed.

(** Zero padding does not change the value read back. *)
Lemma pad_start0_value (w : nat) (s : string) (v : Z) :
  digits_value s 0 = Some v -> digits_value (pad_start0 w s) 0 = Some v.
Proof.
  intros Hs. unfold pad_start0. rewrite digits_value_app, zeros_value.
  rewrite Z.mul_0_l. exact Hs.
Qed.

#[export] Hint Resolve z_to_string_value pad_start0_value : wl.

(** [f a && f (a+1) && ... && f (a+n-1)] by binary splitting of [n]:
    a check over a range of integers that computes in linear time. *)
Fixpoint forall_range (f : Z -> bool) (a : Z) (n : positive) : bool :=
  match n with
  | xH => f a
  | xO p => forall_range f a p && forall_range f (a + Zpos p)%Z p
  | xI p => f a && forall_range f (a + 1)%Z p && forall_range f (a + 1 + Zpos p)%Z p
  end.

Lemma forall_range_spec (f : Z -> bool) (a : Z) (n : positive) (z : Z) :
  forall_range f a n = true -> (a <= z < a + Zpos n)%Z -> f z = true.
Proof.
  revert a. induction n as [p IH|p IH|]; intros a Hall Hz; simpl in *.
  - apply andb_prop in Hall as [Hall H3]. apply andb_prop in Hall as [H1 H2].
    destruct (Z.eq_dec z a) as [->|]; [done|].
    destruct (Z.ltb_spec z (a + 1 + Zpos p)); [apply (IH (a + 1)%Z)|apply (IH (a + 1 + Zpos p)%Z)];
      try done; lia.
  - apply andb_prop in Hall as [H1 H2].
    destruct (Z.ltb_spec z (a + Zpos p)); [apply (IH a)|apply (IH (a + Zpos p)%Z)]; try done; lia.
  - assert (z = a) as -> by lia. done.
Qed.

(** ** Lists whose elements satisfy an invariant [Q] *)
Section OnElements.
Context {A B : Type} (Q : A -> Prop) (f : A -> B).

Lemma filter_fmap_on (P : B -> Prop) (P' : A -> Prop)
    `{forall x, Decision (P x)} `{forall x, Decision (P' x)} (l : list A) :
  Forall Q l -> (forall x, Q x -> P (f x) <-> P' x) ->
  filter P (f <$> l) = f <$> filter P' l.
Proof.
  intros HQ Heq. induction HQ as [|x l Hx _ IH]; [done|].
  rewrite fmap_cons, !filter_cons.
  destruct (decide (P (f x))) as [Hp|Hp], (decide (P' x)) as [Hp'|Hp'];
    try (exfalso; apply Hp'; apply Heq; done); try (exfalso; apply Hp; apply Heq; done);
    rewrite IH; done.
Qed.

Lemma Sorted_fmap_on (R : A -> A -> Prop) (R' : B -> B -> Prop) (l : list A) :
  Forall Q l -> (forall x y, Q x -> Q y -> R x y -> R' (f x) (f y)) ->
  Sorted R l -> Sorted R' (f <$> l).
Proof.
  intros HQ HR HS. induction HS as [|x l HS IH Hd]; [constructor|].
  inversion HQ as [|? ? Hx HQl]; subst. rewrite fmap_cons. constructor; [by apply IH|].
  destruct Hd as [|y l' Hxy]; simpl; constructor.
  inversion HQl; subst. by apply HR.
Qed.
End OnElements.
