(* ===== verification/JsRuntime.v ===== *)
(** The parts of JavaScript semantics the server code relies on: numbers
    as exact decimals with a separate NaN, [toFixed(2)] read back with
    [Number], the falsy-default idiom [x || 0], [Date] comparison with
    Invalid Date, and the insertion-ordered [Map] of the week buckets. *)

From S2P Require Import Prelude.

Open Scope Z_scope.

(** A JavaScript number at a fixed decimal scale: [JNum v] is [v] units of
    the scale (hundredths for hours and rates, ten-thousandths for the
    products), [JNaN] is NaN. *)
Inductive jsnum := JNum (v : Z) | JNaN.

#[export] Instance jsnum_eq_dec : EqDecision jsnum.
Proof. solve_decision. Defined.

Definition jadd (a b : jsnum) : jsnum :=
  match a, b with JNum x, JNum y => JNum (x + y) | _, _ => JNaN end.

(** Product; the scale of the result is the product of the scales. *)
Definition jmul (a b : jsnum) : jsnum :=
  match a, b with JNum x, JNum y => JNum (x * y) | _, _ => JNaN end.

Declare Scope js_scope.
Delimit Scope js_scope with js.
Infix "⊞" := jadd (at level 50, left associativity) : js_scope.
Infix "⊠" := jmul (at level 40, left associativity) : js_scope.
Open Scope js_scope.

(** [Number(x.toFixed(2))] for [x] at a scale [d] times finer than
    hundredths ([d = 1]: already hundredths; [d = 100]: ten-thousandths).
    [NaN.toFixed(2)] is ["NaN"] and [Number("NaN")] is NaN. *)
Definition to_fixed2 (d : Z) (x : jsnum) : jsnum :=
  match x with JNum v => JNum (round_div v d) | JNaN => JNaN end.

(** [x || 0] on a value read from a [Map]: [undefined], [NaN] and [0] are
    falsy and give [0]. *)
Definition or_zero (x : option jsnum) : jsnum :=
  match x with
  | Some (JNum v) => if decide (v = 0) then JNum 0 else JNum v
  | _ => JNum 0
  end.

(** [a || b] on an optional string: [undefined] and [""] are falsy. *)
Definition or_str (a : option string) (b : string) : string :=
  match a with Some x => if String.eqb x "" then b else x | None => b end.

(** [a <= b] on two [Date]s ([None] is Invalid Date, whose value is NaN,
    so every comparison with it is false). *)
Definition date_le (a b : option Z) : bool :=
  match a, b with Some x, Some y => x <=? y | _, _ => false end.

Lemma jadd_comm (a b : jsnum) : a ⊞ b = b ⊞ a.
Proof. destruct a, b; simpl; f_equal; try lia; done. Qed.

Lemma jadd_assoc (a b c : jsnum) : a ⊞ b ⊞ c = a ⊞ (b ⊞ c).
Proof. destruct a, b, c; simpl; f_equal; try lia; done. Qed.

Lemma jadd_nan_r (a : jsnum) : a ⊞ JNaN = JNaN.
Proof. by destruct a. Qed.

Lemma or_zero_num (v : Z) : or_zero (Some (JNum v)) = JNum v.
Proof. unfold or_zero. case_decide; subst; done. Qed.

Lemma to_fixed2_exact (v : Z) : to_fixed2 1 (JNum v) = JNum v.
Proof. simpl. f_equal. rewrite <- (Z.mul_1_r v) at 1. apply round_div_exact. lia. Qed.

Lemma to_fixed2_1 (x : jsnum) : to_fixed2 1 x = x.
Proof. destruct x as [v|]; [apply to_fixed2_exact|done]. Qed.

Lemma jadd_0_l (a : jsnum) : JNum 0 ⊞ a = a.
Proof. by destruct a. Qed.

Lemma jadd_0_r (a : jsnum) : a ⊞ JNum 0 = a.
Proof. destruct a; simpl; [by rewrite Z.add_0_r|done]. Qed.

Lemma jadd_num_inv (a b : jsnum) : a ⊞ b <> JNaN -> a <> JNaN /\ b <> JNaN.
Proof. destruct a, b; simpl; done. Qed.

(** The sum of a list of numbers, NaN as soon as one of them is. *)
Definition jsum (l : list jsnum) : jsnum := foldr jadd (JNum 0) l.

Lemma jsum_perm (l l' : list jsnum) : l ≡ₚ l' -> jsum l = jsum l'.
Proof.
  induction 1 as [|x l l' _ IH|x y l|l l' l'' _ IH1 _ IH2]; simpl; try congruence.
  by rewrite <- !jadd_assoc, (jadd_comm y x).
Qed.

#[export] Hint Rewrite jadd_nan_r or_zero_num to_fixed2_exact to_fixed2_1 jadd_0_l jadd_0_r : wl_rw.

(** ** Insertion-ordered [Map<string, V>] *)
Module JsMap.
Section JsMap.
Context {V : Type}.

(** Entries in insertion order; keys are distinct. *)
Definition t := list (string * V).

Fixpoint get (k : string) (m : t) : option V :=
  match m with
  | [] => None
  | (k', v) :: m' => if String.eqb k k' then Some v else get k m'
  end.

(** [m.set(k, v)]: replaces the value in place when [k] is present,
    appends a new entry otherwise. *)
Fixpoint set (k : string) (v : V) (m : t) : t :=
  match m with
  | [] => [(k, v)]
  | (k', v') :: m' => if String.eqb k k' then (k', v) :: m' else (k', v') :: set k v m'
  end.

Definition keys (m : t) : list string := map fst m.

Lemma get_set_eq k v m : get k (set k v m) = Some v.
Proof.
  induction m as [|[k' v'] m IH]; simpl; [by rewrite String.eqb_refl|].
  destruct (String.eqb_spec k k') as [->|]; simpl; [by rewrite String.eqb_refl|].
  destruct (String.eqb_spec k k'); [done|exact IH].
Qed.

Lemma get_set_ne k k2 v m : k <> k2 -> get k2 (set k v m) = get k2 m.
Proof.
  intros Hne. induction m as [|[k' v'] m IH]; simpl.
  - destruct (String.eqb_spec k2 k); [congruence|done].
  - destruct (String.eqb_spec k k') as [->|]; simpl.
    + destruct (String.eqb_spec k2 k'); [congruence|done].
    + destruct (String.eqb_spec k2 k'); [done|exact IH].
Qed.

(** Setting a key that is present keeps the keys and their order. *)
Lemma keys_set_present k v m : k ∈ keys m -> keys (set k v m) = keys m.
Proof.
  induction m as [|[k' v'] m IH]; simpl; [by intros ?%elem_of_nil|].
  intros Hin. destruct (String.eqb_spec k k') as [->|Hne]; simpl; [done|].
  f_equal. apply IH. apply elem_of_cons in Hin as [->|]; [congruence|done].
Qed.

Lemma get_Some_in k m v : get k m = Some v -> k ∈ keys m.
Proof.
  induction m as [|[k' v'] m IH]; simpl; [done|].
  destruct (String.eqb_spec k k') as [->|]; intros H; [left|right; auto].
Qed.

Lemma get_in k m : k ∈ keys m -> exists v, get k m = Some v.
Proof.
  induction m as [|[k' v'] m IH]; simpl; [by intros ?%elem_of_nil|].
  destruct (String.eqb_spec k k') as [->|Hne]; [eauto|].
  intros [->|?]%elem_of_cons; [done|auto].
Qed.

(** With distinct keys, each entry is what [get] finds for its key. *)
Lemma get_elem_of k v m : NoDup (keys m) -> (k, v) ∈ m -> get k m = Some v.
Proof.
  induction m as [|[k' v'] m IH]; simpl; [by intros _ ?%elem_of_nil|].
  intros [Hk Hnd]%NoDup_cons [[= -> ->]|Hin]%elem_of_cons; [by rewrite String.eqb_refl|].
  destruct (String.eqb_spec k k') as [->|]; [|by apply IH].
  destruct Hk. apply (list_elem_of_fmap_2 fst) in Hin. exact Hin.
Qed.

(** Setting a new key appends it. *)
Lemma keys_set_new k v m : k ∉ keys m -> keys (set k v m) = keys m ++ [k].
Proof.
  induction m as [|[k' v'] m IH]; simpl; [done|].
  intros Hin. destruct (String.eqb_spec k k') as [->|Hne]; [by destruct Hin; left|].
  simpl. f_equal. apply IH. intros ?. apply Hin. by right.
Qed.

(** The loop [for (k of ks) m.set(k, v)] over distinct new keys. *)
Lemma keys_fold_set ks v m :
  NoDup ks -> (forall k, k ∈ ks -> k ∉ keys m) ->
  keys (fold_left (fun m k => set k v m) ks m) = keys m ++ ks.
Proof.
  revert m. induction ks as [|k ks IH]; intros m Hnd Hnew; simpl; [by rewrite app_nil_r|].
  apply NoDup_cons in Hnd as [Hk Hnd].
  rewrite IH, keys_set_new, <- app_assoc; [done|apply Hnew; left|done|].
  intros k' Hk'. rewrite keys_set_new by (apply Hnew; left).
  intros [?|?%list_elem_of_singleton]%elem_of_app; [|by subst].
  by apply (Hnew k'); [right|].
Qed.

Lemma get_fold_set_other ks v m k :
  k ∉ ks -> get k (fold_left (fun m k => set k v m) ks m) = get k m.
Proof.
  revert m. induction ks as [|k' ks IH]; intros m Hk; simpl; [done|].
  apply not_elem_of_cons in Hk as [Hne Hk]. rewrite IH by done. by apply get_set_ne.
Qed.

Lemma get_fold_set ks v m k :
  k ∈ ks -> get k (fold_left (fun m k => set k v m) ks m) = Some v.
Proof.
  revert m. induction ks as [|k' ks IH]; intros m Hk; simpl; [by apply elem_of_nil in Hk|].
  destruct (decide (k ∈ ks)) as [Hin|Hnin]; [by apply IH|].
  apply elem_of_cons in Hk as [<-|]; [|done].
  by rewrite get_fold_set_other, get_set_eq.
Qed.
End JsMap.
End JsMap.

#[export] Hint Resolve JsMap.get_set_eq JsMap.keys_set_present : wl.
