(* ===== verification/Calendar.v ===== *)
(** The calendar the server computes with: proleptic Gregorian dates and
    day numbers (days since 1970-01-01), JavaScript time values in a
    fixed local UTC offset, and the date-fns functions of
    [src/server/routes.ts]: [startOfWeek]/[endOfWeek] with
    [weekStartsOn: 1], [addDays], [endOfMonth], [format(_, 'yyyy-MM-dd')],
    [format(_, 'EEE')], and the parsing of ["YYYY-MM-DD"] by [new Date]
    (V8) and by the PostgreSQL [date] column. *)

From S2P Require Import Prelude.

Open Scope Z_scope.

Record cdate := mkDate { year : Z; month : Z; day : Z }.

#[export] Instance cdate_eq_dec : EqDecision cdate.
Proof. solve_decision. Defined.

Definition is_leap (y : Z) : bool :=
  (y mod 4 =? 0) && (negb (y mod 100 =? 0) || (y mod 400 =? 0)).

Definition days_in_month (y m : Z) : Z :=
  if m =? 2 then (if is_leap y then 29 else 28)
  else if (m =? 4) || (m =? 6) || (m =? 9) || (m =? 11) then 30 else 31.

Definition valid_date (c : cdate) : bool :=
  (1 <=? month c) && (month c <=? 12) && (1 <=? day c) &&
  (day c <=? days_in_month (year c) (month c)).

Lemma days_in_month_bounds (y m : Z) : 28 <= days_in_month y m <= 31.
Proof. unfold days_in_month. repeat case_match; lia. Qed.

Lemma valid_date_spec (c : cdate) :
  valid_date c = true <->
  1 <= month c <= 12 /\ 1 <= day c <= days_in_month (year c) (month c).
Proof.
  unfold valid_date. rewrite !andb_true_iff, !Z.leb_le. tauto.
Qed.

(** Day number of a civil date (H. Hinnant's [days_from_civil]). *)
Definition days_from_civil (c : cdate) : Z :=
  let y' := if month c <=? 2 then year c - 1 else year c in
  let era := y' / 400 in
  let yoe := y' - era * 400 in
  let mp := if month c >? 2 then month c - 3 else month c + 9 in
  let doy := (153 * mp + 2) / 5 + day c - 1 in
  let doe := yoe * 365 + yoe / 4 - yoe / 100 + doy in
  era * 146097 + doe - 719468.

(** Civil date of a day number ([civil_from_days]). *)
Definition civil_from_days (z : Z) : cdate :=
  let z' := z + 719468 in
  let era := z' / 146097 in
  let doe := z' - era * 146097 in
  let yoe := (doe - doe / 1460 + doe / 36524 - doe / 146096) / 365 in
  let doy := doe - (365 * yoe + yoe / 4 - yoe / 100) in
  let mp := (5 * doy + 2) / 153 in
  let d := doy - (153 * mp + 2) / 5 + 1 in
  let m := if mp <? 10 then mp + 3 else mp - 9 in
  let y := yoe + era * 400 in
  mkDate (if m <=? 2 then y + 1 else y) m d.

(** [getDay()]: 0 is Sunday; 1970-01-01 was a Thursday. *)
Definition weekday (z : Z) : Z := (z + 4) mod 7.

Definition ms_per_day : Z := 86400000.

(** The year the [Date] constructor uses for the argument [y]. *)
Definition date_ctor_year (y : Z) : Z := if (0 <=? y) && (y <=? 99) then 1900 + y else y.

(** ** Local time with a fixed offset [tz] (minutes east of UTC) *)
Section Local.
Variable tz : Z.

(** The local day number of the time value [t]. *)
Definition local_day (t : Z) : Z := (t + tz * 60000) / ms_per_day.

(** The time value of local midnight starting day [z]. *)
Definition local_midnight (z : Z) : Z := z * ms_per_day - tz * 60000.

(** [getFullYear()], [getMonth()] (0-based), [getDate()]. *)
Definition local_civil (t : Z) : cdate := civil_from_days (local_day t).
Definition getFullYear (t : Z) : Z := year (local_civil t).
Definition getMonth (t : Z) : Z := month (local_civil t) - 1.
Definition getDate (t : Z) : Z := day (local_civil t).
Definition getDay (t : Z) : Z := weekday (local_day t).

(** [MakeDay(y, m, d)] at local midnight, as [setFullYear(y, m, d)]
    uses it: [m] 0-based, overflowing months and days carried over. *)
Definition make_local (y m d : Z) : Z :=
  local_midnight (days_from_civil (mkDate (y + m / 12) (m mod 12 + 1) 1) + d - 1).

(** [new Date(y, m, d)]: the constructor first reads a year [y] in
    0..99 as [1900 + y] (ECMAScript, [Date ( ...values )], step 5.j). *)
Definition new_Date_local (y m d : Z) : Z :=
  make_local (date_ctor_year y) m d.

(** date-fns [startOfWeek(date, { weekStartsOn: 1 })]. *)
Definition startOfWeek (t : Z) : Z :=
  let day := getDay t in
  let diff := (if day <? 1 then 7 else 0) + day - 1 in
  local_midnight (local_day t - diff).

(** date-fns [endOfWeek(date, { weekStartsOn: 1 })]: 23:59:59.999. *)
Definition endOfWeek (t : Z) : Z :=
  let day := getDay t in
  let diff := (if day <? 1 then -7 else 0) + 6 - (day - 1) in
  local_midnight (local_day t + diff) + (ms_per_day - 1).

(** date-fns [addDays] ([setDate(getDate() + amount)]): same local time
    of day, [n] days later. *)
Definition addDays (t n : Z) : Z := t + n * ms_per_day.

(** date-fns [endOfMonth] ([setFullYear(getFullYear(), getMonth() + 1,
    0)], then [setHours(23, 59, 59, 999)]): last day of the month. *)
Definition endOfMonth (t : Z) : Z :=
  make_local (getFullYear t) (getMonth t + 1) 0 + (ms_per_day - 1).
End Local.

(** ** Strings *)

(** A two-digit (or longer) zero-padded field. *)
Definition pad2 (n : Z) : string := pad_start0 2 (z_to_string n).

(** The ["yyyy-MM-dd"] text of a civil date; [yyyy] is the era year of
    date-fns ([1 - y] for years [y <= 0]), padded to 4 digits. *)
Definition ymd_string (c : cdate) : string :=
  let y := if 0 <? year c then year c else 1 - year c in
  (pad_start0 4 (z_to_string y) ++ "-" ++ pad2 (month c) ++ "-" ++ pad2 (day c))%string.

(** date-fns [format(t, 'yyyy-MM-dd')] in local time. *)
Definition format_ymd (tz t : Z) : string := ymd_string (local_civil tz t).

(** date-fns [format(t, 'EEE')] (en-US abbreviations). *)
Definition day_abbrev (wd : Z) : string :=
  match wd with
  | 0 => "Sun" | 1 => "Mon" | 2 => "Tue" | 3 => "Wed" | 4 => "Thu" | 5 => "Fri"
  | _ => "Sat"
  end.

Definition format_EEE (tz t : Z) : string := day_abbrev (getDay tz t).

(** Two digits at a fixed position. *)
Definition two_digits (a b : ascii) : option Z :=
  match char_digit a, char_digit b with Some x, Some y => Some (10 * x + y) | _, _ => None end.

(** V8's [new Date("YYYY-MM-DD")]: a date-only ISO string is UTC
    midnight; the month must be 1..12 and the day 1..31, a day past the
    end of the month carries into the next month.  [None] is Invalid
    Date. *)
Definition js_date_parse (s : string) : option Z :=
  match s with
  | String y1 (String y2 (String y3 (String y4 (String "-"
      (String m1 (String m2 (String "-" (String d1 (String d2 EmptyString))))))))) =>
      match two_digits y1 y2, two_digits y3 y4, two_digits m1 m2, two_digits d1 d2 with
      | Some yh, Some yl, Some m, Some d =>
          if (1 <=? m) && (m <=? 12) && (1 <=? d) && (d <=? 31)
          then Some ((days_from_civil (mkDate (100 * yh + yl) m 1) + d - 1) * ms_per_day)
          else None
      | _, _, _, _ => None
      end
  | _ => None
  end.

(** Digits up to the first ["-"]: the value, the count, the rest. *)
Fixpoint read_until_dash (s : string) (acc : Z) (n : nat) : option (Z * nat * string) :=
  match s with
  | EmptyString => None
  | String c s' =>
      if Ascii.eqb c "-" then Some (acc, n, s')
      else match char_digit c with
           | Some d => read_until_dash s' (10 * acc + d) (S n)
           | None => None
           end
  end.

(** PostgreSQL's [date] input for ["YYYY-MM-DD"] text (four or more year
    digits): the date must exist and be AD. *)
Definition pg_date_in (s : string) : option cdate :=
  match read_until_dash s 0 0 with
  | Some (y, n, String m1 (String m2 (String "-" (String d1 (String d2 EmptyString))))) =>
      match two_digits m1 m2, two_digits d1 d2 with
      | Some m, Some d =>
          let c := mkDate y m d in
          if (4 <=? n)%nat && (1 <=? y) && valid_date c then Some c else None
      | _, _ => None
      end
  | _ => None
  end.

(** PostgreSQL's [date] output (ISO style, AD years). *)
Definition pg_date_out (c : cdate) : string := ymd_string c.

(** ** Day numbers and civil dates are inverse bijections *)

(** Both directions are checked by computation over one 400-year era
    (146097 days); the calendar repeats with that period. *)
Definition era_day_ok (z : Z) : bool :=
  valid_date (civil_from_days z) && (days_from_civil (civil_from_days z) =? z).

Definition cdate_eqb (a b : cdate) : bool :=
  (year a =? year b) && (month a =? month b) && (day a =? day b).

Definition era_date_ok (y m d : Z) : bool :=
  cdate_eqb (civil_from_days (days_from_civil (mkDate y m d))) (mkDate y m d).

Definition era_month_ok (y m : Z) : bool :=
  forall_range (era_date_ok y m) 1 (Z.to_pos (days_in_month y m)).

Definition era_year_ok (y : Z) : bool := forall_range (era_month_ok y) 1 12.



Lemma check_era_days_ok : forall_range era_day_ok 0 146097 = true.
Proof. vm_compute. reflexivity. Qed.

Lemma check_era_dates_ok : forall_range era_year_ok 0 400 = true.
Proof. vm_compute. reflexivity. Qed.

Lemma is_leap_shift (y k : Z) : is_leap (y + 400 * k) = is_leap y.
Proof.
  unfold is_leap.
  replace ((y + 400 * k) mod 4) with (y mod 4) by zdiv.
  replace ((y + 400 * k) mod 100) with (y mod 100) by zdiv.
  replace ((y + 400 * k) mod 400) with (y mod 400) by zdiv.
  done.
Qed.

Lemma valid_date_shift (y m d k : Z) :
  valid_date (mkDate (y + 400 * k) m d) = valid_date (mkDate y m d).
Proof. unfold valid_date, days_in_month. simpl. by rewrite is_leap_shift. Qed.

Lemma days_from_civil_shift (y m d k : Z) :
  days_from_civil (mkDate (400 * k + y) m d) = 146097 * k + days_from_civil (mkDate y m d).
Proof.
  unfold days_from_civil. simpl.
  destruct (m <=? 2);
    [replace (400 * k + y - 1) with ((y - 1) + k * 400) by ring
    |replace (400 * k + y) with (y + k * 400) by ring];
    rewrite Z.div_add by lia; ring_simplify; zdiv.
Qed.

Lemma civil_from_days_shift (z k : Z) :
  civil_from_days (146097 * k + z) =
  mkDate (400 * k + year (civil_from_days z)) (month (civil_from_days z)) (day (civil_from_days z)).
Proof.
  unfold civil_from_days.
  replace (146097 * k + z + 719468) with (z + 719468 + k * 146097) by ring.
  rewrite Z.div_add by lia.
  replace (z + 719468 + k * 146097 - (( z + 719468) / 146097 + k) * 146097)
    with (z + 719468 - (z + 719468) / 146097 * 146097) by ring.
  cbv zeta. simpl. destruct (_ <=? 2); f_equal; ring.
Qed.

(** The era decomposition used by the three lemmas below. *)
Lemma cdate_eqb_eq (a b : cdate) : cdate_eqb a b = true -> a = b.
Proof.
  destruct a, b. unfold cdate_eqb. simpl. rewrite !andb_true_iff, !Z.eqb_eq.
  intros [[-> ->] ->]. done.
Qed.

Lemma era_split (z : Z) (p : Z) : 0 < p -> z = p * (z / p) + z mod p /\ 0 <= z mod p < p.
Proof. intros Hp. split; [apply Z.div_mod; lia|apply Z.mod_pos_bound; lia]. Qed.

Lemma era_day_check (z : Z) :
  0 <= z < 146097 ->
  valid_date (civil_from_days z) = true /\ days_from_civil (civil_from_days z) = z.
Proof.
  intros Hz. pose proof (forall_range_spec era_day_ok 0 146097 z check_era_days_ok) as H.
  specialize (H ltac:(lia)).
  destruct (andb_prop (valid_date (civil_from_days z))
              (days_from_civil (civil_from_days z) =? z) H) as [H1 H2].
  split; [exact H1|apply Z.eqb_eq; exact H2].
Qed.

Lemma civil_from_days_valid (z : Z) : valid_date (civil_from_days z) = true.
Proof.
  destruct (era_split z 146097) as [Hz Hr]; [lia|]. rewrite Hz, civil_from_days_shift.
  destruct (era_day_check (z mod 146097) Hr) as [Hv _].
  destruct (civil_from_days (z mod 146097)) as [y m d]. simpl.
  rewrite Z.add_comm, valid_date_shift. exact Hv.
Qed.

Lemma days_from_civil_from_days (z : Z) : days_from_civil (civil_from_days z) = z.
Proof.
  destruct (era_split z 146097) as [Hz Hr]; [lia|]. rewrite Hz at 1.
  rewrite civil_from_days_shift.
  destruct (era_day_check (z mod 146097) Hr) as [_ He].
  destruct (civil_from_days (z mod 146097)) as [y m d]. simpl.
  rewrite days_from_civil_shift, He. lia.
Qed.

Lemma era_date_check (y m d : Z) :
  0 <= y < 400 -> 1 <= m <= 12 -> 1 <= d <= days_in_month y m ->
  civil_from_days (days_from_civil (mkDate y m d)) = mkDate y m d.
Proof.
  intros Hy Hm Hd.
  pose proof (forall_range_spec era_year_ok 0 400 y check_era_dates_ok ltac:(lia)) as H.
  pose proof (forall_range_spec (era_month_ok y) 1 12 m H ltac:(lia)) as H'.
  pose proof (days_in_month_bounds y m) as Hb.
  pose proof (forall_range_spec (era_date_ok y m) 1 (Z.to_pos (days_in_month y m)) d H'
                ltac:(rewrite Z2Pos.id; lia)) as H''.
  exact (cdate_eqb_eq _ _ H'').
Qed.

Lemma civil_from_days_from_civil (c : cdate) :
  valid_date c = true -> civil_from_days (days_from_civil c) = c.
Proof.
  destruct c as [y m d]. intros Hv.
  destruct (era_split y 400) as [Hy Hr]; [lia|]. rewrite Hy in Hv |- *.
  rewrite days_from_civil_shift, civil_from_days_shift.
  rewrite Z.add_comm, valid_date_shift, valid_date_spec in Hv. simpl in Hv.
  rewrite era_date_check by lia. done.
Qed.

#[export] Hint Rewrite days_from_civil_from_days : wl_rw.
#[export] Hint Resolve civil_from_days_valid : wl.

(** ** Text of dates *)

(** [pad2] of a number below 100 is its two digits. *)
Definition pad2_small_ok (h : Z) : bool :=
  String.eqb (pad2 h) (String (digit_char (h / 10)) (String (digit_char (h mod 10)) EmptyString)).

Lemma pad2_small_check : forall_range pad2_small_ok 0 100 = true.
Proof. vm_compute. reflexivity. Qed.

Lemma pad2_small (h : Z) :
  0 <= h < 100 -> pad2 h = String (digit_char (h / 10)) (String (digit_char (h mod 10)) EmptyString).
Proof.
  intros Hh. apply String.eqb_eq, (forall_range_spec pad2_small_ok 0 100 h pad2_small_check). lia.
Qed.

Lemma read_until_dash_digits (s r : string) (acc : Z) (n : nat) (v : Z) :
  digits_value s acc = Some v ->
  read_until_dash (s ++ String "-" r) acc n = Some (v, (n + String.length s)%nat, r).
Proof.
  revert acc n. induction s as [|c s IH]; intros acc n Hs; simpl in *.
  - inversion Hs; subst. f_equal. f_equal. f_equal. lia.
  - destruct (char_digit c) as [d|] eqn:Ec; [|done].
    destruct (Ascii.eqb_spec c "-") as [->|]; [discriminate|].
    rewrite (IH _ _ Hs). do 3 f_equal. lia.
Qed.

Lemma length_pad_start0 (w : nat) (s : string) : (w <= String.length (pad_start0 w s))%nat.
Proof.
  unfold pad_start0. rewrite string_length_app.
  assert (Hz : forall k, String.length (zeros k) = k) by (induction k; simpl; auto).
  rewrite Hz. lia.
Qed.

Lemma pg_date_in_valid (s : string) (c : cdate) :
  pg_date_in s = Some c -> valid_date c = true /\ 1 <= year c.
Proof.
  unfold pg_date_in. repeat case_match; try discriminate.
  intros Hc. injection Hc as <-. simplify_eq.
  repeat match goal with H : (_ && _)%bool = true |- _ => apply andb_prop in H as [? ?] end.
  split; [done|]. simpl. lia.
Qed.

(** PostgreSQL reads back the date text it writes. *)
Lemma pg_date_roundtrip (c : cdate) :
  valid_date c = true -> 1 <= year c -> pg_date_in (pg_date_out c) = Some c.
Proof.
  intros Hv Hy. pose proof Hv as Hv'. apply valid_date_spec in Hv' as [Hm Hd].
  pose proof (days_in_month_bounds (year c) (month c)).
  unfold pg_date_in, pg_date_out, ymd_string.
  destruct (Z.ltb_spec 0 (year c)); [|lia].
  rewrite (pad2_small (month c)), (pad2_small (day c)) by lia.
  rewrite !string_app_cons, !string_app_nil.
  rewrite (read_until_dash_digits _ _ 0 0 (year c)) by (apply pad_start0_value, z_to_string_value; lia).
  unfold two_digits. rewrite !char_digit_char by zdiv.
  replace (10 * (month c / 10) + month c mod 10) with (month c) by zdiv.
  replace (10 * (day c / 10) + day c mod 10) with (day c) by zdiv.
  destruct c as [y m d]. cbn [year month day] in *.
  pose proof (length_pad_start0 4 (z_to_string y)).
  rewrite Hv, (proj2 (Nat.leb_le 4 _)), (proj2 (Z.leb_le 1 y)) by lia. done.
Qed.

(** The day of month enters the day number linearly. *)
Lemma days_from_civil_day (y m d k : Z) :
  days_from_civil (mkDate y m (d + k)) = days_from_civil (mkDate y m d) + k.
Proof. unfold days_from_civil. simpl. lia. Qed.

Lemma days_from_civil_inj (c1 c2 : cdate) :
  valid_date c1 = true -> valid_date c2 = true ->
  days_from_civil c1 = days_from_civil c2 -> c1 = c2.
Proof.
  intros H1 H2 E. rewrite <- (civil_from_days_from_civil c1), <- (civil_from_days_from_civil c2) by done.
  by rewrite E.
Qed.

(** The first day of a month follows the last day of the previous one
    (checked over one era for months 1 to 11; December to January is
    immediate from the formula). *)
Definition month_chain_ok (y m : Z) : bool :=
  days_from_civil (mkDate y (m + 1) 1) =? days_from_civil (mkDate y m (days_in_month y m)) + 1.

Definition month_chain_year_ok (y : Z) : bool := forall_range (month_chain_ok y) 1 11.

Lemma month_chain_check : forall_range month_chain_year_ok 0 400 = true.
Proof. vm_compute. reflexivity. Qed.

Lemma days_in_month_shift (y m k : Z) : days_in_month (400 * k + y) m = days_in_month y m.
Proof. unfold days_in_month. by rewrite Z.add_comm, is_leap_shift. Qed.

Lemma month_chain (y m : Z) :
  1 <= m <= 11 ->
  days_from_civil (mkDate y (m + 1) 1) = days_from_civil (mkDate y m (days_in_month y m)) + 1.
Proof.
  intros Hm. destruct (era_split y 400) as [Hy Hr]; [lia|].
  set (q := y / 400) in *. set (r := y mod 400) in *. clearbody q r. subst y.
  rewrite days_in_month_shift, !days_from_civil_shift.
  pose proof (forall_range_spec month_chain_year_ok 0 400 r month_chain_check ltac:(lia)) as H.
  pose proof (forall_range_spec (month_chain_ok r) 1 11 m H ltac:(lia)) as H'.
  apply Z.eqb_eq in H'. lia.
Qed.

Lemma year_chain (y : Z) :
  days_from_civil (mkDate (y + 1) 1 1) = days_from_civil (mkDate y 12 31) + 1.
Proof.
  unfold days_from_civil. cbn [year month day]. replace (y + 1 - 1) with y by ring. simpl.
  change ((153 * (1 + 9) + 2) / 5) with 306. change ((153 * (12 - 3) + 2) / 5) with 275. ring.
Qed.

(** The civil date of the day after a valid date. *)
Lemma civil_next_day (c : cdate) :
  valid_date c = true ->
  civil_from_days (days_from_civil c + 1) =
  if day c <? days_in_month (year c) (month c) then mkDate (year c) (month c) (day c + 1)
  else if month c <? 12 then mkDate (year c) (month c + 1) 1
  else mkDate (year c + 1) 1 1.
Proof.
  destruct c as [y m d]. intros Hv. pose proof Hv as Hv'.
  apply valid_date_spec in Hv' as [Hm Hd]; simpl in *.
  pose proof (days_in_month_bounds y (m + 1)).
  case_ltb; [|case_ltb].
  - rewrite <- days_from_civil_day. apply civil_from_days_from_civil.
    apply valid_date_spec. simpl. lia.
  - assert (d = days_in_month y m) as -> by lia.
    rewrite <- month_chain by lia. apply civil_from_days_from_civil.
    apply valid_date_spec. simpl. lia.
  - assert (m = 12) as -> by lia. assert (d = 31) as -> by (unfold days_in_month in *; simpl in *; lia).
    rewrite <- year_chain. apply civil_from_days_from_civil. done.
Qed.

(** The year of the next day is the same or the next one. *)
Lemma year_succ (z : Z) :
  year (civil_from_days (z + 1)) = year (civil_from_days z) \/
  year (civil_from_days (z + 1)) = year (civil_from_days z) + 1.
Proof.
  replace (z + 1) with (days_from_civil (civil_from_days z) + 1)
    by (rewrite days_from_civil_from_days; done).
  rewrite civil_next_day by apply civil_from_days_valid.
  destruct (civil_from_days z) as [y m d]. cbn [year month day].
  repeat case_ltb; cbn [year]; lia.
Qed.

Lemma year_mono (z k : Z) : 0 <= k -> year (civil_from_days z) <= year (civil_from_days (z + k)).
Proof.
  intros Hk. rewrite <- (Z2Nat.id k) by done. induction (Z.to_nat k) as [|n IH].
  - rewrite Z.add_0_r. lia.
  - rewrite Nat2Z.inj_succ, <- Z.add_1_r, Z.add_assoc.
    destruct (year_succ (z + Z.of_nat n)); lia.
Qed.

(** ** Local days *)

Lemma local_day_midnight (tz z r : Z) :
  0 <= r < ms_per_day -> local_day tz (local_midnight tz z + r) = z.
Proof. intros Hr. unfold local_day, local_midnight, ms_per_day in *. zdiv. Qed.

Lemma local_day_midnight0 (tz z : Z) : local_day tz (local_midnight tz z) = z.
Proof. rewrite <- (Z.add_0_r (local_midnight tz z)). apply local_day_midnight. unfold ms_per_day. lia. Qed.

(** UTC midnight of day [z] is, in local time, day [z] east of UTC and day
    [z - 1] west of it. *)
Lemma local_day_utc_midnight (tz z : Z) :
  -1440 < tz < 1440 -> local_day tz (z * ms_per_day) = if tz <? 0 then z - 1 else z.
Proof. intros Htz. unfold local_day, ms_per_day. case_ltb; zdiv. Qed.

Lemma startOfWeek_day (tz t : Z) :
  local_day tz (startOfWeek tz t) = local_day tz t - (local_day tz t + 3) mod 7.
Proof.
  unfold startOfWeek, getDay, weekday. rewrite local_day_midnight0.
  set (D := local_day tz t). case_ltb; zdiv.
Qed.

Lemma endOfWeek_day (tz t : Z) :
  local_day tz (endOfWeek tz t) = local_day tz (startOfWeek tz t) + 6.
Proof.
  rewrite startOfWeek_day. unfold endOfWeek, getDay, weekday.
  rewrite local_day_midnight by (unfold ms_per_day; lia).
  set (D := local_day tz t). case_ltb; zdiv.
Qed.

(** The week starts on a Monday and contains the reference day. *)
Lemma startOfWeek_monday (tz t : Z) :
  weekday (local_day tz (startOfWeek tz t)) = 1 /\
  local_day tz (startOfWeek tz t) <= local_day tz t <= local_day tz (startOfWeek tz t) + 6.
Proof. rewrite startOfWeek_day. unfold weekday. zdiv. Qed.

Lemma addDays_midnight (tz z i : Z) :
  addDays (local_midnight tz z) i = local_midnight tz (z + i).
Proof. unfold addDays, local_midnight. lia. Qed.

#[export] Hint Rewrite local_day_midnight0 addDays_midnight : wl_rw.

(** ** Four-digit years and month boundaries in local time *)

(** [pad_start0 4] of a year below 10000 is its four digits. *)
Definition pad4_ok (y : Z) : bool :=
  String.eqb (pad_start0 4 (z_to_string y))
    (String (digit_char (y / 1000)) (String (digit_char (y / 100 mod 10))
      (String (digit_char (y / 10 mod 10)) (String (digit_char (y mod 10)) EmptyString)))).

Lemma pad4_check : forall_range pad4_ok 0 10000 = true.
Proof. vm_compute. reflexivity. Qed.

Lemma pad4_small (y : Z) :
  0 <= y < 10000 ->
  pad_start0 4 (z_to_string y) =
    String (digit_char (y / 1000)) (String (digit_char (y / 100 mod 10))
      (String (digit_char (y / 10 mod 10)) (String (digit_char (y mod 10)) EmptyString))).
Proof. intros Hy. apply String.eqb_eq, (forall_range_spec pad4_ok 0 10000 y pad4_check). lia. Qed.

(** V8 reads the ["yyyy-MM-dd"] text of a date of years 1 to 9999 as UTC
    midnight of that date. *)
Lemma js_date_parse_ymd (c : cdate) :
  valid_date c = true -> 1 <= year c <= 9999 ->
  js_date_parse (ymd_string c) = Some (days_from_civil c * ms_per_day).
Proof.
  intros Hv Hy. pose proof Hv as Hv'. apply valid_date_spec in Hv' as [Hm Hd].
  pose proof (days_in_month_bounds (year c) (month c)).
  unfold js_date_parse, ymd_string.
  destruct (Z.ltb_spec 0 (year c)); [|lia].
  rewrite pad4_small, (pad2_small (month c)), (pad2_small (day c)) by lia.
  rewrite !string_app_cons, !string_app_nil.
  unfold two_digits. rewrite !char_digit_char by zdiv.
  destruct c as [y m d]. cbn [year month day] in *.
  replace (1 <=? 10 * (m / 10) + m mod 10) with true by (symmetry; apply Z.leb_le; zdiv).
  replace (10 * (m / 10) + m mod 10 <=? 12) with true by (symmetry; apply Z.leb_le; zdiv).
  replace (1 <=? 10 * (d / 10) + d mod 10) with true by (symmetry; apply Z.leb_le; zdiv).
  replace (10 * (d / 10) + d mod 10 <=? 31) with true by (symmetry; apply Z.leb_le; zdiv).
  simpl. do 2 f_equal.
  replace (100 * (10 * (y / 1000) + y / 100 mod 10) + (10 * (y / 10 mod 10) + y mod 10)) with y
    by zdiv.
  replace (10 * (m / 10) + m mod 10) with m by zdiv.
  replace (10 * (d / 10) + d mod 10) with d by zdiv.
  pose proof (days_from_civil_day y m 1 (d - 1)) as E.
  replace (1 + (d - 1)) with d in E by ring. lia.
Qed.

(** The ["yyyy-MM-dd"] text tells AD dates apart. *)
Lemma ymd_string_inj (c1 c2 : cdate) :
  valid_date c1 = true -> 1 <= year c1 -> valid_date c2 = true -> 1 <= year c2 ->
  ymd_string c1 = ymd_string c2 -> c1 = c2.
Proof.
  intros H1 Y1 H2 Y2 E. pose proof (pg_date_roundtrip c1 H1 Y1) as R1.
  unfold pg_date_out in R1. rewrite E, pg_date_roundtrip in R1 by done. congruence.
Qed.

Lemma local_civil_valid (tz t : Z) : valid_date (local_civil tz t) = true.
Proof. apply civil_from_days_valid. Qed.

Lemma getMonth_range (tz t : Z) : 0 <= getMonth tz t <= 11.
Proof.
  unfold getMonth. pose proof (local_civil_valid tz t) as H.
  apply valid_date_spec in H. lia.
Qed.

(** [new Date(y, m, d)] for a month [m] of the year is local midnight of
    day [d] counted from the first of the month, in the year the
    constructor reads [y] as. *)
Lemma new_Date_local_day (tz y m d : Z) :
  0 <= m <= 11 ->
  local_day tz (new_Date_local tz y m d) = days_from_civil (mkDate (date_ctor_year y) (m + 1) 1) + d - 1.
Proof.
  intros Hm. unfold new_Date_local, make_local. rewrite local_day_midnight0.
  rewrite Z.div_small, Z.mod_small by lia. rewrite Z.add_0_r. done.
Qed.

Lemma date_ctor_year_large (y : Z) : 100 <= y -> date_ctor_year y = y.
Proof. intros Hy. unfold date_ctor_year. destruct (Z.leb_spec 0 y), (Z.leb_spec y 99); simpl; lia. Qed.

Lemma date_ctor_year_pos (y : Z) : 1 <= y -> 1 <= date_ctor_year y.
Proof. intros Hy. unfold date_ctor_year. destruct (Z.leb_spec 0 y), (Z.leb_spec y 99); simpl; lia. Qed.

(** [endOfMonth] falls on the last day of the local month. *)
Lemma endOfMonth_day (tz t : Z) :
  local_day tz (endOfMonth tz t) =
  days_from_civil (mkDate (getFullYear tz t) (getMonth tz t + 1)
                     (days_in_month (getFullYear tz t) (getMonth tz t + 1))).
Proof.
  pose proof (getMonth_range tz t) as Hm.
  unfold endOfMonth, make_local.
  rewrite local_day_midnight by (unfold ms_per_day; lia).
  set (y := getFullYear tz t). set (m := getMonth tz t) in *. clearbody y m.
  destruct (Z.eq_dec m 11) as [->|Hne].
  - change ((11 + 1) / 12) with 1. change ((11 + 1) mod 12 + 1) with 1.
    rewrite year_chain. change (11 + 1) with 12.
    replace (days_in_month y 12) with 31 by reflexivity. lia.
  - rewrite Z.div_small, Z.mod_small by lia. rewrite !Z.add_0_r.
    rewrite month_chain by lia. lia.
Qed.

(** Formatting reads only the local day. *)
Lemma format_ymd_day (tz t t' : Z) :
  local_day tz t = local_day tz t' -> format_ymd tz t = format_ymd tz t'.
Proof. intros E. unfold format_ymd, local_civil. by rewrite E. Qed.

Lemma local_day_addDays (tz t i : Z) : local_day tz (addDays t i) = local_day tz t + i.
Proof.
  unfold local_day, addDays. replace (t + i * ms_per_day + tz * 60000)
    with (t + tz * 60000 + i * ms_per_day) by ring.
  rewrite Z.div_add by (unfold ms_per_day; lia). done.
Qed.

(** ** The calendar's contracts *)

(** Day numbers and valid civil dates are in bijection: every day number
    has a valid civil date and comes back from it, and every valid date
    comes back from its day number; the next day is the next date. *)
Theorem civil_days_bijection :
  (forall z, valid_date (civil_from_days z) = true /\ days_from_civil (civil_from_days z) = z) /\
  (forall c, valid_date c = true -> civil_from_days (days_from_civil c) = c) /\
  (forall z, year (civil_from_days (z + 1)) - year (civil_from_days z) <= 1).
Proof.
  split_and!.
  - intros z. split; [apply civil_from_days_valid|apply days_from_civil_from_days].
  - apply civil_from_days_from_civil.
  - intros z. destruct (year_succ z); lia.
Qed.

(** The ["yyyy-MM-dd"] text of a valid AD date is read back by
    PostgreSQL's [date] input as that date, and, for years up to 9999, by
    V8's [new Date(text)] as UTC midnight of that date. *)
Theorem date_text_roundtrip (c : cdate) :
  valid_date c = true -> 1 <= year c ->
  pg_date_in (pg_date_out c) = Some c /\
  (year c <= 9999 -> js_date_parse (ymd_string c) = Some (days_from_civil c * ms_per_day)).
Proof.
  intros Hv Hy. split; [by apply pg_date_roundtrip|]. intros Hy'. apply js_date_parse_ymd; [done|lia].
Qed.

Lemma civil_days_bijection_witness :
  valid_date (mkDate 2024 2 29) = true /\
  civil_from_days (days_from_civil (mkDate 2024 2 29)) = mkDate 2024 2 29.
Proof.
  split; [reflexivity|]. apply (proj1 (proj2 civil_days_bijection)). reflexivity.
Defined.

Lemma date_text_roundtrip_witness :
  pg_date_in "2024-02-29" = Some (mkDate 2024 2 29) /\
  js_date_parse "2024-02-29" = Some (days_from_civil (mkDate 2024 2 29) * ms_per_day).
Proof.
  destruct (date_text_roundtrip (mkDate 2024 2 29) eq_refl ltac:(cbn; lia)) as [H1 H2].
  split; [exact H1|]. apply H2. cbn. lia.
Defined.

