(* ===== verification/Duration.v ===== *)
(** The duration calculator of [src/server/storage.ts] ([createWorkLog],
    lines 29-35, and [updateWorkLog], lines 58-64): two clock times are
    parsed by date-fns [parse(_, 'HH:mm', new Date())], their difference
    in milliseconds is turned into hours, clamped at 0 and written with
    [toFixed(2)].  Also the PostgreSQL [time] column of
    [src/shared/schema.ts], whose text output (["HH:MM:SS"]) is what the
    code reads back as [startTime]/[endTime]. *)

From S2P Require Import Prelude JsRuntime Calendar.

Open Scope Z_scope.

(** ASCII characters matched by JavaScript's [\s]. *)
Definition is_ws (c : ascii) : bool :=
  let n := nat_of_ascii c in ((9 <=? n)%nat && (n <=? 13)%nat) || (n =? 32)%nat.

Fixpoint all_ws (s : string) : bool :=
  match s with EmptyString => true | String c s' => is_ws c && all_ws s' end.

(** date-fns' [parseNDigits(2)]: one or two digits, greedily. *)
Definition read_1_2_digits (s : string) : option (Z * string) :=
  match s with
  | String a s1 =>
      match char_digit a with
      | Some x =>
          match s1 with
          | String b s2 =>
              match char_digit b with Some y => Some (10 * x + y, s2) | None => Some (x, s1) end
          | EmptyString => Some (x, s1)
          end
      | None => None
      end
  | EmptyString => None
  end.

(** date-fns [parse(s, 'HH:mm', ref)] as minutes after local midnight:
    [HH] is 0..23, [mm] is 0..59, and what follows must be white space;
    otherwise the result is Invalid Date ([None]). *)
Definition parse_HHmm (s : string) : option Z :=
  match read_1_2_digits s with
  | Some (h, String ":" r) =>
      match read_1_2_digits r with
      | Some (mi, rest) =>
          if all_ws rest && (h <=? 23) && (mi <=? 59) then Some (60 * h + mi) else None
      | None => None
      end
  | _ => None
  end.

(** The time value of [parse(s, 'HH:mm', new Date())] when the clock
    reads [now]: that clock time on the local day of [now]. *)
Definition parse_time (tz now : Z) (s : string) : option Z :=
  (fun mins => local_midnight tz (local_day tz now) + mins * 60000) <$> parse_HHmm s.

(** [(end.getTime() - start.getTime()) / (1000*60*60)], then
    [if (durationHours < 0) durationHours = 0], then [toFixed(2)]:
    hundredths of an hour; NaN when either time is Invalid Date. *)
Definition duration_hours (start end_ : option Z) : jsnum :=
  match start, end_ with
  | Some a, Some b =>
      let ms := b - a in
      if ms <? 0 then JNum 0 else JNum (round_div (100 * ms) 3600000)
  | _, _ => JNaN
  end.

(** The hours of a shift as [createWorkLog]/[updateWorkLog] compute them;
    the two [new Date()] of the two [parse] calls are two clock readings. *)
Definition hours_worked (tz now1 now2 : Z) (startTime endTime : string) : jsnum :=
  duration_hours (parse_time tz now1 startTime) (parse_time tz now2 endTime).

(** The route's guard [if (end <= start)] on the same two parses. *)
Definition end_not_after_start (tz now1 now2 : Z) (startTime endTime : string) : bool :=
  date_le (parse_time tz now2 endTime) (parse_time tz now1 startTime).

(** ** The PostgreSQL [time] column *)

(** Input of ["HH:MM"] text: 00:00 to 23:59, and 24:00. *)
Definition pg_time_in (s : string) : option Z :=
  match s with
  | String h1 (String h2 (String ":" (String m1 (String m2 EmptyString)))) =>
      match two_digits h1 h2, two_digits m1 m2 with
      | Some h, Some mi =>
          if ((h <=? 23) && (mi <=? 59)) || ((h =? 24) && (mi =? 0)) then Some (60 * h + mi)
          else None
      | _, _ => None
      end
  | _ => None
  end.

(** Output: ["HH:MM:SS"]. *)
Definition pg_time_out (mins : Z) : string :=
  (pad2 (mins / 60) ++ ":" ++ pad2 (mins mod 60) ++ ":00")%string.

(** ** Properties *)

Lemma parse_time_some (tz now : Z) (s : string) (m : Z) :
  parse_HHmm s = Some m ->
  parse_time tz now s = Some (local_midnight tz (local_day tz now) + m * 60000).
Proof. intros H. unfold parse_time. by rewrite H. Qed.

(** The clock times of one local day: the hours depend on the minutes
    only. *)
Lemma hours_worked_same_day (tz now1 now2 : Z) (s e : string) (a b : Z) :
  parse_HHmm s = Some a -> parse_HHmm e = Some b -> local_day tz now1 = local_day tz now2 ->
  hours_worked tz now1 now2 s e = duration_hours (Some (a * 60000)) (Some (b * 60000)).
Proof.
  intros Hs He Hday. unfold hours_worked.
  rewrite (parse_time_some _ _ _ _ Hs), (parse_time_some _ _ _ _ He), Hday.
  unfold duration_hours.
  replace (local_midnight tz (local_day tz now2) + b * 60000 - (local_midnight tz (local_day tz now2) + a * 60000))
    with (b * 60000 - a * 60000) by ring.
  done.
Qed.

Lemma duration_minutes (a b : Z) :
  a <= b -> duration_hours (Some (a * 60000)) (Some (b * 60000)) = JNum (round_div (5 * (b - a)) 3).
Proof.
  intros Hab. unfold duration_hours. case_ltb; [lia|]. f_equal.
  replace (100 * (b * 60000 - a * 60000)) with ((5 * (b - a)) * 1200000) by ring.
  replace 3600000 with (3 * 1200000) by reflexivity.
  apply round_div_scale; lia.
Qed.

Lemma hours_worked_end_invalid (tz now1 now2 : Z) (s e : string) :
  parse_HHmm e = None -> hours_worked tz now1 now2 s e = JNaN.
Proof. intros He. unfold hours_worked, parse_time. rewrite He. by destruct (_ <$> _). Qed.

Lemma guard_end_invalid (tz now1 now2 : Z) (s e : string) :
  parse_HHmm e = None -> end_not_after_start tz now1 now2 s e = false.
Proof. intros He. unfold end_not_after_start, parse_time. by rewrite He. Qed.

Lemma guard_start_invalid (tz now1 now2 : Z) (s e : string) :
  parse_HHmm s = None -> end_not_after_start tz now1 now2 s e = false.
Proof. intros Hs. unfold end_not_after_start, parse_time. rewrite Hs. by destruct (_ <$> _). Qed.

(** C5: For two valid clock times read on the same local day with the end not
    before the start, the stored hours are the elapsed minutes times 5/3
    hundredths, rounded to the nearest hundredth. *)
Theorem hours_worked_exact (tz now1 now2 : Z) (s e : string) (a b : Z) :
  parse_HHmm s = Some a -> parse_HHmm e = Some b ->
  local_day tz now1 = local_day tz now2 -> a <= b ->
  hours_worked tz now1 now2 s e = JNum (round_div (5 * (b - a)) 3).
Proof.
  intros Hs He Hday Hab. rewrite (hours_worked_same_day _ _ _ _ _ _ _ Hs He Hday).
  by apply duration_minutes.
Qed.

(** The rounded hours are within a third of a hundredth of the exact
    value [5 * minutes / 3]: a tie never occurs, so the rounding of the
    floating-point quotient cannot differ from the exact one. *)
Theorem hours_worked_no_tie (a minutes : Z) :
  0 <= minutes ->
  exists v, duration_hours (Some a) (Some (a + minutes * 60000)) = JNum v /\
            Z.abs (3 * v - 5 * minutes) <= 1.
Proof.
  intros Hm. unfold duration_hours. case_ltb; [lia|].
  eexists. split; [reflexivity|].
  replace (100 * (a + minutes * 60000 - a)) with ((5 * minutes) * 1200000) by ring.
  replace 3600000 with (3 * 1200000) by reflexivity.
  rewrite round_div_scale by lia.
  pose proof (round_div_close (5 * minutes) 3 ltac:(lia)). lia.
Qed.

(** When the end time is before the start time (on the same local day) the
    duration is clamped to 0 instead of being negative. *)
Theorem hours_worked_clamp (tz now1 now2 : Z) (s e : string) (a b : Z) :
  parse_HHmm s = Some a -> parse_HHmm e = Some b ->
  local_day tz now1 = local_day tz now2 -> b < a ->
  hours_worked tz now1 now2 s e = JNum 0.
Proof.
  intros Hs He Hday Hab. rewrite (hours_worked_same_day _ _ _ _ _ _ _ Hs He Hday).
  unfold duration_hours. case_ltb; [done|lia].
Qed.

Lemma hours_worked_start_invalid (tz now1 now2 : Z) (s e : string) :
  parse_HHmm s = None -> hours_worked tz now1 now2 s e = JNaN.
Proof. intros Hs. unfold hours_worked, parse_time. rewrite Hs. done. Qed.

(** A time that date-fns cannot parse gives NaN hours (the comparison of
    the route's guard is false on Invalid Date, so it does not stop it). *)
Theorem hours_worked_invalid (tz now1 now2 : Z) (s e : string) :
  parse_HHmm e = None ->
  hours_worked tz now1 now2 s e = JNaN /\ end_not_after_start tz now1 now2 s e = false.
Proof.
  intros He. split; [apply hours_worked_end_invalid | apply guard_end_invalid]; done.
Qed.

(** The text PostgreSQL returns for a [time] column, ["HH:MM:SS"], is never
    accepted by date-fns [parse(_, 'HH:mm')]: the trailing [":SS"] is not
    white space.  So every time read back from the store parses to Invalid
    Date. *)
Theorem stored_time_unparseable (m : Z) :
  0 <= m <= 1440 -> parse_HHmm (pg_time_out m) = None.
Proof.
  intros Hm. unfold pg_time_out.
  rewrite (pad2_small (m / 60)), (pad2_small (m mod 60)) by zdiv.
  unfold parse_HHmm, read_1_2_digits. rewrite !string_app_cons, !string_app_nil.
  rewrite !char_digit_char by zdiv. reflexivity.
Qed.

Lemma char_digit_bound (c : ascii) (d : Z) : char_digit c = Some d -> 0 <= d <= 9.
Proof.
  unfold char_digit. destruct (_ && _)%bool eqn:E; [|done].
  apply andb_prop in E as [E1%Nat.leb_le E2%Nat.leb_le]. intros [= <-]. lia.
Qed.

Lemma two_digits_bound (a b : ascii) (v : Z) : two_digits a b = Some v -> 0 <= v <= 99.
Proof.
  unfold two_digits. destruct (char_digit a) eqn:Ea, (char_digit b) eqn:Eb; try done.
  apply char_digit_bound in Ea, Eb. intros [= <-]. lia.
Qed.

(** The [time] column holds 00:00 to 24:00. *)
Lemma pg_time_in_range (s : string) (m : Z) : pg_time_in s = Some m -> 0 <= m <= 1440.
Proof.
  intros H. unfold pg_time_in in H. repeat (case_match; try discriminate).
  repeat match goal with Hd : two_digits _ _ = Some _ |- _ => apply two_digits_bound in Hd end.
  injection H as <-.
  repeat match goal with
  | Hb : (_ || _)%bool = true |- _ => apply orb_prop in Hb as [Hb|Hb]
  | Hb : (_ && _)%bool = true |- _ => apply andb_prop in Hb as [? ?]
  | Hb : (_ <=? _) = true |- _ => apply Z.leb_le in Hb
  | Hb : (_ =? _) = true |- _ => apply Z.eqb_eq in Hb
  end; lia.
Qed.

Lemma hours_worked_exact_witness : hours_worked 0 0 0 "09:00" "17:30" = JNum 850.
Proof.
  rewrite (hours_worked_exact 0 0 0 "09:00" "17:30" 540 1050 eq_refl eq_refl eq_refl ltac:(lia)).
  vm_compute. reflexivity.
Defined.

Lemma hours_worked_clamp_witness : hours_worked 0 0 0 "17:00" "09:00" = JNum 0.
Proof. exact (hours_worked_clamp 0 0 0 "17:00" "09:00" 1020 540 eq_refl eq_refl eq_refl ltac:(lia)). Defined.

Lemma hours_worked_invalid_witness :
  hours_worked 0 0 0 "18:00" "24:00" = JNaN /\ end_not_after_start 0 0 0 "18:00" "24:00" = false.
Proof. exact (hours_worked_invalid 0 0 0 "18:00" "24:00" eq_refl). Defined.

Lemma hours_worked_no_tie_witness :
  duration_hours (Some 0) (Some (0 + 1 * 60000)) = JNum 2.
Proof.
  destruct (hours_worked_no_tie 0 1 ltac:(lia)) as (v & E & Hv).
  rewrite E. f_equal. lia.
Defined.

