(* ===== verification/Store.v ===== *)
(** The record store: the [work_logs] and [settings] tables of
    [src/shared/schema.ts], the [IStorage] interface of
    [src/server/storage.ts] as a typeclass with its laws, and
    [DatabaseStorage] as an implementation over a [gmap] of typed rows,
    the [serial] counter and the settings [gmap].  Rows are kept typed (a
    PostgreSQL [date], two [time]s in minutes, two [numeric]s) and are
    returned as the TypeScript [WorkLog] objects, whose fields are the
    columns' text forms. *)

From S2P Require Import Prelude JsRuntime Calendar Duration.
From stdpp Require Import sorting.

Open Scope Z_scope.

(** [typeof workLogs.$inferSelect]: what the store returns. *)
Module WorkLog.
Record t := mk {
  id : Z;
  date : string;
  startTime : string;
  endTime : string;
  hoursWorked : jsnum;
  hourlyRate : option Z;
  createdAt : Z;
  updatedAt : Z
}.
End WorkLog.

(** [InsertWorkLog]: the fields a caller supplies (rates in hundredths). *)
Module InsertWorkLog.
Record t := mk { date : string; startTime : string; endTime : string; hourlyRate : option Z }.
End InsertWorkLog.

(** [Partial<InsertWorkLog>]: the fields an update supplies. *)
Module UpdateWorkLog.
Record t := mk {
  date : option string;
  startTime : option string;
  endTime : option string;
  hourlyRate : option Z
}.
End UpdateWorkLog.

(** The clock readings a write makes: the two [new Date()] of the two
    [parse] calls and the time stamp of the write. *)
Record Clock := mkClock { c_start : Z; c_end : Z; c_write : Z }.

(** The date of a returned record as a day number, when it reads as a
    date. *)
Definition log_day (r : WorkLog.t) : option Z := days_from_civil <$> pg_date_in (WorkLog.date r).

(** [gte(workLogs.date, a) and lte(workLogs.date, b)] for bounds read as
    the dates [ca] and [cb]. *)
Definition log_in_range (ca cb : cdate) (r : WorkLog.t) : bool :=
  match log_day r with
  | Some z => (days_from_civil ca <=? z) && (z <=? days_from_civil cb)
  | None => false
  end.

Definition log_date_le (a b : WorkLog.t) : Prop :=
  match log_day a, log_day b with Some x, Some y => x <= y | _, _ => False end.

(** ** The interface [IStorage]

    [None] in a result is an error thrown by the store. *)
Class IStorage (S : Type) := {
  createWorkLog : Clock -> InsertWorkLog.t -> S -> option (WorkLog.t * S);
  getWorkLog : Z -> S -> option WorkLog.t;
  updateWorkLog : Clock -> Z -> UpdateWorkLog.t -> S -> option (option WorkLog.t * S);
  deleteWorkLog : Z -> S -> S;
  getWorkLogsByRange : string -> string -> S -> option (list WorkLog.t);
  getSetting : string -> S -> option string;
  updateSetting : string -> string -> S -> S;
  (** the records the store holds, and its well-formed states *)
  all_logs : S -> list WorkLog.t;
  store_wf : S -> Prop
}.

(** The contract of spec section 6 that the summary relies on. *)
Class IStorageLaws (S : Type) `{IStorage S} := {
  range_spec : forall s a b ca cb,
    store_wf s -> pg_date_in a = Some ca -> pg_date_in b = Some cb ->
    exists l, getWorkLogsByRange a b s = Some l /\
      Permutation l (filter (log_in_range ca cb) (all_logs s)) /\
      Sorted log_date_le l;
  range_bad_bound : forall s a b,
    pg_date_in a = None \/ pg_date_in b = None -> getWorkLogsByRange a b s = None;
  logs_canonical : forall s r, store_wf s -> r ∈ all_logs s ->
    exists c, valid_date c = true /\ 1 <= year c /\ WorkLog.date r = pg_date_out c
}.

(** ** [DatabaseStorage] *)
Module Database.

(** A row of [work_logs] as PostgreSQL holds it. *)
Record Row := mkRow {
  row_date : cdate;
  row_start : Z;
  row_end : Z;
  row_hours : jsnum;
  row_rate : option Z;
  row_created : Z;
  row_updated : Z
}.

Record DB := mkDB {
  rows : gmap Z Row;
  serial : Z;
  settings : gmap string string
}.

Definition empty_db : DB := mkDB ∅ 1 ∅.

(** The [WorkLog] object drizzle builds from a row. *)
Definition row_to_log (id : Z) (r : Row) : WorkLog.t :=
  WorkLog.mk id (pg_date_out (row_date r)) (pg_time_out (row_start r)) (pg_time_out (row_end r))
    (row_hours r) (row_rate r) (row_created r) (row_updated r).

(** [decimal(10, 2)] accepts less than 10^8 in magnitude. *)
Definition pg_rate_ok (r : option Z) : bool :=
  match r with Some x => Z.abs x <? 10 ^ 10 | None => true end.

(** [decimal(5, 2)] accepts less than 1000 in magnitude, and NaN. *)
Definition pg_hours_ok (h : jsnum) : bool :=
  match h with JNum v => Z.abs v <? 100000 | JNaN => true end.

(** [createWorkLog] (storage.ts lines 29-47): the hours are computed from
    the two times, then the row is inserted; PostgreSQL rejects a date,
    time or number its column cannot hold. *)
Definition db_createWorkLog (tz : Z) (ck : Clock) (ins : InsertWorkLog.t) (db : DB)
    : option (WorkLog.t * DB) :=
  let hours := hours_worked tz (c_start ck) (c_end ck)
                 (InsertWorkLog.startTime ins) (InsertWorkLog.endTime ins) in
  match pg_date_in (InsertWorkLog.date ins), pg_time_in (InsertWorkLog.startTime ins),
        pg_time_in (InsertWorkLog.endTime ins) with
  | Some d, Some st, Some et =>
      if pg_rate_ok (InsertWorkLog.hourlyRate ins) && pg_hours_ok hours then
        let row := mkRow d st et hours (InsertWorkLog.hourlyRate ins) (c_write ck) (c_write ck) in
        Some (row_to_log (serial db) row,
              mkDB (<[serial db := row]> (rows db)) (serial db + 1) (settings db))
      else None
  | _, _, _ => None
  end.

(** [getWorkLog] (lines 50-53). *)
Definition db_getWorkLog (id : Z) (db : DB) : option WorkLog.t :=
  row_to_log id <$> rows db !! id.

(** A supplied column value read by its column type: [None] is an error,
    [Some None] a field left out. *)
Definition opt_in {A} (f : string -> option A) (o : option string) : option (option A) :=
  match o with None => Some None | Some s => Some <$> f s end.

(** [updateWorkLog] (lines 55-77): [undefined] when the id is missing;
    otherwise the hours are recomputed from [updates.startTime ||
    existing.startTime] and [updates.endTime || existing.endTime] (the
    existing ones as the store returns them) and the supplied fields, the
    hours and [updatedAt] are written. *)
Definition db_updateWorkLog (tz : Z) (ck : Clock) (id : Z) (upd : UpdateWorkLog.t) (db : DB)
    : option (option WorkLog.t * DB) :=
  match db_getWorkLog id db, rows db !! id with
  | Some existing, Some r =>
      let startTime := or_str (UpdateWorkLog.startTime upd) (WorkLog.startTime existing) in
      let endTime := or_str (UpdateWorkLog.endTime upd) (WorkLog.endTime existing) in
      let hours := hours_worked tz (c_start ck) (c_end ck) startTime endTime in
      match opt_in pg_date_in (UpdateWorkLog.date upd),
            opt_in pg_time_in (UpdateWorkLog.startTime upd),
            opt_in pg_time_in (UpdateWorkLog.endTime upd) with
      | Some d, Some st, Some et =>
          if pg_rate_ok (UpdateWorkLog.hourlyRate upd) && pg_hours_ok hours then
            let row := mkRow (default (row_date r) d) (default (row_start r) st)
                             (default (row_end r) et) hours
                             (match UpdateWorkLog.hourlyRate upd with
                              | Some x => Some x | None => row_rate r end)
                             (row_created r) (c_write ck) in
            Some (Some (row_to_log id row), mkDB (<[id := row]> (rows db)) (serial db) (settings db))
          else None
      | _, _, _ => None
      end
  | _, _ => Some (None, db)
  end.

(** [deleteWorkLog] (lines 79-81). *)
Definition db_deleteWorkLog (id : Z) (db : DB) : DB :=
  mkDB (delete id (rows db)) (serial db) (settings db).

(** [orderBy(asc(workLogs.date), asc(workLogs.startTime))]. *)
Definition row_le (a b : Z * Row) : Prop :=
  let da := days_from_civil (row_date a.2) in
  let db := days_from_civil (row_date b.2) in
  da < db \/ (da = db /\ row_start a.2 <= row_start b.2).

#[export] Instance row_le_dec : RelDecision row_le.
Proof. intros a b. unfold row_le. apply _. Defined.

Definition row_in_range (ca cb : cdate) (e : Z * Row) : bool :=
  (days_from_civil ca <=? days_from_civil (row_date e.2)) &&
  (days_from_civil (row_date e.2) <=? days_from_civil cb).

(** [getWorkLogsByRange] (lines 83-95). *)
Definition db_getWorkLogsByRange (a b : string) (db : DB) : option (list WorkLog.t) :=
  match pg_date_in a, pg_date_in b with
  | Some ca, Some cb =>
      Some ((fun e => row_to_log e.1 e.2) <$>
              merge_sort row_le (filter (row_in_range ca cb) (map_to_list (rows db))))
  | _, _ => None
  end.

(** [getSetting] (lines 19-22) and [updateSetting], an upsert
    ([onConflictDoUpdate], lines 24-29). *)
Definition db_getSetting (k : string) (db : DB) : option string := settings db !! k.

Definition db_updateSetting (k v : string) (db : DB) : DB :=
  mkDB (rows db) (serial db) (<[k := v]> (settings db)).

(** The well-formed states: rows hold dates and times their columns
    accept, and every id is below the serial counter. *)
Definition row_wf (r : Row) : Prop :=
  valid_date (row_date r) = true /\ 1 <= year (row_date r) /\
  0 <= row_start r <= 1440 /\ 0 <= row_end r <= 1440.

Definition db_wf (db : DB) : Prop :=
  map_Forall (fun id r => id < serial db /\ row_wf r) (rows db).

Definition db_all_logs (db : DB) : list WorkLog.t :=
  (fun e => row_to_log e.1 e.2) <$> map_to_list (rows db).

End Database.

Import Database.

(** The server's local offset is a parameter of the store instance. *)
Section Instance.
Variable tz : Z.

#[export] Instance DatabaseStorage : IStorage DB := {
  createWorkLog := db_createWorkLog tz;
  getWorkLog := db_getWorkLog;
  updateWorkLog := db_updateWorkLog tz;
  deleteWorkLog := db_deleteWorkLog;
  getWorkLogsByRange := db_getWorkLogsByRange;
  getSetting := db_getSetting;
  updateSetting := db_updateSetting;
  all_logs := db_all_logs;
  store_wf := db_wf
}.
End Instance.

(** The first shift of spec section 8: Monday 2024-03-04, 09:00 to 17:00
    at 20.00 an hour. *)
Definition monday_shift : InsertWorkLog.t := InsertWorkLog.mk "2024-03-04" "09:00" "17:00" (Some 2000).

(** ** Properties of [DatabaseStorage] *)

Lemma db_wf_empty : db_wf empty_db.
Proof. apply map_Forall_empty. Qed.

Lemma db_wf_fresh (db : DB) : db_wf db -> rows db !! serial db = None.
Proof.
  intros Hwf. destruct (rows db !! serial db) as [r|] eqn:E; [|done].
  apply Hwf in E as [? _]. lia.
Qed.

Lemma row_log_day (id : Z) (r : Row) :
  row_wf r -> log_day (row_to_log id r) = Some (days_from_civil (row_date r)).
Proof.
  intros (Hv & Hy & _). unfold log_day, row_to_log. simpl.
  by rewrite pg_date_roundtrip.
Qed.

(** C3: [createWorkLog] inserts one row under the next serial id, with
    [hoursWorked] computed by the duration calculator from the supplied
    times, and leaves every other row as it was; the new id was free. *)
Theorem createWorkLog_spec (tz : Z) (ck : Clock) (ins : InsertWorkLog.t) (db db' : DB)
    (r : WorkLog.t) :
  db_wf db -> db_createWorkLog tz ck ins db = Some (r, db') ->
  WorkLog.id r = serial db /\
  WorkLog.hoursWorked r =
    hours_worked tz (c_start ck) (c_end ck) (InsertWorkLog.startTime ins) (InsertWorkLog.endTime ins) /\
  db_getWorkLog (serial db) db = None /\
  db_getWorkLog (serial db) db' = Some r /\
  serial db' = serial db + 1 /\
  (forall id, id <> serial db -> db_getWorkLog id db' = db_getWorkLog id db).
Proof.
  intros Hwf Hc. unfold db_createWorkLog in Hc.
  repeat (case_match; try discriminate). injection Hc as <- <-.
  unfold db_getWorkLog. simpl. rewrite db_wf_fresh by done.
  split_and!; try done.
  - by rewrite lookup_insert_eq.
  - intros id Hne. by rewrite lookup_insert_ne.
Qed.

(** A create whose date, start or end time the columns reject fails as a
    whole: nothing is written. *)
Theorem createWorkLog_rejects (tz : Z) (ck : Clock) (ins : InsertWorkLog.t) (db : DB) :
  pg_date_in (InsertWorkLog.date ins) = None \/ pg_time_in (InsertWorkLog.startTime ins) = None \/
  pg_time_in (InsertWorkLog.endTime ins) = None ->
  db_createWorkLog tz ck ins db = None.
Proof.
  intros H. unfold db_createWorkLog.
  destruct H as [H|[H|H]]; rewrite H; by repeat case_match.
Qed.

Lemma wf_insert (db : DB) (id : Z) (r : Row) (s : Z) :
  db_wf db -> serial db <= s -> id < s -> row_wf r ->
  map_Forall (fun i r => i < s /\ row_wf r) (<[id := r]> (rows db)).
Proof.
  intros Hwf Hs Hid Hr. apply map_Forall_insert_2; [done|].
  eapply map_Forall_impl; [exact Hwf|]. simpl. intros i x [? ?]. split; [lia|done].
Qed.

(** A value read from a supplied field satisfies what the column
    guarantees. *)
Lemma opt_in_prop {A} (f : string -> option A) (P : A -> Prop) (o : option string)
    (x : option A) (d : A) :
  (forall s v, f s = Some v -> P v) -> P d -> opt_in f o = Some x -> P (default d x).
Proof.
  intros Hf Hd Hx. destruct o as [s|]; simpl in Hx.
  - apply fmap_Some in Hx as [v [Hv ->]]. simpl. eauto.
  - by injection Hx as <-.
Qed.

Lemma update_wf (tz : Z) (ck : Clock) (db : DB) (id : Z) (upd : UpdateWorkLog.t)
    (o : option WorkLog.t) (db' : DB) :
  db_wf db -> db_updateWorkLog tz ck id upd db = Some (o, db') -> db_wf db'.
Proof.
  intros Hwf Hu. unfold db_updateWorkLog, db_getWorkLog in Hu.
  destruct (rows db !! id) as [r|] eqn:Er; simpl in Hu; [|by injection Hu as _ <-].
  pose proof (Hwf _ _ Er) as [Hid (Hv & Hy & Hs & He)].
  destruct (opt_in pg_date_in _) as [d|] eqn:Ed; [|discriminate].
  destruct (opt_in pg_time_in (UpdateWorkLog.startTime upd)) as [st|] eqn:Est; [|discriminate].
  destruct (opt_in pg_time_in (UpdateWorkLog.endTime upd)) as [et|] eqn:Eet; [|discriminate].
  destruct (_ && _)%bool; [|discriminate]. injection Hu as _ <-.
  apply wf_insert; simpl; try done; try lia.
  pose proof (opt_in_prop pg_date_in (fun c => valid_date c = true /\ 1 <= year c) _ _ _
                pg_date_in_valid (conj Hv Hy) Ed) as [? ?].
  pose proof (opt_in_prop pg_time_in (fun m => 0 <= m <= 1440) _ _ _ pg_time_in_range Hs Est).
  pose proof (opt_in_prop pg_time_in (fun m => 0 <= m <= 1440) _ _ _ pg_time_in_range He Eet).
  simpl in *. repeat split; simpl; (done || lia).
Qed.

(** Every operation of [DatabaseStorage] that writes keeps the store
    well formed: valid AD dates, times within the [time] column, and ids
    below the serial counter (so the next id is always free). *)
Theorem db_ops_preserve_wf (tz : Z) (ck : Clock) (db : DB) :
  db_wf db ->
  (forall ins r db', db_createWorkLog tz ck ins db = Some (r, db') -> db_wf db') /\
  (forall id upd o db', db_updateWorkLog tz ck id upd db = Some (o, db') -> db_wf db') /\
  (forall id, db_wf (db_deleteWorkLog id db)) /\
  (forall k v, db_wf (db_updateSetting k v db)).
Proof.
  intros Hwf. split_and!.
  - intros ins r db' Hc. unfold db_createWorkLog in Hc.
    repeat (case_match; try discriminate). injection Hc as <- <-.
    match goal with Hd : pg_date_in _ = Some _ |- _ => apply pg_date_in_valid in Hd as [? ?] end.
    repeat match goal with Ht : pg_time_in _ = Some _ |- _ => apply pg_time_in_range in Ht end.
    apply wf_insert; simpl; try done; try lia; repeat split; simpl; lia.
  - intros id upd o db' Hu. by eapply update_wf.
  - intros id. apply map_Forall_delete. done.
  - intros k v. done.
Qed.

(** C25: The existing start and end times the update reads back are the text
    of the [time] column ("HH:MM:SS"), which date-fns cannot parse as
    'HH:mm': an update that does not supply the start time (for example
    one that changes only [hourlyRate]) stores [hoursWorked = NaN]. *)
Theorem update_without_start_nan (tz : Z) (ck : Clock) (id : Z) (upd : UpdateWorkLog.t)
    (db db' : DB) (l : WorkLog.t) :
  db_wf db -> UpdateWorkLog.startTime upd = None ->
  db_updateWorkLog tz ck id upd db = Some (Some l, db') ->
  WorkLog.hoursWorked l = JNaN.
Proof.
  intros Hwf Hst Hu. unfold db_updateWorkLog, db_getWorkLog in Hu.
  destruct (rows db !! id) as [r|] eqn:Er; [|discriminate]. simpl in Hu.
  apply Hwf in Er as [_ (_ & _ & Hs & _)]. rewrite Hst in Hu. simpl in Hu.
  destruct (opt_in pg_date_in (UpdateWorkLog.date upd)); [|discriminate].
  destruct (opt_in pg_time_in (UpdateWorkLog.endTime upd)); [|discriminate].
  case_match; [|discriminate].
  injection Hu as <- _. simpl.
  by apply hours_worked_start_invalid, stored_time_unparseable.
Qed.

(** Updating an id that has no row returns [undefined] and changes
    nothing. *)
Theorem update_missing (tz : Z) (ck : Clock) (id : Z) (upd : UpdateWorkLog.t) (db : DB) :
  rows db !! id = None -> db_updateWorkLog tz ck id upd db = Some (None, db).
Proof. intros H. unfold db_updateWorkLog, db_getWorkLog. by rewrite H. Qed.

(** After [deleteWorkLog id] the record is gone and every other record is
    unchanged. *)
Theorem delete_spec (id : Z) (db : DB) :
  db_getWorkLog id (db_deleteWorkLog id db) = None /\
  forall id', id' <> id -> db_getWorkLog id' (db_deleteWorkLog id db) = db_getWorkLog id' db.
Proof.
  unfold db_getWorkLog, db_deleteWorkLog. simpl. rewrite lookup_delete_eq.
  split; [done|]. intros id' Hne. by rewrite lookup_delete_ne.
Qed.

(** [updateSetting] is an upsert: the key then reads the value written,
    whether it existed or not, and the other keys are unchanged. *)
Theorem updateSetting_upsert (k v : string) (db : DB) :
  db_getSetting k (db_updateSetting k v db) = Some v /\
  forall k', k' <> k -> db_getSetting k' (db_updateSetting k v db) = db_getSetting k' db.
Proof.
  unfold db_getSetting, db_updateSetting. simpl. rewrite lookup_insert_eq.
  split; [done|]. intros k' Hne. by rewrite lookup_insert_ne.
Qed.

#[export] Instance row_le_total : Total row_le.
Proof. intros [i a] [j b]. unfold row_le. simpl. lia. Qed.

Lemma log_in_range_row (ca cb : cdate) (e : Z * Row) :
  row_wf e.2 -> log_in_range ca cb (row_to_log e.1 e.2) = row_in_range ca cb e.
Proof. intros Hw. unfold log_in_range. by rewrite row_log_day. Qed.

Lemma rows_wf_list (db : DB) : db_wf db -> Forall (fun e => row_wf e.2) (map_to_list (rows db)).
Proof.
  intros Hwf. apply list.Forall_forall. intros [i r] Hin.
  apply elem_of_map_to_list in Hin.
  apply Hwf in Hin as [_ ?]. done.
Qed.

(** The range query returns the rows within the bounds, ordered by
    [(date, startTime)]. *)
Lemma db_range_rows (db : DB) (a b : string) (ca cb : cdate) :
  pg_date_in a = Some ca -> pg_date_in b = Some cb ->
  exists es, db_getWorkLogsByRange a b db = Some ((fun e => row_to_log e.1 e.2) <$> es) /\
    es ≡ₚ filter (row_in_range ca cb) (map_to_list (rows db)) /\ Sorted row_le es.
Proof.
  intros Ha Hb. unfold db_getWorkLogsByRange. rewrite Ha, Hb. eexists. split; [reflexivity|].
  split; [apply merge_sort_Permutation|apply Sorted_merge_sort; exact row_le_total].
Qed.

Lemma db_range_spec (db : DB) (a b : string) (ca cb : cdate) :
  db_wf db -> pg_date_in a = Some ca -> pg_date_in b = Some cb ->
  exists l, db_getWorkLogsByRange a b db = Some l /\
    l ≡ₚ filter (log_in_range ca cb) (db_all_logs db) /\ Sorted log_date_le l.
Proof.
  intros Hwf Ha Hb. destruct (db_range_rows db a b ca cb Ha Hb) as (es & -> & Hperm & Hsort).
  eexists; split; [reflexivity|]. pose proof (rows_wf_list db Hwf) as HQ.
  assert (HF : Forall (fun e => row_wf e.2) es).
  { rewrite Hperm. apply list.Forall_forall.
    intros x [_ Hx]%list_elem_of_filter. by apply (proj1 (list.Forall_forall _ _) HQ). }
  split.
  - unfold db_all_logs.
    rewrite (filter_fmap_on (fun e => row_wf e.2) (fun e => row_to_log e.1 e.2) _
               (fun e => row_in_range ca cb e)) by (done || (intros x Hx; by rewrite log_in_range_row)).
    by apply Permutation_map.
  - eapply (Sorted_fmap_on (fun e => row_wf e.2)); [exact HF| |exact Hsort].
    intros x y Hx Hy Hxy. unfold log_date_le. rewrite !row_log_day by done.
    unfold row_le in Hxy. lia.
Qed.

Lemma db_range_bad (db : DB) (a b : string) :
  pg_date_in a = None \/ pg_date_in b = None -> db_getWorkLogsByRange a b db = None.
Proof.
  intros [Ha|Hb]; unfold db_getWorkLogsByRange; [rewrite Ha|rewrite Hb]; [done|].
  by destruct (pg_date_in a).
Qed.

Lemma db_logs_canonical (db : DB) (r : WorkLog.t) :
  db_wf db -> r ∈ db_all_logs db ->
  exists c, valid_date c = true /\ 1 <= year c /\ WorkLog.date r = pg_date_out c.
Proof.
  intros Hwf Hin. unfold db_all_logs in Hin.
  apply list_elem_of_fmap in Hin as [[i row] [-> Hin%elem_of_map_to_list]].
  apply Hwf in Hin as [_ (Hv & Hy & _)]. exists (row_date row). done.
Qed.

#[export] Instance DatabaseStorage_laws (tz : Z) : IStorageLaws DB (H := DatabaseStorage tz).
Proof. split; [exact db_range_spec|exact db_range_bad|exact db_logs_canonical]. Qed.

(** C7: [DatabaseStorage] implements the [IStorage] contract: on well-formed
    states the range query returns exactly the records dated within the
    bounds (up to order), sorted by date; a bound that is not a date
    fails the query; every record's date is the canonical text of a valid
    AD date. *)
Theorem DatabaseStorage_refines (tz : Z) : IStorageLaws DB (H := DatabaseStorage tz).
Proof.
  constructor.
  - exact db_range_spec.
  - exact db_range_bad.
  - exact db_logs_canonical.
Qed.

(** ** Witnesses on small stores *)

Lemma createWorkLog_spec_witness :
  exists r db', db_createWorkLog 0 (mkClock 0 0 0) monday_shift empty_db = Some (r, db') /\
    WorkLog.id r = 1 /\ WorkLog.hoursWorked r = JNum 800 /\ serial db' = 2.
Proof.
  destruct (db_createWorkLog 0 (mkClock 0 0 0) monday_shift empty_db) as [[r db']|] eqn:E.
  - destruct (createWorkLog_spec 0 (mkClock 0 0 0) monday_shift empty_db db' r
                ltac:(unfold db_wf; apply (bool_decide_unpack _); vm_compute; exact I) E)
      as (Hid & Hh & _ & _ & Hs & _).
    exists r, db'. rewrite Hid, Hh, Hs. split; [done|]. split_and!; vm_compute; reflexivity.
  - vm_compute in E. discriminate.
Defined.

Lemma createWorkLog_rejects_witness :
  db_createWorkLog 0 (mkClock 0 0 0) (InsertWorkLog.mk "2024-02-30" "09:00" "17:00" None) empty_db = None.
Proof. apply createWorkLog_rejects. left. vm_compute. reflexivity. Defined.

Lemma db_ops_preserve_wf_witness :
  exists r db', db_createWorkLog 0 (mkClock 0 0 0) monday_shift empty_db = Some (r, db') /\ db_wf db'.
Proof.
  destruct (db_createWorkLog 0 (mkClock 0 0 0) monday_shift empty_db) as [[r db']|] eqn:E;
    [|vm_compute in E; discriminate].
  exists r, db'. split; [done|].
  exact (proj1 (db_ops_preserve_wf 0 (mkClock 0 0 0) empty_db
                  ltac:(unfold db_wf; apply (bool_decide_unpack _); vm_compute; exact I)) _ _ _ E).
Defined.

(** Changing only the rate of the Monday shift stores NaN hours. *)
Lemma update_without_start_nan_witness :
  exists l db', db_updateWorkLog 0 (mkClock 0 0 0) 1 (UpdateWorkLog.mk None None None (Some 2500))
                  (snd (default (WorkLog.mk 0 "" "" "" JNaN None 0 0, empty_db)
                          (db_createWorkLog 0 (mkClock 0 0 0) monday_shift empty_db))) = Some (Some l, db') /\
    WorkLog.hoursWorked l = JNaN.
Proof.
  set (db1 := snd (default (WorkLog.mk 0 "" "" "" JNaN None 0 0, empty_db)
                     (db_createWorkLog 0 (mkClock 0 0 0) monday_shift empty_db))).
  destruct (db_updateWorkLog 0 (mkClock 0 0 0) 1 (UpdateWorkLog.mk None None None (Some 2500)) db1)
    as [[[l|] db']|] eqn:E; [|vm_compute in E; discriminate|vm_compute in E; discriminate].
  exists l, db'. split; [done|].
  exact (update_without_start_nan 0 (mkClock 0 0 0) 1 (UpdateWorkLog.mk None None None (Some 2500)) db1 db' l
           ltac:(unfold db_wf; apply (bool_decide_unpack _); vm_compute; exact I) eq_refl E).
Defined.

Lemma update_missing_witness :
  db_updateWorkLog 0 (mkClock 0 0 0) 5 (UpdateWorkLog.mk None None None None) empty_db = Some (None, empty_db).
Proof. apply update_missing. reflexivity. Defined.

