(* ===== verification/Summary.v ===== *)
(** The week and fortnight summary of [src/server/routes.ts]: the helper
    [getWeekRange] (lines 15-26), the handler of [GET /api/work-logs/week]
    (lines 28-36) and the handler of [GET /api/work-logs/week/summary]
    (lines 38-109), written against the [IStorage] interface of
    [Store.v] so that the theorems hold for every store that satisfies
    [IStorageLaws].  A handler's result [None] is the response 500 of its
    [catch]. *)

From S2P Require Import Prelude JsRuntime Calendar Duration Store.

Open Scope Z_scope.

Module Summary.

(** [DaySummary] and the response of the summary route
    ([src/shared/routes.ts], [weeklySummarySchema]). *)
Record DaySummary := mkDay { ds_date : string; ds_dayName : string; ds_totalHours : jsnum }.

Record WeeklySummary := mkSummary {
  startDate : string;
  endDate : string;
  days : list DaySummary;
  totalWeeklyHours : jsnum;
  totalPay : jsnum;
  quincenaLabel : string;
  quincenaHours : jsnum;
  quincenaPay : jsnum
}.

Section Handlers.
Context {S : Type} `{IStorage S}.
(** The server's local offset, in minutes east of UTC. *)
Variable tz : Z.

(** [dateStr ? new Date(dateStr) : new Date()]: an absent or empty query
    reads the clock [now]; [None] is Invalid Date. *)
Definition target_date (now : Z) (q : option string) : option Z :=
  match q with
  | Some str => if String.eqb str "" then Some now else js_date_parse str
  | None => Some now
  end.

(** [getWeekRange]: the Monday-to-Sunday week of the target date, as its
    two ["yyyy-MM-dd"] bounds and the Monday; [format] throws on Invalid
    Date. *)
Definition getWeekRange (now : Z) (q : option string) : option (string * string * Z) :=
  t ← target_date now q;
  let start := startOfWeek tz t in
  let end_ := endOfWeek tz t in
  Some (format_ymd tz start, format_ymd tz end_, start).

(** The handler of [listWeek]. *)
Definition listWeek (now : Z) (q : option string) (s : S) : option (list WorkLog.t) :=
  '(startStr, endStr, _) ← getWeekRange now q;
  getWorkLogsByRange startStr endStr s.

(** [format(addDays(start, i), 'yyyy-MM-dd')] for [i = 0 .. 6]. *)
Definition week_keys (start : Z) : list string :=
  (fun i => format_ymd tz (addDays start i)) <$> seqZ 0 7.

(** The loop that sets the seven keys of [daysMap] to 0. *)
Definition init_days (start : Z) : @JsMap.t jsnum :=
  fold_left (fun m k => JsMap.set k (JNum 0) m) (week_keys start) [].

(** One iteration of [logs.forEach] in the week loop: the day's bucket
    gets [(daysMap.get(log.date) || 0) + hours], the total gets [hours],
    and the pay gets [hours * rate] when [log.hourlyRate] is set (a
    non-empty string, so also for a rate of 0). *)
Definition week_step (acc : @JsMap.t jsnum * jsnum * jsnum) (log : WorkLog.t)
    : @JsMap.t jsnum * jsnum * jsnum :=
  let '(daysMap, totalWeeklyHours, totalPay) := acc in
  let hours := WorkLog.hoursWorked log in
  let currentDayTotal := or_zero (JsMap.get (WorkLog.date log) daysMap) in
  (JsMap.set (WorkLog.date log) (currentDayTotal ⊞ hours) daysMap,
   totalWeeklyHours ⊞ hours,
   match WorkLog.hourlyRate log with
   | Some r => totalPay ⊞ hours ⊠ JNum r
   | None => totalPay
   end).

(** One entry of [days]: [format(new Date(date), 'EEE')] reads the key
    back as UTC midnight and names it in local time. *)
Definition day_summary (e : string * jsnum) : option DaySummary :=
  t ← js_date_parse e.1;
  Some (mkDay e.1 (format_EEE tz t) (to_fixed2 1 e.2)).

(** Lines 43-74: the seven buckets, the entries of [days] and the two
    weekly totals. *)
Definition week_summary (start : Z) (logs : list WorkLog.t)
    : option (list DaySummary * jsnum * jsnum) :=
  let '(daysMap, totalWeeklyHours, totalPay) :=
    fold_left week_step logs (init_days start, JNum 0, JNum 0) in
  days ← mapM day_summary daysMap;
  Some (days, to_fixed2 1 totalWeeklyHours, to_fixed2 100 totalPay).

(** Lines 78-82: whether the target date is in the first half of its
    local month, and the bounds of that half. *)
Definition quincena_range (t : Z) : bool * Z * Z :=
  let isFirstQuincena := getDate tz t <=? 15 in
  let qStart := new_Date_local tz (getFullYear tz t) (getMonth tz t)
                  (if isFirstQuincena then 1 else 16) in
  let qEnd := if isFirstQuincena
              then new_Date_local tz (getFullYear tz t) (getMonth tz t) 15
              else endOfMonth tz t in
  (isFirstQuincena, qStart, qEnd).

(** One iteration of [qLogs.forEach]. *)
Definition quincena_step (acc : jsnum * jsnum) (log : WorkLog.t) : jsnum * jsnum :=
  let '(quincenaHours, quincenaPay) := acc in
  let h := WorkLog.hoursWorked log in
  (quincenaHours ⊞ h,
   match WorkLog.hourlyRate log with Some r => quincenaPay ⊞ h ⊠ JNum r | None => quincenaPay end).

(** Lines 77-92 and the label of line 100. *)
Definition quincena_summary (t : Z) (s : S) : option (string * jsnum * jsnum) :=
  let '(isFirstQuincena, qStart, qEnd) := quincena_range t in
  qLogs ← getWorkLogsByRange (format_ymd tz qStart) (format_ymd tz qEnd) s;
  let '(quincenaHours, quincenaPay) := fold_left quincena_step qLogs (JNum 0, JNum 0) in
  Some (if isFirstQuincena then "1ra Quincena" else "2da Quincena",
        to_fixed2 1 quincenaHours, to_fixed2 100 quincenaPay).

(** The handler of [getSummary]; [now1] and [now2] are the clock readings
    of the two [new Date()] (in [getWeekRange] and on line 77). *)
Definition getSummary (now1 now2 : Z) (q : option string) (s : S) : option WeeklySummary :=
  '(startStr, endStr, start) ← getWeekRange now1 q;
  logs ← getWorkLogsByRange startStr endStr s;
  '(days, totalWeeklyHours, totalPay) ← week_summary start logs;
  targetDate ← target_date now2 q;
  '(label, quincenaHours, quincenaPay) ← quincena_summary targetDate s;
  Some (mkSummary startStr endStr days totalWeeklyHours totalPay label quincenaHours quincenaPay).

End Handlers.

(** ** What the totals should be

    The hours of a list of records, and the pay [hours * rate] of those
    with a rate (ten-thousandths), as plain sums. *)
Definition hours_sum (l : list WorkLog.t) : jsnum := jsum (WorkLog.hoursWorked <$> l).

Definition log_pay (r : WorkLog.t) : jsnum :=
  match WorkLog.hourlyRate r with Some x => WorkLog.hoursWorked r ⊠ JNum x | None => JNum 0 end.

Definition pay_sum (l : list WorkLog.t) : jsnum := jsum (log_pay <$> l).

(** The first and last day of the half of the local month of [t]:
    1 to 15, or 16 to the end of the month. *)
Definition quincena_dates (tz t : Z) : cdate * cdate :=
  let c := local_civil tz t in
  if day c <=? 15 then (mkDate (year c) (month c) 1, mkDate (year c) (month c) 15)
  else (mkDate (year c) (month c) 16, mkDate (year c) (month c) (days_in_month (year c) (month c))).

(** The bounds the code computes: [qStart] and the first half's [qEnd]
    come from [new Date(y, m, d)], which reads a year 0..99 as 1900 + y,
    the second half's [qEnd] from [endOfMonth], which does not. *)
Definition quincena_js_dates (tz t : Z) : cdate * cdate :=
  let c := local_civil tz t in
  let y := date_ctor_year (year c) in
  if day c <=? 15 then (mkDate y (month c) 1, mkDate y (month c) 15)
  else (mkDate y (month c) 16, mkDate (year c) (month c) (days_in_month (year c) (month c))).

(** No record has NaN hours. *)
Definition no_nan (l : list WorkLog.t) : Prop := Forall (fun r => WorkLog.hoursWorked r <> JNaN) l.

(** The records of a given date. *)
Definition logs_on (k : string) (l : list WorkLog.t) : list WorkLog.t :=
  filter (fun r => String.eqb (WorkLog.date r) k = true) l.

(** What one record of its date does to a day's bucket in [week_step]:
    [(daysMap.get(log.date) || 0) + hours]. *)
Definition bucket_step (v : option jsnum) (r : WorkLog.t) : option jsnum :=
  Some (or_zero v ⊞ WorkLog.hoursWorked r).

(** ** Concrete stores

    The time value of a local clock reading, a store built by successive
    [createWorkLog] calls, and the stores of the examples below. *)
Definition at_local (tz y m d mins : Z) : Z :=
  local_midnight tz (days_from_civil (mkDate y m d)) + mins * 60000.

Definition add_log (tz now : Z) (ins : InsertWorkLog.t) (db : Database.DB) : Database.DB :=
  match Database.db_createWorkLog tz (mkClock now now now) ins db with
  | Some (_, db') => db'
  | None => db
  end.

(** UTC midnight of a date: [new Date("yyyy-MM-dd")]. *)
Definition utc_day (y m d : Z) : Z := days_from_civil (mkDate y m d) * ms_per_day.

(** Wednesday 2024-03-06, 15:00 local time. *)
Definition now_wed (tz : Z) : Z := at_local tz 2024 3 6 900.

(** Three shifts of 8, 9 and 6 hours at 20.00 an hour. *)
Definition three_shifts (tz : Z) : Database.DB :=
  add_log tz (now_wed tz) (InsertWorkLog.mk "2024-03-06" "10:00" "16:00" (Some 2000))
    (add_log tz (now_wed tz) (InsertWorkLog.mk "2024-03-05" "08:00" "17:00" (Some 2000))
      (add_log tz (now_wed tz) (InsertWorkLog.mk "2024-03-04" "09:00" "17:00" (Some 2000))
        Database.empty_db)).

(** Two shifts on Monday 2024-03-04: 06:00 to 24:00, whose end date-fns
    cannot parse (NaN hours, accepted by the [time] column), then 09:00
    to 17:00. *)
Definition nan_monday : Database.DB :=
  add_log 0 (now_wed 0) (InsertWorkLog.mk "2024-03-04" "09:00" "17:00" None)
    (add_log 0 (now_wed 0) (InsertWorkLog.mk "2024-03-04" "06:00" "24:00" None) Database.empty_db).

(** ** The loops *)

Lemma week_keys_days (tz st : Z) :
  week_keys tz st = (fun i => ymd_string (civil_from_days (local_day tz st + i))) <$> seqZ 0 7.
Proof.
  unfold week_keys. apply list_fmap_ext. intros _ i _. unfold format_ymd, local_civil.
  by rewrite local_day_addDays.
Qed.

Lemma quincena_step_pay (acc : jsnum * jsnum) (r : WorkLog.t) :
  quincena_step acc r = (acc.1 ⊞ WorkLog.hoursWorked r, acc.2 ⊞ log_pay r).
Proof.
  destruct acc as [h p]. unfold quincena_step, log_pay. simpl.
  destruct (WorkLog.hourlyRate r); [done|by rewrite jadd_0_r].
Qed.

(** The fortnight loop computes the two sums. *)
Lemma quincena_fold (l : list WorkLog.t) (h p : jsnum) :
  fold_left quincena_step l (h, p) = (h ⊞ hours_sum l, p ⊞ pay_sum l).
Proof.
  revert h p. induction l as [|r l IH]; intros h p; cbn [fold_left].
  - by rewrite !jadd_0_r.
  - rewrite quincena_step_pay, IH. unfold hours_sum, pay_sum. simpl. by rewrite !jadd_assoc.
Qed.

Lemma hours_sum_cons (r : WorkLog.t) (l : list WorkLog.t) :
  hours_sum (r :: l) = WorkLog.hoursWorked r ⊞ hours_sum l.
Proof. done. Qed.

Lemma pay_sum_cons (r : WorkLog.t) (l : list WorkLog.t) : pay_sum (r :: l) = log_pay r ⊞ pay_sum l.
Proof. done. Qed.

Lemma week_step_eq (m : @JsMap.t jsnum) (h p : jsnum) (r : WorkLog.t) :
  week_step (m, h, p) r =
  (JsMap.set (WorkLog.date r) (or_zero (JsMap.get (WorkLog.date r) m) ⊞ WorkLog.hoursWorked r) m,
   h ⊞ WorkLog.hoursWorked r, p ⊞ log_pay r).
Proof.
  unfold week_step, log_pay. destruct (WorkLog.hourlyRate r); [done|by rewrite jadd_0_r].
Qed.

(** The week loop computes the same two totals as the fortnight loop. *)
Lemma week_fold_totals (l : list WorkLog.t) (m : @JsMap.t jsnum) (h p : jsnum) :
  exists m', fold_left week_step l (m, h, p) = (m', h ⊞ hours_sum l, p ⊞ pay_sum l).
Proof.
  revert m h p. induction l as [|r l IH]; intros m h p; cbn [fold_left].
  - exists m. by rewrite !jadd_0_r.
  - rewrite week_step_eq, hours_sum_cons, pay_sum_cons, <- !jadd_assoc. apply IH.
Qed.

(** When every record's date is a key, the loop keeps the keys. *)
Lemma week_fold_keys (l : list WorkLog.t) (m : @JsMap.t jsnum) (h p : jsnum) :
  (forall r, r ∈ l -> WorkLog.date r ∈ JsMap.keys m) ->
  JsMap.keys (fold_left week_step l (m, h, p)).1.1 = JsMap.keys m.
Proof.
  revert m h p. induction l as [|r l IH]; intros m h p Hk; cbn [fold_left]; [done|].
  rewrite week_step_eq, IH; [apply JsMap.keys_set_present; apply Hk; left|].
  intros r' Hr'. rewrite JsMap.keys_set_present by (apply Hk; left). apply Hk. by right.
Qed.

Lemma logs_on_cons (k : string) (r : WorkLog.t) (l : list WorkLog.t) :
  logs_on k (r :: l) = if String.eqb (WorkLog.date r) k then r :: logs_on k l else logs_on k l.
Proof. unfold logs_on. rewrite filter_cons. by destruct (String.eqb _ _). Qed.

(** A bucket sees only the records of its date, in order. *)
Lemma week_fold_bucket (l : list WorkLog.t) (m : @JsMap.t jsnum) (h p : jsnum) (k : string) :
  JsMap.get k (fold_left week_step l (m, h, p)).1.1 = fold_left bucket_step (logs_on k l) (JsMap.get k m).
Proof.
  revert m h p. induction l as [|r l IH]; intros m h p; cbn [fold_left]; [done|].
  rewrite week_step_eq, IH, logs_on_cons.
  destruct (String.eqb_spec (WorkLog.date r) k) as [<-|Hne]; cbn [fold_left].
  - by rewrite JsMap.get_set_eq.
  - by rewrite JsMap.get_set_ne.
Qed.

(** From a number, a bucket adds the hours of records without NaN. *)
Lemma bucket_fold_num (l : list WorkLog.t) (x : Z) :
  no_nan l -> fold_left bucket_step l (Some (JNum x)) = Some (JNum x ⊞ hours_sum l).
Proof.
  revert x. induction l as [|r l IH]; intros x Hl; cbn [fold_left]; [by rewrite jadd_0_r|].
  apply Forall_cons in Hl as [Hr Hl]. unfold bucket_step at 2. rewrite or_zero_num, hours_sum_cons.
  destruct (WorkLog.hoursWorked r) as [y|]; [|done]. change (JNum x ⊞ JNum y) with (JNum (x + y)). rewrite IH by done. by rewrite <- jadd_assoc.
Qed.

Lemma hours_sum_nan (l : list WorkLog.t) (r : WorkLog.t) :
  r ∈ l -> WorkLog.hoursWorked r = JNaN -> hours_sum l = JNaN.
Proof.
  intros Hin Hr. induction l as [|r' l IH]; [by apply elem_of_nil in Hin|].
  rewrite hours_sum_cons. apply elem_of_cons in Hin as [->|Hin]; [by rewrite Hr|].
  by rewrite IH, jadd_nan_r.
Qed.

(** Without NaN, each bucket ends as its start value plus the hours of
    the records of its date. *)
Lemma week_fold_get (l : list WorkLog.t) (m : @JsMap.t jsnum) (h p : jsnum) (k : string) :
  (forall r, r ∈ l -> WorkLog.date r ∈ JsMap.keys m /\ WorkLog.hoursWorked r <> JNaN) ->
  (forall k' v, JsMap.get k' m = Some v -> v <> JNaN) ->
  JsMap.get k (fold_left week_step l (m, h, p)).1.1 =
    (fun v => v ⊞ hours_sum (logs_on k l)) <$> JsMap.get k m.
Proof.
  revert m h p. induction l as [|r l IH]; intros m h p Hl Hm; cbn [fold_left].
  - change (hours_sum (logs_on k [])) with (JNum 0).
    cbn [fst]. destruct (JsMap.get k m); simpl; [by rewrite jadd_0_r|done].
  - destruct (Hl r (list_elem_of_here r l)) as [Hin Hnan].
    destruct (JsMap.get_in _ _ Hin) as [v Hv].
    assert (exists x, v = JNum x) as [x ->] by (destruct v; [eauto|by apply Hm in Hv]).
    rewrite week_step_eq, Hv, or_zero_num, IH.
    + rewrite logs_on_cons.
      destruct (String.eqb_spec (WorkLog.date r) k) as [<-|Hne].
      * rewrite JsMap.get_set_eq, Hv, hours_sum_cons. cbn -[jadd]. by rewrite jadd_assoc.
      * rewrite JsMap.get_set_ne by done. done.
    + intros r' Hr'. rewrite JsMap.keys_set_present by done. apply Hl. by right.
    + intros k' v'. destruct (String.eqb_spec (WorkLog.date r) k') as [<-|Hne].
      * rewrite JsMap.get_set_eq. intros [= <-]. by destruct (WorkLog.hoursWorked r).
      * rewrite JsMap.get_set_ne by done. apply Hm.
Qed.

Lemma hours_sum_perm (l l' : list WorkLog.t) : l ≡ₚ l' -> hours_sum l = hours_sum l'.
Proof. intros P. apply jsum_perm. by rewrite P. Qed.

Lemma pay_sum_perm (l l' : list WorkLog.t) : l ≡ₚ l' -> pay_sum l = pay_sum l'.
Proof. intros P. apply jsum_perm. by rewrite P. Qed.

(** ** List facts used below *)

Lemma Forall2_map_eq {A B C} (f : A -> C) (g : B -> C) (l : list A) (k : list B) :
  map f l = g <$> k -> Forall2 (fun x y => f x = g y) l k.
Proof.
  revert k. induction l as [|x l IH]; intros [|y k] E; simpl in E; try discriminate; [done|].
  injection E as E1 E2. constructor; auto.
Qed.

Lemma Forall2_in {A B} (P : A -> B -> Prop) (l : list A) (k : list B) :
  Forall2 P l k -> Forall2 (fun x y => P x y /\ x ∈ l /\ y ∈ k) l k.
Proof.
  induction 1 as [|x y l k Hxy _ IH]; constructor.
  - split_and!; [done|left|left].
  - eapply Forall2_impl; [exact IH|]. intros a b (? & ? & ?). split_and!; [done|right|right]; done.
Qed.

Lemma filter_and_in {A} (P Q : A -> Prop) `{!forall x, Decision (P x), !forall x, Decision (Q x)}
    (l : list A) :
  (forall x, x ∈ l -> P x -> Q x) -> filter (fun x => P x /\ Q x) l = filter P l.
Proof.
  induction l as [|x l IH]; intros HPQ; [done|]. rewrite !filter_cons.
  rewrite IH by (intros y Hy; apply HPQ; by right).
  destruct (decide (P x)) as [Hp|Hp].
  - rewrite decide_True; [done|]. split; [done|]. apply HPQ; [left|done].
  - rewrite decide_False; [done|]. by intros [? _].
Qed.

Lemma jsum_bump (ks : list string) (k0 : string) (x : jsnum) (f : string -> jsnum) :
  NoDup ks -> k0 ∈ ks ->
  jsum ((fun k => if String.eqb k0 k then x ⊞ f k else f k) <$> ks) = x ⊞ jsum (f <$> ks).
Proof.
  induction ks as [|k ks IH]; intros Hnd Hin; [by apply elem_of_nil in Hin|].
  apply NoDup_cons in Hnd as [Hk Hnd]. cbn [fmap list_fmap jsum foldr].
  destruct (String.eqb_spec k0 k) as [->|Hne].
  - assert (E : (fun k' => if String.eqb k k' then x ⊞ f k' else f k') <$> ks = f <$> ks).
    { apply list_fmap_ext. intros i k' Hk'. destruct (String.eqb_spec k k') as [<-|]; [|done].
      destruct Hk. by eapply list_elem_of_lookup_2. }
    fold (jsum ((fun k' => if String.eqb k k' then x ⊞ f k' else f k') <$> ks)).
    rewrite E. by rewrite jadd_assoc.
  - apply elem_of_cons in Hin as [->|Hin]; [done|].
    fold (jsum ((fun k' => if String.eqb k0 k' then x ⊞ f k' else f k') <$> ks)).
    rewrite IH by done. fold (jsum (f <$> ks)).
    by rewrite <- !jadd_assoc, (jadd_comm (f k) x).
Qed.

(** Summing the hours day by day over distinct dates that cover every
    record gives the hours of all the records. *)
Lemma hours_sum_partition (ks : list string) (l : list WorkLog.t) :
  NoDup ks -> (forall r, r ∈ l -> WorkLog.date r ∈ ks) ->
  jsum ((fun k => hours_sum (logs_on k l)) <$> ks) = hours_sum l.
Proof.
  intros Hnd. induction l as [|r l IH]; intros Hl.
  - change (hours_sum (logs_on _ [])) with (JNum 0). clear Hnd Hl.
    induction ks as [|k ks IHk]; [done|]. cbn [fmap list_fmap jsum foldr].
    fold (jsum ((fun _ => JNum 0) <$> ks)). by rewrite IHk.
  - assert (E : (fun k => hours_sum (logs_on k (r :: l))) <$> ks =
                (fun k => if String.eqb (WorkLog.date r) k
                          then WorkLog.hoursWorked r ⊞ hours_sum (logs_on k l)
                          else hours_sum (logs_on k l)) <$> ks).
    { apply list_fmap_ext. intros _ k _. rewrite logs_on_cons. by destruct (String.eqb _ _). }
    rewrite E, jsum_bump; [|done|apply Hl; left].
    rewrite IH; [done|]. intros r' Hr'. apply Hl. by right.
Qed.

(** [pg_date_roundtrip] at the text of the date (stated on [ymd_string]
    so that it applies without unfolding the text). *)
Lemma ymd_string_roundtrip (c : cdate) :
  valid_date c = true -> 1 <= year c -> pg_date_in (ymd_string c) = Some c.
Proof. exact (pg_date_roundtrip c). Qed.

(** Whether a record of a canonical date is in a range (stated for
    abstract bounds, so that it is used without unfolding them). *)
Lemma log_in_range_date (ca cb c : cdate) (r : WorkLog.t) :
  valid_date c = true -> 1 <= year c -> WorkLog.date r = pg_date_out c ->
  log_in_range ca cb r = (days_from_civil ca <=? days_from_civil c) && (days_from_civil c <=? days_from_civil cb).
Proof. intros Hv Hy Hd. unfold log_in_range, log_day. by rewrite Hd, pg_date_roundtrip. Qed.

(** A range whose end is in an earlier year than its start holds no
    record. *)
Lemma year_order (ca cb : cdate) :
  valid_date ca = true -> valid_date cb = true -> year cb < year ca ->
  days_from_civil cb < days_from_civil ca.
Proof.
  intros Ha Hb Hy. destruct (Z.ltb_spec (days_from_civil cb) (days_from_civil ca)) as [|Hle]; [done|].
  exfalso. pose proof (year_mono (days_from_civil ca) (days_from_civil cb - days_from_civil ca) ltac:(lia)) as Hm.
  replace (days_from_civil ca + (days_from_civil cb - days_from_civil ca)) with (days_from_civil cb) in Hm by ring.
  rewrite !civil_from_days_from_civil in Hm by done. lia.
Qed.

Lemma range_empty (ca cb : cdate) (l : list WorkLog.t) :
  days_from_civil cb < days_from_civil ca -> filter (log_in_range ca cb) l = [].
Proof.
  intros Hlt. induction l as [|r l IH]; [done|]. rewrite filter_cons, IH.
  assert (E : log_in_range ca cb r = false).
  { unfold log_in_range. destruct (log_day r) as [z|]; [|done]. apply andb_false_iff.
    destruct (Z.leb_spec (days_from_civil ca) z); [right; apply Z.leb_gt; lia|by left]. }
  rewrite E. case_decide as Hf; [by destruct Hf|done].
Qed.

(** ** The summary over a store that keeps its contract

    The week of a target date [t] whose Monday [D] is a day of an AD
    year. *)
Section Week.
Context {S : Type} `{IStorageLaws S}.
Variables (tz : Z) (s : S) (t : Z).
Hypothesis Hwf : store_wf s.
Hypothesis Hlo : 1 <= year (civil_from_days (local_day tz (startOfWeek tz t))).

Local Abbreviation D := (local_day tz (startOfWeek tz t)).
Local Abbreviation key i := (ymd_string (civil_from_days (D + i))).
Local Abbreviation week_logs :=
  (filter (log_in_range (civil_from_days D) (civil_from_days (D + 6))) (all_logs s)).

Lemma week_year_lo (i : Z) : 0 <= i -> 1 <= year (civil_from_days (D + i)).
Proof. intros Hi. pose proof (year_mono D i Hi). lia. Qed.

Lemma week_bounds :
  pg_date_in (format_ymd tz (startOfWeek tz t)) = Some (civil_from_days D) /\
  pg_date_in (format_ymd tz (endOfWeek tz t)) = Some (civil_from_days (D + 6)).
Proof.
  unfold format_ymd, local_civil. rewrite endOfWeek_day.
  split; apply ymd_string_roundtrip; [apply civil_from_days_valid|exact Hlo|apply civil_from_days_valid|].
  apply week_year_lo. lia.
Qed.

(** The date of a record of the week is one of the seven keys. *)
Lemma week_log_date (r : WorkLog.t) :
  r ∈ week_logs -> exists i, 0 <= i <= 6 /\ WorkLog.date r = key i.
Proof.
  intros [Hin Hr]%list_elem_of_filter.
  destruct (logs_canonical s r Hwf Hr) as (c & Hv & Hy & Hd).
  rewrite (log_in_range_date _ _ c) in Hin by done. rewrite !days_from_civil_from_days in Hin.
  apply Is_true_true, andb_prop in Hin as [H1%Z.leb_le H2%Z.leb_le].
  exists (days_from_civil c - D). split; [lia|].
  rewrite Hd. replace (D + (days_from_civil c - D)) with (days_from_civil c) by ring.
  by rewrite civil_from_days_from_civil.
Qed.

(** A record whose date is a key of the week is a record of the week. *)
Lemma logs_on_week (i : Z) :
  0 <= i <= 6 -> logs_on (key i) week_logs = logs_on (key i) (all_logs s).
Proof.
  intros Hi. unfold logs_on. rewrite list_filter_filter. apply filter_and_in.
  intros r Hr Hk. apply String.eqb_eq in Hk.
  destruct (logs_canonical s r Hwf Hr) as (c & Hv & Hy & Hd).
  rewrite Hd in Hk. apply ymd_string_inj in Hk;
    [|done|done|apply civil_from_days_valid|apply week_year_lo; lia].
  rewrite (log_in_range_date _ _ c) by done. rewrite Hk, !days_from_civil_from_days. apply Is_true_true_2, andb_true_intro. split; apply Z.leb_le; lia.
Qed.

Lemma week_keys_NoDup : NoDup (week_keys tz (startOfWeek tz t)).
Proof.
  rewrite week_keys_days. apply NoDup_fmap_2_strong; [|apply NoDup_seqZ].
  intros i j Hi%elem_of_seqZ Hj%elem_of_seqZ E.
  apply ymd_string_inj in E; try apply civil_from_days_valid; try (apply week_year_lo; lia).
  apply (f_equal days_from_civil) in E. rewrite !days_from_civil_from_days in E. lia.
Qed.

Lemma init_days_keys : JsMap.keys (init_days tz (startOfWeek tz t)) = week_keys tz (startOfWeek tz t).
Proof.
  unfold init_days. rewrite JsMap.keys_fold_set; [done|apply week_keys_NoDup|].
  intros k _ ?%elem_of_nil. done.
Qed.

Lemma init_days_get (k : string) (v : jsnum) :
  JsMap.get k (init_days tz (startOfWeek tz t)) = Some v -> v = JNum 0.
Proof.
  unfold init_days. destruct (decide (k ∈ week_keys tz (startOfWeek tz t))) as [Hk|Hk].
  - rewrite JsMap.get_fold_set by done. congruence.
  - rewrite JsMap.get_fold_set_other by done. done.
Qed.

Lemma week_year_hi (i : Z) :
  0 <= i <= 6 -> year (civil_from_days (D + 6)) <= 9999 -> year (civil_from_days (D + i)) <= 9999.
Proof.
  intros Hi Hhi. pose proof (year_mono (D + i) (6 - i) ltac:(lia)) as Hm.
  replace (D + i + (6 - i)) with (D + 6) in Hm by ring. lia.
Qed.

Lemma js_date_parse_key (i : Z) :
  0 <= i <= 6 -> year (civil_from_days (D + 6)) <= 9999 ->
  js_date_parse (key i) = Some ((D + i) * ms_per_day).
Proof.
  intros Hi Hhi. rewrite js_date_parse_ymd; [|apply civil_from_days_valid|].
  - by rewrite days_from_civil_from_days.
  - split; [apply week_year_lo; lia|by apply week_year_hi].
Qed.

Lemma init_days_get_key (i : Z) :
  0 <= i <= 6 -> JsMap.get (key i) (init_days tz (startOfWeek tz t)) = Some (JNum 0).
Proof.
  intros Hi. unfold init_days. apply JsMap.get_fold_set. rewrite week_keys_days.
  apply list_elem_of_fmap. exists i. split; [done|]. apply elem_of_seqZ. lia.
Qed.

(** The buckets after the week loop over the records of the week, in any
    order: the seven keys, and without NaN the hours of each day. *)
Lemma week_buckets (logs : list WorkLog.t) :
  logs ≡ₚ week_logs ->
  let m := (fold_left week_step logs (init_days tz (startOfWeek tz t), JNum 0, JNum 0)).1.1 in
  JsMap.keys m = week_keys tz (startOfWeek tz t) /\
  (no_nan week_logs -> forall i, 0 <= i <= 6 ->
     JsMap.get (key i) m = Some (hours_sum (logs_on (key i) (all_logs s)))).
Proof.
  intros Hperm m.
  assert (Hkeys : forall r, r ∈ logs -> WorkLog.date r ∈ JsMap.keys (init_days tz (startOfWeek tz t))).
  { intros r Hr. rewrite Hperm in Hr. destruct (week_log_date r Hr) as (i & Hi & ->).
    rewrite init_days_keys, week_keys_days. apply list_elem_of_fmap. exists i.
    split; [done|]. apply elem_of_seqZ. lia. }
  split; [unfold m; rewrite week_fold_keys; [apply init_days_keys|done]|].
  intros Hnan i Hi. unfold m. rewrite week_fold_get.
  - rewrite init_days_get_key by done. cbn -[jadd]. rewrite jadd_0_l, <- logs_on_week by done. f_equal.
    apply hours_sum_perm. unfold logs_on. by rewrite Hperm.
  - intros r Hr. split; [by apply Hkeys|]. rewrite Hperm in Hr.
    unfold no_nan in Hnan. rewrite Forall_forall in Hnan. by apply Hnan.
  - intros k v Hk. apply init_days_get in Hk. by subst.
Qed.

(** The week part of the summary: the seven entries of [days] in order
    Monday to Sunday, each named by [format(new Date(date), 'EEE')] and,
    without NaN, holding the hours of every stored record of its date;
    and the two weekly totals, over the records of the week in any
    order. *)
Lemma week_result :
  year (civil_from_days (D + 6)) <= 9999 ->
  exists logs days,
    getWorkLogsByRange (format_ymd tz (startOfWeek tz t)) (format_ymd tz (endOfWeek tz t)) s = Some logs /\
    week_summary tz (startOfWeek tz t) logs =
      Some (days, hours_sum week_logs, to_fixed2 100 (pay_sum week_logs)) /\
    Forall2 (fun i d => ds_date d = key i /\
                        ds_dayName d = format_EEE tz ((D + i) * ms_per_day) /\
                        (no_nan week_logs -> ds_totalHours d = hours_sum (logs_on (key i) (all_logs s))))
      (seqZ 0 7) days.
Proof.
  intros Hhi. destruct week_bounds as [Ha Hb].
  destruct (range_spec s _ _ _ _ Hwf Ha Hb) as (logs & Hget & Hperm & _).
  destruct (week_buckets logs Hperm) as [Hkeys Hvals].
  destruct (week_fold_totals logs (init_days tz (startOfWeek tz t)) (JNum 0) (JNum 0)) as [m Hm].
  rewrite Hm in Hkeys, Hvals. cbn [fst] in Hkeys, Hvals.
  pose proof (Forall2_in _ _ _ (Forall2_map_eq fst _ m (seqZ 0 7)
                (eq_trans Hkeys (week_keys_days tz (startOfWeek tz t))))) as Hent.
  set (f := fun e : string * jsnum =>
              mkDay e.1 (format_EEE tz (default 0 (js_date_parse e.1))) (to_fixed2 1 e.2)).
  assert (Hd : mapM (day_summary tz) m = Some (f <$> m)).
  { apply mapM_Some_2, Forall2_fmap_r, Forall_Forall2_diag, Forall_forall.
    intros [k v] Hin. apply (list_elem_of_fmap_2 fst) in Hin. change (k ∈ JsMap.keys m) in Hin.
    rewrite Hkeys, week_keys_days in Hin. apply list_elem_of_fmap in Hin as (i & -> & Hi%elem_of_seqZ).
    unfold f, day_summary, compose. cbn [fst snd]. rewrite js_date_parse_key by lia. reflexivity. }
  exists logs, (f <$> m). split_and!; [done| |].
  - unfold week_summary. rewrite Hm, Hd. cbn -[jadd hours_sum pay_sum].
    rewrite !jadd_0_l, to_fixed2_1, (hours_sum_perm _ _ Hperm), (pay_sum_perm _ _ Hperm). done.
  - apply Forall2_fmap_r, Forall2_flip. eapply Forall2_impl; [exact Hent|].
    intros [k v] i (Hk & Hin & Hi%elem_of_seqZ). unfold f, compose, flip. cbn [fst snd ds_date ds_dayName ds_totalHours] in Hk |- *. subst k.
    rewrite js_date_parse_key by lia. split_and!; [done|done|]. intros Hnan.
    rewrite to_fixed2_1. apply JsMap.get_elem_of in Hin; [|rewrite Hkeys; apply week_keys_NoDup].
    rewrite Hvals in Hin by (done || lia). congruence.
Qed.

End Week.

(** ** The fortnight *)

Lemma days_from_civil_first (y m d : Z) :
  days_from_civil (mkDate y m 1) + d - 1 = days_from_civil (mkDate y m d).
Proof.
  pose proof (days_from_civil_day y m 1 (d - 1)) as E.
  replace (1 + (d - 1)) with d in E by ring. lia.
Qed.

Lemma quincena_range_days (tz t : Z) :
  let '(first, qs, qe) := quincena_range tz t in
  first = (day (local_civil tz t) <=? 15) /\
  local_day tz qs = days_from_civil (quincena_js_dates tz t).1 /\
  local_day tz qe = days_from_civil (quincena_js_dates tz t).2.
Proof.
  unfold quincena_range, quincena_js_dates, getDate.
  pose proof (getMonth_range tz t) as Hm.
  destruct (day (local_civil tz t) <=? 15); cbn [fst snd]; split_and!; try done.
  all: try rewrite endOfMonth_day; try rewrite new_Date_local_day by done.
  all: unfold getMonth, getFullYear in *; set (c := local_civil tz t) in *.
  all: replace (month c - 1 + 1) with (month c) by ring.
  all: rewrite ?days_from_civil_first; done.
Qed.

Lemma quincena_dates_valid (tz t : Z) :
  valid_date (quincena_js_dates tz t).1 = true /\ valid_date (quincena_js_dates tz t).2 = true.
Proof.
  pose proof (local_civil_valid tz t) as Hv. apply valid_date_spec in Hv as [Hm Hd].
  unfold quincena_js_dates. set (c := local_civil tz t) in *.
  pose proof (days_in_month_bounds (year c) (month c)).
  pose proof (days_in_month_bounds (date_ctor_year (year c)) (month c)).
  destruct (day c <=? 15); cbn [fst snd]; split; apply valid_date_spec; cbn [year month day]; lia.
Qed.

Section Quincena.
Context {S : Type} `{IStorageLaws S}.
Variables (tz : Z) (s : S) (t : Z).
Hypothesis Hwf : store_wf s.
Hypothesis Hq : 1 <= getFullYear tz t.

Local Abbreviation quincena_js_logs :=
  (filter (log_in_range (quincena_js_dates tz t).1 (quincena_js_dates tz t).2) (all_logs s)).

(** From year 100 on, the constructor's reading of the year changes
    nothing: the bounds are the half of the local month. *)
Lemma quincena_js_dates_large : 100 <= getFullYear tz t -> quincena_js_dates tz t = quincena_dates tz t.
Proof.
  intros Hy. unfold quincena_js_dates, quincena_dates. unfold getFullYear in Hy.
  by rewrite date_ctor_year_large.
Qed.

Lemma format_quincena (z : Z) (c : cdate) :
  local_day tz z = days_from_civil c -> valid_date c = true -> 1 <= year c ->
  pg_date_in (format_ymd tz z) = Some c.
Proof.
  intros Hz Hv Hy. unfold format_ymd, local_civil. rewrite Hz, civil_from_days_from_civil by done.
  apply ymd_string_roundtrip; [done|lia].
Qed.

(** The fortnight part of the summary: the label of the half of the local
    month of [t] and the totals of the records between the bounds the
    code computes. *)
Lemma quincena_result :
  quincena_summary tz t s =
  Some (if day (local_civil tz t) <=? 15 then "1ra Quincena" else "2da Quincena",
        hours_sum quincena_js_logs, to_fixed2 100 (pay_sum quincena_js_logs)).
Proof.
  pose proof (quincena_range_days tz t) as Hr. destruct (quincena_dates_valid tz t) as [Hva Hvb].
  assert (Hy : 1 <= year (quincena_js_dates tz t).1 /\ 1 <= year (quincena_js_dates tz t).2).
  { pose proof (date_ctor_year_pos _ Hq). unfold quincena_js_dates, getFullYear in *. by destruct (_ <=? 15). }
  unfold quincena_summary. destruct (quincena_range tz t) as [[first qs] qe].
  destruct Hr as (-> & Hs & He). destruct Hy as [Hya Hyb].
  destruct (range_spec s _ _ _ _ Hwf (format_quincena qs _ Hs Hva Hya) (format_quincena qe _ He Hvb Hyb))
    as (logs & Hget & Hperm & _).
  rewrite Hget. cbn [mbind option_bind]. rewrite quincena_fold, !jadd_0_l, to_fixed2_1.
  by rewrite (hours_sum_perm _ _ Hperm), (pay_sum_perm _ _ Hperm).
Qed.

End Quincena.

(** ** The week range and the errors *)

Lemma ymd_string_nonempty (c : cdate) : String.eqb (ymd_string c) "" = false.
Proof. unfold ymd_string. by destruct (pad_start0 4 _). Qed.

(** C20: [getWeekRange] returns the local midnight of a Monday, the week
    from it to the Sunday contains the target date, and the two bounds
    are the texts of that Monday and of the Sunday six days later. *)
Theorem getWeekRange_monday (tz now : Z) (q : option string) (a b : string) (st : Z) :
  getWeekRange tz now q = Some (a, b, st) ->
  exists t, target_date now q = Some t /\
    st = local_midnight tz (local_day tz st) /\ getDay tz st = 1 /\
    local_day tz st <= local_day tz t <= local_day tz st + 6 /\
    a = format_ymd tz st /\ b = format_ymd tz (addDays st 6).
Proof.
  unfold getWeekRange. destruct (target_date now q) as [t|]; [|discriminate].
  cbn [mbind option_bind]. intros [= <- <- <-].
  exists t. destruct (startOfWeek_monday tz t) as [Hm Hr].
  split; [done|]. split; [unfold startOfWeek; by rewrite local_day_midnight0|].
  split; [exact Hm|]. split; [exact Hr|]. split; [done|].
  apply format_ymd_day. by rewrite endOfWeek_day, local_day_addDays.
Qed.

(** C27: The week of a query date [date] is the week of the local day of
    [new Date(date)], which is UTC midnight: west of UTC it is the day
    before [date].  So a query for a Monday returns the previous week
    when the server runs west of UTC. *)
Theorem getWeekRange_query (tz now : Z) (c : cdate) (a b : string) (st : Z) :
  valid_date c = true -> 1 <= year c <= 9999 -> -1440 < tz < 1440 ->
  getWeekRange tz now (Some (ymd_string c)) = Some (a, b, st) ->
  local_day tz st =
    (days_from_civil c - (if tz <? 0 then 1 else 0)) -
    (days_from_civil c - (if tz <? 0 then 1 else 0) + 3) mod 7.
Proof.
  intros Hv Hy Htz. unfold getWeekRange, target_date.
  rewrite ymd_string_nonempty, js_date_parse_ymd by done. cbn [mbind option_bind].
  intros [= _ _ <-]. rewrite startOfWeek_day, local_day_utc_midnight by done.
  destruct (tz <? 0); by rewrite ?Z.sub_0_r.
Qed.

(** A query date that V8 reads as Invalid Date makes [format] throw in
    both week routes: the response is 500. *)
Theorem invalid_query_fails {S : Type} `{IStorage S} (tz now1 now2 : Z) (str : string) (s : S) :
  str <> "" -> js_date_parse str = None ->
  getSummary tz now1 now2 (Some str) s = None /\ listWeek tz now1 (Some str) s = None.
Proof.
  intros Hne Hp. unfold getSummary, listWeek, getWeekRange, target_date.
  destruct (String.eqb_spec str ""); [done|]. by rewrite Hp.
Qed.

(** ** The summary handler *)

Lemma weekday_shift (z k : Z) : weekday (z + k) = (weekday z + k) mod 7.
Proof. unfold weekday. replace (z + k + 4) with (z + 4 + k) by ring. by rewrite Z.add_mod_idemp_l. Qed.

Lemma weekday_offset (z i d : Z) : weekday (z + i - d) = (weekday z + (i - d)) mod 7.
Proof. rewrite <- Z.add_sub_assoc. apply weekday_shift. Qed.

Lemma local_day_utc_west (tz z : Z) : -1440 < tz < 0 -> local_day tz (z * ms_per_day) = z - 1.
Proof. intros Htz. rewrite local_day_utc_midnight by lia. by destruct (Z.ltb_spec tz 0); [|lia]. Qed.

Lemma local_day_utc_east (tz z : Z) : 0 <= tz < 1440 -> local_day tz (z * ms_per_day) = z.
Proof. intros Htz. rewrite local_day_utc_midnight by lia. by destruct (Z.ltb_spec tz 0); [lia|]. Qed.

Lemma map_Forall2 {A B C} (f : A -> C) (g : B -> C) (l : list A) (k : list B) :
  Forall2 (fun x y => g y = f x) l k -> map g k = map f l.
Proof. induction 1; simpl; congruence. Qed.

Lemma fmap_Forall2 {A B C} (f : A -> C) (g : B -> C) (l : list A) (k : list B) :
  Forall2 (fun x y => g y = f x) l k -> g <$> k = f <$> l.
Proof. induction 1; cbn [fmap list_fmap]; congruence. Qed.

Section Handler.
Context {S : Type} `{IStorageLaws S}.
Variables (tz : Z) (s : S) (now1 now2 : Z) (q : option string) (t1 t2 : Z).
Hypothesis Hwf : store_wf s.
Hypothesis Ht1 : target_date now1 q = Some t1.
Hypothesis Ht2 : target_date now2 q = Some t2.
Hypothesis Hlo : 1 <= year (civil_from_days (local_day tz (startOfWeek tz t1))).
Hypothesis Hhi : year (civil_from_days (local_day tz (startOfWeek tz t1) + 6)) <= 9999.
Hypothesis Hq : 1 <= getFullYear tz t2.

Local Abbreviation D := (local_day tz (startOfWeek tz t1)).
Local Abbreviation key i := (ymd_string (civil_from_days (D + i))).
Local Abbreviation week_logs :=
  (filter (log_in_range (civil_from_days D) (civil_from_days (D + 6))) (all_logs s)).
Local Abbreviation quincena_logs :=
  (filter (log_in_range (quincena_js_dates tz t2).1 (quincena_js_dates tz t2).2) (all_logs s)).

Lemma getSummary_result :
  exists days,
    getSummary tz now1 now2 q s =
      Some (mkSummary (ymd_string (civil_from_days D)) (key 6) days
              (hours_sum week_logs) (to_fixed2 100 (pay_sum week_logs))
              (if day (local_civil tz t2) <=? 15 then "1ra Quincena" else "2da Quincena")
              (hours_sum quincena_logs) (to_fixed2 100 (pay_sum quincena_logs))) /\
    Forall2 (fun i d => ds_date d = key i /\
                        ds_dayName d = format_EEE tz ((D + i) * ms_per_day) /\
                        (no_nan week_logs -> ds_totalHours d = hours_sum (logs_on (key i) (all_logs s))))
      (seqZ 0 7) days.
Proof.
  destruct (week_result tz s t1 Hwf Hlo Hhi) as (logs & days & Hget & Hweek & Hdays).
  exists days. split; [|done].
  unfold getSummary, getWeekRange. rewrite Ht1. cbn [mbind option_bind].
  rewrite Hget. cbn [mbind option_bind]. rewrite Hweek. cbn [mbind option_bind].
  rewrite Ht2. cbn [mbind option_bind]. rewrite quincena_result by done. cbn [mbind option_bind].
  unfold format_ymd, local_civil. by rewrite endOfWeek_day.
Qed.

(** C1: The summary of the week of the target date: [startDate] and
    [endDate] are its Monday and its Sunday, [totalWeeklyHours] is the
    sum of the hours of every stored record dated in the week (NaN when
    one of them is NaN), and [totalPay] is the sum of hours times rate
    over those with a rate, rounded to cents, whatever the order in which
    the store returns the records. *)
Theorem getSummary_week_totals :
  exists sm, getSummary tz now1 now2 q s = Some sm /\
    startDate sm = ymd_string (civil_from_days D) /\ endDate sm = key 6 /\
    totalWeeklyHours sm = hours_sum week_logs /\ totalPay sm = to_fixed2 100 (pay_sum week_logs).
Proof. destruct getSummary_result as (ds & -> & _). by eexists. Qed.

(** C2: [days] has seven entries, the dates Monday to Sunday of the week in
    order; when no record of the week has NaN hours, each entry holds the
    hours of every stored record of its date. *)
Theorem getSummary_days :
  exists sm, getSummary tz now1 now2 q s = Some sm /\
    Forall2 (fun i d => ds_date d = key i /\
                        (no_nan week_logs -> ds_totalHours d = hours_sum (logs_on (key i) (all_logs s))))
      (seqZ 0 7) (days sm).
Proof.
  destruct getSummary_result as (ds & -> & Hd). eexists. split; [done|]. cbn [days].
  eapply Forall2_impl; [exact Hd|]. intros i d (? & _ & ?). done.
Qed.

(** C28: The day names of [days] are ["Mon"] to ["Sun"] when the server is
    at UTC or east of it, but ["Sun"] to ["Sat"] west of UTC: the key is
    read back with [new Date(date)] as UTC midnight, which is the evening
    before in local time. *)
Theorem getSummary_day_names :
  -1440 < tz < 1440 ->
  exists sm, getSummary tz now1 now2 q s = Some sm /\
    map ds_dayName (days sm) =
      if tz <? 0 then ["Sun"; "Mon"; "Tue"; "Wed"; "Thu"; "Fri"; "Sat"]
      else ["Mon"; "Tue"; "Wed"; "Thu"; "Fri"; "Sat"; "Sun"].
Proof.
  intros Htz. destruct getSummary_result as (ds & -> & Hd). eexists. split; [done|]. cbn [days].
  destruct (startOfWeek_monday tz t1) as [Hmon _].
  rewrite (map_Forall2 (fun i => format_EEE tz ((D + i) * ms_per_day)) ds_dayName (seqZ 0 7) ds)
    by (eapply Forall2_impl; [exact Hd|]; intros i d (_ & ? & _); done).
  change (seqZ 0 7) with [0; 1; 2; 3; 4; 5; 6]. cbn [map]. unfold format_EEE, getDay.
  destruct (Z.ltb_spec tz 0).
  - rewrite !local_day_utc_west by lia. rewrite !weekday_offset, Hmon. reflexivity.
  - rewrite !local_day_utc_east by lia. rewrite !weekday_shift, Hmon. reflexivity.
Qed.

(** C18: The fortnight fields: [quincenaLabel] is ["1ra Quincena"] when the
    local day of month of the target date is at most 15 and ["2da
    Quincena"] otherwise, and [quincenaHours]/[quincenaPay] are the sums
    over the stored records from the 1st to the 15th, or from the 16th to
    the last day of that local month, for a target date from the year
    100 on ([new Date(y, m, d)] reads the years 0..99 as 1900..1999). *)
Theorem getSummary_quincena :
  100 <= getFullYear tz t2 ->
  exists sm, getSummary tz now1 now2 q s = Some sm /\
    quincenaLabel sm = (if day (local_civil tz t2) <=? 15 then "1ra Quincena" else "2da Quincena") /\
    quincenaHours sm = hours_sum (filter (log_in_range (quincena_dates tz t2).1 (quincena_dates tz t2).2) (all_logs s)) /\
    quincenaPay sm = to_fixed2 100 (pay_sum (filter (log_in_range (quincena_dates tz t2).1 (quincena_dates tz t2).2) (all_logs s))).
Proof.
  intros Hy. destruct getSummary_result as (ds & -> & _). rewrite <- (quincena_js_dates_large tz t2 Hy).
  by eexists.
Qed.

(** C19: For a target date in the years 1..99 (a query such as
    "0050-03-20", which the route's regex accepts) [new Date(y, m, d)]
    moves the fortnight to the year 1900 + y: the first half sums the
    records of that half month of 1900 + y, and the second half, whose
    end [endOfMonth] keeps in the year y, is an empty range, so its
    totals are 0. *)
Theorem getSummary_quincena_two_digit_year :
  getFullYear tz t2 <= 99 ->
  exists sm, getSummary tz now1 now2 q s = Some sm /\
    (day (local_civil tz t2) <= 15 ->
       quincenaHours sm =
         hours_sum (filter (log_in_range (mkDate (1900 + getFullYear tz t2) (month (local_civil tz t2)) 1)
                                         (mkDate (1900 + getFullYear tz t2) (month (local_civil tz t2)) 15))
                           (all_logs s))) /\
    (15 < day (local_civil tz t2) -> quincenaHours sm = JNum 0 /\ quincenaPay sm = JNum 0).
Proof.
  intros Hy. destruct getSummary_result as (ds & -> & _). eexists. split; [done|].
  cbn [quincenaHours quincenaPay]. destruct (quincena_dates_valid tz t2) as [Hva Hvb].
  unfold getFullYear in *. unfold quincena_js_dates in *.
  assert (Hc : date_ctor_year (year (local_civil tz t2)) = 1900 + year (local_civil tz t2)).
  { unfold date_ctor_year. destruct (Z.leb_spec 0 (year (local_civil tz t2))); [|lia].
    destruct (Z.leb_spec (year (local_civil tz t2)) 99); [done|lia]. }
  rewrite Hc in *. split; intros Hd.
  - destruct (Z.leb_spec (day (local_civil tz t2)) 15); [done|lia].
  - destruct (Z.leb_spec (day (local_civil tz t2)) 15); [lia|]. cbn [fst snd] in *.
    rewrite range_empty by (apply year_order; [done|done|cbn [year]; lia]). split; reflexivity.
Qed.

(** C6: Without NaN hours in the week, [totalWeeklyHours] is the sum of the
    [totalHours] of the seven entries of [days] (spec section 8): every
    record of the week lands in the bucket of its date. *)
Theorem getSummary_total_is_sum_of_days :
  no_nan week_logs ->
  exists sm, getSummary tz now1 now2 q s = Some sm /\
    totalWeeklyHours sm = jsum (ds_totalHours <$> days sm).
Proof.
  intros Hnan. destruct getSummary_result as (ds & -> & Hd). eexists. split; [done|]. cbn [days totalWeeklyHours].
  rewrite (fmap_Forall2 (fun i => hours_sum (logs_on (key i) week_logs)) ds_totalHours (seqZ 0 7) ds).
  - rewrite <- (hours_sum_partition (week_keys tz (startOfWeek tz t1))).
    + rewrite week_keys_days, <- list_fmap_compose. done.
    + by apply week_keys_NoDup.
    + intros r Hr. destruct (week_log_date tz s t1 Hwf r Hr) as (i & Hi & ->).
      rewrite week_keys_days. apply list_elem_of_fmap. exists i. split; [done|]. apply elem_of_seqZ. lia.
  - eapply Forall2_impl; [exact (Forall2_in _ _ _ Hd)|].
    intros i d ((_ & _ & Ht) & Hi%elem_of_seqZ & _).
    rewrite Ht by done. symmetry. apply (f_equal hours_sum). apply logs_on_week; [done|done|lia].
Qed.

End Handler.

(** ** Examples on [DatabaseStorage] *)

Lemma three_shifts_wf (tz : Z) : tz = 0 \/ tz = -180 -> Database.db_wf (three_shifts tz).
Proof.
  intros [->| ->]; unfold Database.db_wf; apply (bool_decide_unpack _); vm_compute; exact I.
Qed.

Lemma nan_monday_wf : Database.db_wf nan_monday.
Proof. unfold Database.db_wf. apply (bool_decide_unpack _). vm_compute. exact I. Qed.

(** The week of Wednesday 2024-03-06 with the three shifts: Monday 4 to
    Sunday 10 March, 23.00 hours and 460.00 of pay. *)
Lemma getSummary_week_totals_witness :
  exists sm, getSummary (H := DatabaseStorage 0) 0 (now_wed 0) (now_wed 0) (Some "2024-03-06")
               (three_shifts 0) = Some sm /\
    startDate sm = "2024-03-04" /\ endDate sm = "2024-03-10" /\
    totalWeeklyHours sm = JNum 2300 /\ totalPay sm = JNum 46000.
Proof.
  destruct (@getSummary_week_totals Database.DB (DatabaseStorage 0) (DatabaseStorage_laws 0) 0
              (three_shifts 0) (now_wed 0) (now_wed 0) (Some "2024-03-06")
              (utc_day 2024 3 6) (utc_day 2024 3 6) (three_shifts_wf 0 (or_introl eq_refl))
              ltac:(vm_compute; reflexivity) ltac:(vm_compute; reflexivity)
              ltac:(apply Z.leb_le; vm_compute; reflexivity)
              ltac:(apply Z.leb_le; vm_compute; reflexivity)
              ltac:(apply Z.leb_le; vm_compute; reflexivity))
    as (sm & E & H1 & H2 & H3 & H4).
  exists sm. rewrite H1, H2, H3, H4. split; [exact E|]. split_and!; vm_compute; reflexivity.
Defined.

(** The same week day by day: 8, 9 and 6 hours on Monday to Wednesday. *)
Lemma getSummary_days_witness :
  exists sm, getSummary (H := DatabaseStorage 0) 0 (now_wed 0) (now_wed 0) (Some "2024-03-06")
               (three_shifts 0) = Some sm /\
    map ds_date (days sm) =
      ["2024-03-04"; "2024-03-05"; "2024-03-06"; "2024-03-07"; "2024-03-08"; "2024-03-09"; "2024-03-10"] /\
    map ds_totalHours (days sm) = [JNum 800; JNum 900; JNum 600; JNum 0; JNum 0; JNum 0; JNum 0].
Proof.
  destruct (@getSummary_days Database.DB (DatabaseStorage 0) (DatabaseStorage_laws 0) 0
              (three_shifts 0) (now_wed 0) (now_wed 0) (Some "2024-03-06")
              (utc_day 2024 3 6) (utc_day 2024 3 6) (three_shifts_wf 0 (or_introl eq_refl))
              ltac:(vm_compute; reflexivity) ltac:(vm_compute; reflexivity)
              ltac:(apply Z.leb_le; vm_compute; reflexivity)
              ltac:(apply Z.leb_le; vm_compute; reflexivity)
              ltac:(apply Z.leb_le; vm_compute; reflexivity))
    as (sm & E & Hd).
  exists sm. split; [exact E|].
  assert (Hnan : no_nan (filter (log_in_range (mkDate 2024 3 4) (mkDate 2024 3 10))
                           (Database.db_all_logs (three_shifts 0)))).
  { apply (bool_decide_unpack _). vm_compute. exact I. }
  split.
  - erewrite (map_Forall2 _ ds_date (seqZ 0 7) (days sm));
      [|eapply Forall2_impl; [exact Hd|]; intros i d [Hi _]; exact Hi].
    vm_compute. reflexivity.
  - erewrite (map_Forall2 _ ds_totalHours (seqZ 0 7) (days sm));
      [|eapply Forall2_impl; [exact Hd|]; intros i d [_ Hi]; apply Hi; vm_compute in Hnan |- *;
        exact Hnan].
    vm_compute. reflexivity.
Defined.

Lemma getSummary_total_is_sum_of_days_witness :
  exists sm, getSummary (H := DatabaseStorage 0) 0 (now_wed 0) (now_wed 0) (Some "2024-03-06")
               (three_shifts 0) = Some sm /\
    totalWeeklyHours sm = jsum (ds_totalHours <$> days sm).
Proof.
  exact (@getSummary_total_is_sum_of_days Database.DB (DatabaseStorage 0) (DatabaseStorage_laws 0) 0
           (three_shifts 0) (now_wed 0) (now_wed 0) (Some "2024-03-06")
           (utc_day 2024 3 6) (utc_day 2024 3 6) (three_shifts_wf 0 (or_introl eq_refl))
           ltac:(vm_compute; reflexivity) ltac:(vm_compute; reflexivity)
           ltac:(apply Z.leb_le; vm_compute; reflexivity)
           ltac:(apply Z.leb_le; vm_compute; reflexivity)
           ltac:(apply Z.leb_le; vm_compute; reflexivity)
           ltac:(apply (bool_decide_unpack _); vm_compute; exact I)).
Defined.

(** West of UTC (UTC-3) the same week is named Sunday to Saturday. *)
Lemma getSummary_day_names_witness :
  exists sm, getSummary (H := DatabaseStorage (-180)) (-180) (now_wed (-180)) (now_wed (-180))
               None (three_shifts (-180)) = Some sm /\
    map ds_dayName (days sm) = ["Sun"; "Mon"; "Tue"; "Wed"; "Thu"; "Fri"; "Sat"].
Proof.
  destruct (@getSummary_day_names Database.DB (DatabaseStorage (-180)) (DatabaseStorage_laws (-180))
              (-180) (three_shifts (-180)) (now_wed (-180)) (now_wed (-180)) None
              (now_wed (-180)) (now_wed (-180)) (three_shifts_wf (-180) (or_intror eq_refl))
              eq_refl eq_refl
              ltac:(apply Z.leb_le; vm_compute; reflexivity)
              ltac:(apply Z.leb_le; vm_compute; reflexivity)
              ltac:(apply Z.leb_le; vm_compute; reflexivity) ltac:(lia))
    as (sm & E & Hn).
  exists sm. split; [exact E|]. rewrite Hn. reflexivity.
Defined.

(** The fortnight of 2024-03-06 is the first half of March, with the
    23 hours of the three shifts. *)
Lemma getSummary_quincena_witness :
  exists sm, getSummary (H := DatabaseStorage 0) 0 (now_wed 0) (now_wed 0) (Some "2024-03-06")
               (three_shifts 0) = Some sm /\
    quincenaLabel sm = "1ra Quincena" /\ quincenaHours sm = JNum 2300 /\ quincenaPay sm = JNum 46000.
Proof.
  destruct (@getSummary_quincena Database.DB (DatabaseStorage 0) (DatabaseStorage_laws 0) 0
              (three_shifts 0) (now_wed 0) (now_wed 0) (Some "2024-03-06")
              (utc_day 2024 3 6) (utc_day 2024 3 6) (three_shifts_wf 0 (or_introl eq_refl))
              ltac:(vm_compute; reflexivity) ltac:(vm_compute; reflexivity)
              ltac:(apply Z.leb_le; vm_compute; reflexivity)
              ltac:(apply Z.leb_le; vm_compute; reflexivity)
              ltac:(apply Z.leb_le; vm_compute; reflexivity)
              ltac:(apply Z.leb_le; vm_compute; reflexivity))
    as (sm & E & H1 & H2 & H3).
  exists sm. rewrite H1, H2, H3. split; [exact E|]. split_and!; vm_compute; reflexivity.
Defined.

(** The query "0050-03-20" (second half of March of the year 50): the
    fortnight is the empty range from 1950-03-16 to 0050-03-31. *)
Lemma getSummary_quincena_two_digit_year_witness :
  exists sm, getSummary (H := DatabaseStorage 0) 0 (now_wed 0) (now_wed 0) (Some "0050-03-20")
               (three_shifts 0) = Some sm /\ quincenaHours sm = JNum 0 /\ quincenaPay sm = JNum 0.
Proof.
  destruct (@getSummary_quincena_two_digit_year Database.DB (DatabaseStorage 0) (DatabaseStorage_laws 0) 0
              (three_shifts 0) (now_wed 0) (now_wed 0) (Some "0050-03-20")
              (utc_day 50 3 20) (utc_day 50 3 20) (three_shifts_wf 0 (or_introl eq_refl))
              ltac:(vm_compute; reflexivity) ltac:(vm_compute; reflexivity)
              ltac:(apply Z.leb_le; vm_compute; reflexivity)
              ltac:(apply Z.leb_le; vm_compute; reflexivity)
              ltac:(apply Z.leb_le; vm_compute; reflexivity)
              ltac:(apply Z.leb_le; vm_compute; reflexivity))
    as (sm & E & _ & H2).
  exists sm. split; [exact E|]. apply H2. apply Z.ltb_lt. vm_compute. reflexivity.
Defined.

Lemma getWeekRange_monday_witness :
  exists t, target_date (now_wed 0) (Some "2024-03-06") = Some t /\
    startOfWeek 0 t = local_midnight 0 (local_day 0 (startOfWeek 0 t)) /\
    getDay 0 (startOfWeek 0 t) = 1 /\
    local_day 0 (startOfWeek 0 t) <= local_day 0 t <= local_day 0 (startOfWeek 0 t) + 6 /\
    "2024-03-04" = format_ymd 0 (startOfWeek 0 t) /\
    "2024-03-10" = format_ymd 0 (addDays (startOfWeek 0 t) 6).
Proof.
  destruct (getWeekRange_monday 0 (now_wed 0) (Some "2024-03-06") "2024-03-04" "2024-03-10"
              (startOfWeek 0 (utc_day 2024 3 6)) ltac:(vm_compute; reflexivity))
    as (t & Ht & H1 & H2 & H3 & H4 & H5).
  exists t. assert (t = utc_day 2024 3 6) as -> by (vm_compute in Ht |- *; congruence).
  split_and!; done.
Defined.

(** At UTC-3 the query for Monday 2024-03-04 gives the week that starts
    on Monday 2024-02-26. *)
Lemma getWeekRange_query_witness :
  local_day (-180) (startOfWeek (-180) (utc_day 2024 3 4)) = days_from_civil (mkDate 2024 2 26).
Proof.
  rewrite (getWeekRange_query (-180) (now_wed (-180)) (mkDate 2024 3 4) "2024-02-26" "2024-03-03"
             (startOfWeek (-180) (utc_day 2024 3 4)) eq_refl ltac:(cbn; lia) ltac:(lia)
             ltac:(vm_compute; reflexivity)).
  vm_compute. reflexivity.
Defined.

Lemma invalid_query_fails_witness :
  getSummary (H := DatabaseStorage 0) 0 (now_wed 0) (now_wed 0) (Some "2024-13-01") (three_shifts 0) = None /\
  listWeek (H := DatabaseStorage 0) 0 (now_wed 0) (Some "2024-13-01") (three_shifts 0) = None.
Proof. apply invalid_query_fails; [discriminate|vm_compute; reflexivity]. Defined.

(** C31: The [|| 0] of the week loop turns a day's NaN total back into 0:
    when a record of a day has NaN hours and the later records of that
    day ([post], at least one) do not, the day's bucket ends with the
    hours of [post] only, those of the earlier records lost, while the
    weekly total is NaN. *)
Theorem nan_bucket_erased (l pre post : list WorkLog.t) (r : WorkLog.t) (m : @JsMap.t jsnum) (h p : jsnum)
    (k : string) :
  logs_on k l = pre ++ r :: post -> WorkLog.hoursWorked r = JNaN -> post <> [] -> no_nan post ->
  JsMap.get k (fold_left week_step l (m, h, p)).1.1 = Some (hours_sum post) /\
  (fold_left week_step l (m, h, p)).1.2 = JNaN.
Proof.
  intros Hk Hr Hne Hpost. split.
  - rewrite week_fold_bucket, Hk, fold_left_app. cbn [fold_left].
    destruct post as [|r1 post]; [done|]. apply Forall_cons in Hpost as [H1 Hpost].
    cbn [fold_left]. unfold bucket_step at 2 3. rewrite Hr, jadd_nan_r, hours_sum_cons.
    destruct (WorkLog.hoursWorked r1) as [y|]; [|done]. cbn [or_zero jadd].
    rewrite bucket_fold_num by done. by rewrite Z.add_0_l.
  - destruct (week_fold_totals l m h p) as [m' ->]. cbn [fst snd].
    assert (Hin : r ∈ logs_on k l) by (rewrite Hk; set_solver).
    apply list_elem_of_filter in Hin as [_ Hin].
    by rewrite (hours_sum_nan l r Hin Hr), jadd_nan_r.
Qed.

(** The two shifts of [nan_monday] as the store returns them: 06:00 to
    24:00 (NaN hours) and then 09:00 to 17:00. *)
Lemma nan_bucket_erased_witness :
  JsMap.get "2024-03-04"
    (fold_left week_step [WorkLog.mk 1 "2024-03-04" "06:00:00" "24:00:00" JNaN None 0 0;
                          WorkLog.mk 2 "2024-03-04" "09:00:00" "17:00:00" (JNum 800) None 0 0]
       ([("2024-03-04", JNum 0)], JNum 0, JNum 0)).1.1 =
    Some (hours_sum [WorkLog.mk 2 "2024-03-04" "09:00:00" "17:00:00" (JNum 800) None 0 0]) /\
  (fold_left week_step [WorkLog.mk 1 "2024-03-04" "06:00:00" "24:00:00" JNaN None 0 0;
                        WorkLog.mk 2 "2024-03-04" "09:00:00" "17:00:00" (JNum 800) None 0 0]
     ([("2024-03-04", JNum 0)], JNum 0, JNum 0)).1.2 = JNaN.
Proof.
  apply (nan_bucket_erased _ [] _ (WorkLog.mk 1 "2024-03-04" "06:00:00" "24:00:00" JNaN None 0 0));
    [reflexivity|reflexivity|discriminate|].
  repeat constructor. discriminate.
Defined.

(** West of UTC the fortnight of a query date is decided on the day
    before it: at UTC-3 the query "2024-03-16" gets "1ra Quincena", at UTC
    it gets "2da Quincena". *)
Example quincena_west_of_utc :
  option_map quincenaLabel
    (getSummary (H := DatabaseStorage (-180)) (-180) (now_wed (-180)) (now_wed (-180))
       (Some "2024-03-16") (three_shifts (-180))) = Some "1ra Quincena" /\
  option_map quincenaLabel
    (getSummary (H := DatabaseStorage 0) 0 (now_wed 0) (now_wed 0) (Some "2024-03-16")
       (three_shifts 0)) = Some "2da Quincena".
Proof. split; vm_compute; reflexivity. Qed.

(** The two [new Date()] of the summary are two clock readings: a request
    that reads the clock on both sides of midnight at the end of March
    reports the week of 25 to 31 March with the fortnight of 1 to 15
    April. *)
Example summary_midnight_race :
  exists sm, getSummary (H := DatabaseStorage 0) 0 (at_local 0 2024 3 31 1439 + 59999)
               (at_local 0 2024 4 1 0) None (three_shifts 0) = Some sm /\
    startDate sm = "2024-03-25" /\ endDate sm = "2024-03-31" /\ quincenaLabel sm = "1ra Quincena" /\
    quincenaHours sm = JNum 0.
Proof. eexists. split; [vm_compute; reflexivity|]. split_and!; vm_compute; reflexivity. Qed.

End Summary.
