(* ===== verification/Routes.v ===== *)
(** The routes of [src/server/routes.ts] and the JSON boundary: the
    request bodies as JSON values read by the zod schemas of
    [src/shared/schema.ts] and [src/shared/routes.ts] (the first failing
    field in the schema's order is reported), the responses of the two
    week routes (lines 28-36 and 94-108), the handlers of
    [POST/PUT/DELETE /api/work-logs] (lines 111-182) and of the settings
    (lines 184-194), and the seed run at start-up (lines 196-219).  The
    handlers are written against [IStorage] and return the response with
    the new store; a thrown error is a 500 response inside a [try], and
    no response at all outside one. *)

From S2P Require Import Prelude JsRuntime Calendar Duration Store Summary.

Open Scope Z_scope.

Module Routes.
Import Database Summary.

(** ** JSON values *)

(** What [JSON.parse] and [JSON.stringify] exchange; numbers in
    hundredths. *)
Inductive json :=
| JNull
| JBool (b : bool)
| JNumber (v : Z)
| JString (s : string)
| JArray (l : list json)
| JObject (fields : list (string * json)).

(** zod's name of the type of a value, as in ["Expected string, received
    number"]. *)
Definition json_type (j : json) : string :=
  match j with
  | JNull => "null" | JBool _ => "boolean" | JNumber _ => "number"
  | JString _ => "string" | JArray _ => "array" | JObject _ => "object"
  end.

(** A key of a parsed object; [JSON.parse] keeps the last of duplicate
    keys. *)
Fixpoint lookup_field (k : string) (fs : list (string * json)) : option json :=
  match fs with
  | [] => None
  | (k', v) :: fs' =>
      match lookup_field k fs' with
      | Some w => Some w
      | None => if String.eqb k k' then Some v else None
      end
  end.

(** [JSON.stringify] of a number: NaN is written [null]. *)
Definition num_json (x : jsnum) : json :=
  match x with JNum v => JNumber v | JNaN => JNull end.

(** ** The zod schemas *)

(** The result of [schema.parse]: the value, or the first issue's
    message and path. *)
Inductive zres (A : Type) := ZOk (a : A) | ZErr (message field : string).
Arguments ZOk {A} a.
Arguments ZErr {A} message field.

Definition is_digit (c : ascii) : bool := match char_digit c with Some _ => true | None => false end.

(** [/^\d{4}-\d{2}-\d{2}$/] and [/^\d{2}:\d{2}$/]. *)
Definition date_shape (s : string) : bool :=
  match s with
  | String y1 (String y2 (String y3 (String y4 (String "-"
      (String m1 (String m2 (String "-" (String d1 (String d2 EmptyString))))))))) =>
      forallb is_digit [y1; y2; y3; y4; m1; m2; d1; d2]
  | _ => false
  end.

Definition time_shape (s : string) : bool :=
  match s with
  | String h1 (String h2 (String ":" (String m1 (String m2 EmptyString)))) =>
      forallb is_digit [h1; h2; m1; m2]
  | _ => false
  end.

(** [z.string().regex(re, msg)] on the field [key] ([None]: absent). *)
Definition zod_string (shape : string -> bool) (msg key : string) (v : option json) : zres string :=
  match v with
  | None => ZErr "Required" key
  | Some (JString s) => if shape s then ZOk s else ZErr msg key
  | Some j => ZErr ("Expected string, received " ++ json_type j) key
  end.

(** The same field made optional by [.partial()]. *)
Definition zod_opt_string (shape : string -> bool) (msg key : string) (v : option json)
    : zres (option string) :=
  match v with
  | None => ZOk None
  | Some _ => match zod_string shape msg key v with ZOk s => ZOk (Some s) | ZErr m f => ZErr m f end
  end.

Section Coerce.
(** [Number(s)] on a string, in hundredths ([None]: NaN).  The client
    sends numbers; strings reach it only from other callers. *)
Variable Number_string : string -> option Z.

(** [Number(String(x))] for the element of a one-element array. *)
Fixpoint Number_elem (x : json) : option Z :=
  match x with
  | JNull => Some 0
  | JBool _ => None
  | JNumber v => Some v
  | JString s => Number_string s
  | JArray [] => Some 0
  | JArray [y] => Number_elem y
  | JArray _ => None
  | JObject _ => None
  end.

(** [Number(x)]. *)
Definition js_Number (x : json) : option Z :=
  match x with
  | JNull => Some 0
  | JBool b => Some (if b then 100 else 0)
  | JNumber v => Some v
  | JString s => Number_string s
  | JArray [] => Some 0
  | JArray [y] => Number_elem y
  | JArray _ => None
  | JObject _ => None
  end.

(** [hourlyRate: z.coerce.number().optional()]. *)
Definition zod_rate (v : option json) : zres (option Z) :=
  match v with
  | None => ZOk None
  | Some j =>
      match js_Number j with
      | Some x => ZOk (Some x)
      | None => ZErr "Expected number, received nan" "hourlyRate"
      end
  end.

Definition date_msg : string := "Invalid date format (YYYY-MM-DD)".
Definition time_msg : string := "Invalid time format (HH:mm)".

(** [insertWorkLogSchema.parse(body)]: the fields in the order of the
    schema; unknown keys (also [hoursWorked] and [id]) are dropped. *)
Definition parse_insert (b : json) : zres InsertWorkLog.t :=
  match b with
  | JObject fs =>
      match zod_string date_shape date_msg "date" (lookup_field "date" fs),
            zod_string time_shape time_msg "startTime" (lookup_field "startTime" fs),
            zod_string time_shape time_msg "endTime" (lookup_field "endTime" fs),
            zod_rate (lookup_field "hourlyRate" fs) with
      | ZOk d, ZOk st, ZOk et, ZOk r => ZOk (InsertWorkLog.mk d st et r)
      | ZErr m f, _, _, _ | _, ZErr m f, _, _ | _, _, ZErr m f, _ | _, _, _, ZErr m f => ZErr m f
      end
  | j => ZErr ("Expected object, received " ++ json_type j) ""
  end.

(** [insertWorkLogSchema.partial().parse(body)]. *)
Definition parse_update (b : json) : zres UpdateWorkLog.t :=
  match b with
  | JObject fs =>
      match zod_opt_string date_shape date_msg "date" (lookup_field "date" fs),
            zod_opt_string time_shape time_msg "startTime" (lookup_field "startTime" fs),
            zod_opt_string time_shape time_msg "endTime" (lookup_field "endTime" fs),
            zod_rate (lookup_field "hourlyRate" fs) with
      | ZOk d, ZOk st, ZOk et, ZOk r => ZOk (UpdateWorkLog.mk d st et r)
      | ZErr m f, _, _, _ | _, ZErr m f, _, _ | _, _, ZErr m f, _ | _, _, _, ZErr m f => ZErr m f
      end
  | j => ZErr ("Expected object, received " ++ json_type j) ""
  end.
End Coerce.

(** ** Responses *)

(** The body of a response. *)
Inductive payload :=
| PError (message : string) (field : option string)
| PLog (l : WorkLog.t)
| PLogs (l : list WorkLog.t)
| PSetting (key value : string)
| PJson (j : json)
| PEmpty.

Record Response := mkResponse { status : Z; payload_of : payload }.

Definition internal_error : Response := mkResponse 500 (PError "Internal server error" None).
Definition not_found : Response := mkResponse 404 (PError "Work log not found" None).

(** [parseInt(req.params.id)] with no radix (ECMAScript, [parseInt]):
    leading white space, a sign, then a [0x] or [0X] prefix selects
    radix 16, and the longest run of digits of the radix that follows is
    read ([None]: no digit, NaN). *)
Definition hex_digit (c : ascii) : option Z :=
  match char_digit c with
  | Some d => Some d
  | None =>
      let n := Z.of_nat (nat_of_ascii c) in
      if (97 <=? n) && (n <=? 102) then Some (n - 87)
      else if (65 <=? n) && (n <=? 70) then Some (n - 55) else None
  end.

Definition radix_digit (r : Z) (c : ascii) : option Z :=
  if r =? 16 then hex_digit c else char_digit c.

Fixpoint read_digits (r : Z) (s : string) (acc : Z) (seen : bool) : option Z :=
  match s with
  | String c s' =>
      match radix_digit r c with
      | Some d => read_digits r s' (r * acc + d) true
      | None => if seen then Some acc else None
      end
  | EmptyString => if seen then Some acc else None
  end.

(** Steps 10-11: the [0x]/[0X] prefix. *)
Definition strip_radix (s : string) : Z * string :=
  match s with
  | String z (String x s') => if Ascii.eqb z "0" && (Ascii.eqb x "x" || Ascii.eqb x "X") then (16, s') else (10, s)
  | _ => (10, s)
  end.

Definition read_int (s : string) : option Z :=
  let '(r, s') := strip_radix s in read_digits r s' 0 false.

Fixpoint parseInt (s : string) : option Z :=
  match s with
  | String c s' =>
      if is_ws c then parseInt s'
      else if Ascii.eqb c "-" then option_map Z.opp (read_int s')
      else if Ascii.eqb c "+" then read_int s'
      else read_int s
  | EmptyString => None
  end.

(** The [id] column is a PostgreSQL [serial], an [integer]: the store's
    query binds the number read from the URL to it, and a value outside
    -2^31 .. 2^31-1 (or NaN) makes PostgreSQL throw, which the handler's
    [catch] answers with 500. *)
Definition int4_ok (id : Z) : bool := (- 2 ^ 31 <=? id) && (id <? 2 ^ 31).

(** The JSON of the summary response and the client's
    [weeklySummarySchema.parse] of it. *)
Definition day_json (d : DaySummary) : json :=
  JObject [("date", JString (ds_date d)); ("dayName", JString (ds_dayName d));
           ("totalHours", num_json (ds_totalHours d))].

Definition summary_json (sm : WeeklySummary) : json :=
  JObject [("startDate", JString (startDate sm)); ("endDate", JString (endDate sm));
           ("days", JArray (day_json <$> days sm));
           ("totalWeeklyHours", num_json (totalWeeklyHours sm));
           ("totalPay", num_json (totalPay sm));
           ("quincenaLabel", JString (quincenaLabel sm));
           ("quincenaHours", num_json (quincenaHours sm));
           ("quincenaPay", num_json (quincenaPay sm))].

Definition is_string (o : option json) : bool :=
  match o with Some (JString _) => true | _ => false end.

Definition is_number (o : option json) : bool :=
  match o with Some (JNumber _) => true | _ => false end.

Definition opt_string (o : option json) : bool :=
  match o with None => true | Some (JString _) => true | _ => false end.

Definition opt_number (o : option json) : bool :=
  match o with None => true | Some (JNumber _) => true | _ => false end.

Definition zod_day (j : json) : bool :=
  match j with
  | JObject fs =>
      is_string (lookup_field "date" fs) && is_string (lookup_field "dayName" fs) &&
      is_number (lookup_field "totalHours" fs)
  | _ => false
  end.

Definition zod_weekly_summary (j : json) : bool :=
  match j with
  | JObject fs =>
      is_string (lookup_field "startDate" fs) && is_string (lookup_field "endDate" fs) &&
      match lookup_field "days" fs with Some (JArray ds) => forallb zod_day ds | _ => false end &&
      is_number (lookup_field "totalWeeklyHours" fs) && is_number (lookup_field "totalPay" fs) &&
      opt_string (lookup_field "quincenaLabel" fs) && opt_number (lookup_field "quincenaHours" fs) &&
      opt_number (lookup_field "quincenaPay" fs)
  | _ => false
  end.

(** ** The handlers *)

Section Handlers.
Context {S : Type} `{IStorage S}.
Variable tz : Z.
Variable Number_string : string -> option Z.

(** [GET /api/work-logs/week/summary] (lines 38-109). *)
Definition route_summary (now1 now2 : Z) (q : option string) (s : S) : Response :=
  match getSummary tz now1 now2 q s with
  | Some sm => mkResponse 200 (PJson (summary_json sm))
  | None => internal_error
  end.

(** [GET /api/work-logs/week] (lines 28-36). *)
Definition route_list_week (now : Z) (q : option string) (s : S) : Response :=
  match listWeek tz now q s with
  | Some l => mkResponse 200 (PLogs l)
  | None => internal_error
  end.

(** [POST /api/work-logs] (lines 111-133); [now1], [now2] are the clock
    readings of the route's two [parse] calls, [ck] those of the store. *)
Definition route_create (now1 now2 : Z) (ck : Clock) (b : json) (s : S) : Response * S :=
  match parse_insert Number_string b with
  | ZErr m f => (mkResponse 400 (PError m (Some f)), s)
  | ZOk ins =>
      if end_not_after_start tz now1 now2 (InsertWorkLog.startTime ins) (InsertWorkLog.endTime ins)
      then (mkResponse 400 (PError "End time must be after start time" (Some "endTime")), s)
      else match createWorkLog ck ins s with
           | Some (log, s') => (mkResponse 201 (PLog log), s')
           | None => (internal_error, s)
           end
  end.

(** [input.startTime || input.endTime]. *)
Definition truthy (o : option string) : bool :=
  match o with Some x => negb (String.eqb x "") | None => false end.

(** The check of lines 141-153: [Some r] answers [r], [None] goes on. *)
Definition update_guard (now1 now2 : Z) (id : Z) (upd : UpdateWorkLog.t) (s : S) : option Response :=
  if truthy (UpdateWorkLog.startTime upd) || truthy (UpdateWorkLog.endTime upd) then
    match getWorkLog id s with
    | None => Some not_found
    | Some existing =>
        let sTime := or_str (UpdateWorkLog.startTime upd) (WorkLog.startTime existing) in
        let eTime := or_str (UpdateWorkLog.endTime upd) (WorkLog.endTime existing) in
        if end_not_after_start tz now1 now2 sTime eTime
        then Some (mkResponse 400 (PError "End time must be after start time" None))
        else None
    end
  else None.

(** [PUT /api/work-logs/:id] (lines 135-169). *)
Definition route_update (now1 now2 : Z) (ck : Clock) (idp : string) (b : json) (s : S) : Response * S :=
  match parse_update Number_string b with
  | ZErr m f => (mkResponse 400 (PError m (Some f)), s)
  | ZOk upd =>
      match parseInt idp with
      | Some id =>
          if negb (int4_ok id) then (internal_error, s) else
          match update_guard now1 now2 id upd s with
          | Some r => (r, s)
          | None =>
              match updateWorkLog ck id upd s with
              | Some (Some l, s') => (mkResponse 200 (PLog l), s')
              | Some (None, s') => (not_found, s')
              | None => (internal_error, s)
              end
          end
      | None => (internal_error, s)
      end
  end.

(** [DELETE /api/work-logs/:id] (lines 171-182). *)
Definition route_delete (idp : string) (s : S) : Response * S :=
  match parseInt idp with
  | Some id =>
      if negb (int4_ok id) then (internal_error, s) else
      match getWorkLog id s with
      | None => (not_found, s)
      | Some _ => (mkResponse 204 PEmpty, deleteWorkLog id s)
      end
  | None => (internal_error, s)
  end.

(** [GET /api/settings/:key] (lines 184-188). *)
Definition route_get_setting (key : string) (s : S) : Response :=
  match getSetting key s with
  | None => mkResponse 404 (PError "Setting not found" None)
  | Some v => mkResponse 200 (PSetting key v)
  end.

(** [PUT /api/settings/:key] (lines 190-194): the body is parsed outside
    any [try], so an invalid one makes the handler's promise reject and
    no response is written ([None]). *)
Definition route_put_setting (key : string) (b : json) (s : S) : option Response * S :=
  match b with
  | JObject fs =>
      match lookup_field "value" fs with
      | Some (JString v) => (Some (mkResponse 200 (PSetting key v)), updateSetting key v s)
      | _ => (None, s)
      end
  | _ => (None, s)
  end.

(** The seed of lines 196-219, run at start-up with the clock [now] and
    the store's clock readings of the three creates. *)
Definition seed_logs (now : Z) : list InsertWorkLog.t :=
  let monday := startOfWeek tz now in
  [InsertWorkLog.mk (format_ymd tz (addDays monday 0)) "09:00" "17:00" (Some 2000);
   InsertWorkLog.mk (format_ymd tz (addDays monday 1)) "09:00" "18:00" (Some 2000);
   InsertWorkLog.mk (format_ymd tz (addDays monday 2)) "10:00" "16:00" (Some 2000)].

Fixpoint create_all (cks : list Clock) (ls : list InsertWorkLog.t) (s : S) : option S :=
  match cks, ls with
  | ck :: cks', l :: ls' =>
      match createWorkLog ck l s with
      | Some (_, s') => create_all cks' ls' s'
      | None => None
      end
  | _, [] => Some s
  | [], _ :: _ => None
  end.

Definition seed (now : Z) (cks : list Clock) (s : S) : option S :=
  existing ← getWorkLogsByRange "2000-01-01" "2100-01-01" s;
  if decide (List.length existing = 0%nat) then
    create_all cks (seed_logs now) (updateSetting "defaultHourlyRate" "3500" s)
  else Some s.

End Handlers.

(** ** Reading the request *)

Lemma lookup_field_app_other (k k' : string) (v : json) (fs : list (string * json)) :
  k <> k' -> lookup_field k (fs ++ [(k', v)]) = lookup_field k fs.
Proof.
  intros Hne. induction fs as [|[k0 v0] fs IH]; cbn [app lookup_field].
  - destruct (String.eqb k k') eqn:E; [apply String.eqb_eq in E; congruence|done].
  - by rewrite IH.
Qed.

Lemma parse_insert_shape (NS : string -> option Z) (b : json) (ins : InsertWorkLog.t) :
  parse_insert NS b = ZOk ins ->
  date_shape (InsertWorkLog.date ins) = true /\ time_shape (InsertWorkLog.startTime ins) = true /\
  time_shape (InsertWorkLog.endTime ins) = true.
Proof.
  unfold parse_insert. destruct b; try discriminate.
  repeat case_match; intros; simplify_eq. simpl.
  unfold zod_string in *. repeat case_match; simplify_eq; auto.
Qed.

Lemma parse_HHmm_range (s : string) (m : Z) : parse_HHmm s = Some m -> 0 <= m <= 1439.
Proof.
  unfold parse_HHmm, read_1_2_digits. repeat case_match; try discriminate.
  all: intros [= <-].
  all: repeat match goal with Hd : char_digit _ = Some _ |- _ => apply char_digit_bound in Hd end.
  all: repeat match goal with Hb : (_ && _)%bool = true |- _ => apply andb_prop in Hb as [? ?] end.
  all: repeat match goal with Hb : (_ <=? _) = true |- _ => apply Z.leb_le in Hb end.
  all: simplify_eq; lia.
Qed.

(** A time of the form the regex accepts that date-fns reads is one the
    [time] column accepts, with the same value. *)
Lemma time_shape_pg (s : string) (m : Z) :
  time_shape s = true -> parse_HHmm s = Some m -> pg_time_in s = Some m.
Proof.
  unfold time_shape. intros Hs Hp. repeat case_match; try discriminate. simplify_eq.
  cbn [forallb] in Hs. unfold is_digit in Hs.
  repeat match goal with H : context [match char_digit ?c with _ => _ end] |- _ =>
    destruct (char_digit c) eqn:?; [|discriminate] end.
  unfold parse_HHmm, read_1_2_digits in Hp. unfold pg_time_in, two_digits.
  repeat match goal with E : char_digit _ = Some _ |- _ => rewrite E in Hp |- *; clear E end.
  cbn [all_ws andb] in Hp |- *. clear Hs. revert Hp. destruct (_ && _)%bool; simpl; congruence.
Qed.

Lemma round_div_hours_bound (m : Z) : 0 <= m <= 1439 -> Z.abs (round_div (5 * m) 3) < 100000.
Proof. intros Hm. pose proof (round_div_close (5 * m) 3 ltac:(lia)). lia. Qed.

Section CreateRoute.
Variables (tz : Z) (NS : string -> option Z).

(** The create reaches the store when its guard is false; what the store
    answers is the route's answer. *)
Lemma route_create_store {S : Type} `{IStorage S} (now1 now2 : Z) (ck : Clock) (b : json) (s : S)
    (ins : InsertWorkLog.t) :
  parse_insert NS b = ZOk ins ->
  end_not_after_start tz now1 now2 (InsertWorkLog.startTime ins) (InsertWorkLog.endTime ins) = false ->
  route_create tz NS now1 now2 ck b s =
    match createWorkLog ck ins s with
    | Some (log, s') => (mkResponse 201 (PLog log), s')
    | None => (internal_error, s)
    end.
Proof. intros Hp Hg. unfold route_create. by rewrite Hp, Hg. Qed.

Lemma end_not_after_start_lt (now1 now2 : Z) (st et : string) (a e : Z) :
  parse_HHmm st = Some a -> parse_HHmm et = Some e -> local_day tz now1 = local_day tz now2 ->
  end_not_after_start tz now1 now2 st et = (e <=? a).
Proof.
  intros Ha He Hday. unfold end_not_after_start.
  rewrite (parse_time_some _ _ _ _ Ha), (parse_time_some _ _ _ _ He), Hday. simpl.
  apply eq_true_iff_eq. rewrite !Z.leb_le. lia.
Qed.

(** C4: A create whose body the schema accepts, with a valid date, times
    that date-fns reads with the end after the start, all clock readings
    on one local day and a rate the column holds, answers 201 with the
    record stored under the next id and its hours computed from the
    times. *)
Theorem route_create_ok (now1 now2 : Z) (ck : Clock) (b : json) (db : DB) (ins : InsertWorkLog.t)
    (c : cdate) (a e : Z) :
  parse_insert NS b = ZOk ins ->
  pg_date_in (InsertWorkLog.date ins) = Some c ->
  parse_HHmm (InsertWorkLog.startTime ins) = Some a -> parse_HHmm (InsertWorkLog.endTime ins) = Some e ->
  a < e -> local_day tz now1 = local_day tz now2 -> local_day tz (c_start ck) = local_day tz (c_end ck) ->
  pg_rate_ok (InsertWorkLog.hourlyRate ins) = true ->
  exists log db',
    @route_create DB (DatabaseStorage tz) tz NS now1 now2 ck b db = (mkResponse 201 (PLog log), db') /\
    WorkLog.id log = serial db /\ WorkLog.hoursWorked log = JNum (round_div (5 * (e - a)) 3) /\
    db_getWorkLog (serial db) db' = Some log /\ serial db' = serial db + 1.
Proof.
  intros Hp Hd Ha He Hae Hday Hck Hr.
  destruct (parse_insert_shape NS b ins Hp) as (_ & Hsa & Hse).
  pose proof (parse_HHmm_range _ _ Ha). pose proof (parse_HHmm_range _ _ He).
  rewrite (route_create_store _ _ _ _ _ ins Hp)
    by (rewrite (end_not_after_start_lt _ _ _ _ _ _ Ha He Hday); apply Z.leb_gt; lia).
  cbn [createWorkLog DatabaseStorage]. unfold db_createWorkLog.
  rewrite Hd, (time_shape_pg _ _ Hsa Ha), (time_shape_pg _ _ Hse He), (hours_worked_same_day _ _ _ _ _ _ _ Ha He Hck),
    duration_minutes, Hr by lia.
  cbn [pg_hours_ok andb]. rewrite (proj2 (Z.ltb_lt _ _)) by (apply round_div_hours_bound; lia).
  eexists _, _. split; [reflexivity|]. split_and!; try done.
  unfold db_getWorkLog. cbn [rows]. by rewrite lookup_insert_eq.
Qed.

(** C8: A create whose end time is not after its start time on the same
    local day is answered 400 naming the field [endTime], and nothing is
    written (spec section 8). *)
Theorem route_create_end_not_after_start {S : Type} `{IStorage S} (now1 now2 : Z) (ck : Clock) (b : json)
    (s : S) (ins : InsertWorkLog.t) (a e : Z) :
  parse_insert NS b = ZOk ins ->
  parse_HHmm (InsertWorkLog.startTime ins) = Some a -> parse_HHmm (InsertWorkLog.endTime ins) = Some e ->
  e <= a -> local_day tz now1 = local_day tz now2 ->
  route_create tz NS now1 now2 ck b s =
    (mkResponse 400 (PError "End time must be after start time" (Some "endTime")), s).
Proof.
  intros Hp Ha He Hea Hday. unfold route_create. rewrite Hp.
  rewrite (end_not_after_start_lt _ _ _ _ _ _ Ha He Hday).
  by rewrite (proj2 (Z.leb_le _ _)) by lia.
Qed.

(** C32: The end time "24:00" matches the schema's regex and the [time]
    column, but date-fns rejects it: the guard [end <= start] is false on
    Invalid Date, and the record is created with NaN hours. *)
Theorem route_create_midnight_nan (now1 now2 : Z) (ck : Clock) (b : json) (db : DB) (ins : InsertWorkLog.t)
    (c : cdate) (st : Z) :
  parse_insert NS b = ZOk ins -> InsertWorkLog.endTime ins = "24:00" ->
  pg_date_in (InsertWorkLog.date ins) = Some c -> pg_time_in (InsertWorkLog.startTime ins) = Some st ->
  pg_rate_ok (InsertWorkLog.hourlyRate ins) = true ->
  exists log db',
    @route_create DB (DatabaseStorage tz) tz NS now1 now2 ck b db = (mkResponse 201 (PLog log), db') /\
    WorkLog.hoursWorked log = JNaN.
Proof.
  intros Hp He Hd Hs Hr.
  rewrite (route_create_store _ _ _ _ _ ins Hp)
    by (rewrite He; apply guard_end_invalid; done).
  cbn [createWorkLog DatabaseStorage]. unfold db_createWorkLog.
  rewrite Hd, Hs, He, hours_worked_end_invalid, Hr by done.
  eexists _, _. split; reflexivity.
Qed.

(** A [hoursWorked] sent by the client is dropped by the schema: the
    create does the same with or without it. *)
Theorem route_create_ignores_hours {S : Type} `{IStorage S} (now1 now2 : Z) (ck : Clock)
    (fs : list (string * json)) (v : json) (s : S) :
  route_create tz NS now1 now2 ck (JObject (fs ++ [("hoursWorked", v)])) s =
  route_create tz NS now1 now2 ck (JObject fs) s.
Proof.
  unfold route_create, parse_insert. rewrite !lookup_field_app_other by discriminate. done.
Qed.

End CreateRoute.

Section WriteRoutes.
Variables (tz : Z) (NS : string -> option Z).

Lemma truthy_time (et : string) (m : Z) : pg_time_in et = Some m -> truthy (Some et) = true.
Proof. destruct et; [discriminate|done]. Qed.

(** The start time a record reads back with, for a row of a well-formed
    store, is never one date-fns parses. *)
Lemma row_start_unparseable (db : DB) (id : Z) (r : Row) :
  db_wf db -> rows db !! id = Some r -> parse_HHmm (WorkLog.startTime (row_to_log id r)) = None.
Proof.
  intros Hwf Er. apply Hwf in Er as [_ (_ & _ & Hs & _)].
  by apply stored_time_unparseable.
Qed.

(** C26: An update that supplies the end time but not the start time
    passes the route's guard whatever the end time is, since the start
    time read back from the store ("HH:MM:SS") is Invalid Date: the route
    answers 200 and stores NaN hours, even for an end before the stored
    start. *)
Theorem route_update_guard_bypass (now1 now2 : Z) (ck : Clock) (idp : string) (b : json) (db : DB)
    (id : Z) (r : Row) (upd : UpdateWorkLog.t) (et : string) (m : Z) :
  db_wf db -> parse_update NS b = ZOk upd -> parseInt idp = Some id -> int4_ok id = true -> rows db !! id = Some r ->
  UpdateWorkLog.startTime upd = None -> UpdateWorkLog.endTime upd = Some et -> pg_time_in et = Some m ->
  opt_in pg_date_in (UpdateWorkLog.date upd) <> None -> pg_rate_ok (UpdateWorkLog.hourlyRate upd) = true ->
  exists l db',
    @route_update DB (DatabaseStorage tz) tz NS now1 now2 ck idp b db = (mkResponse 200 (PLog l), db') /\
    WorkLog.hoursWorked l = JNaN.
Proof.
  intros Hwf Hp Hid Hi Er Hst Het Hm Hd Hr.
  pose proof (row_start_unparseable db id r Hwf Er) as Hs.
  unfold route_update, update_guard. rewrite Hp, Hid, Hi, Hst, Het, (truthy_time et m Hm). cbn [negb].
  cbn [getWorkLog updateWorkLog DatabaseStorage orb]. unfold db_updateWorkLog, db_getWorkLog.
  rewrite Er. cbn [fmap option_fmap option_map or_str].
  rewrite guard_start_invalid by exact Hs.
  rewrite Hst, Het. cbn [opt_in or_str]. rewrite Hm.
  rewrite hours_worked_start_invalid by exact Hs.
  destruct (opt_in pg_date_in (UpdateWorkLog.date upd)); [|done].
  rewrite Hr. eexists _, _. split; reflexivity.
Qed.

(** C9: An update with a valid body of an id that [parseInt] reads as
    [id] is answered 500 when [id] is outside the [integer] range of the
    column, and otherwise, when [id] has no record, 404, whether or not
    it supplies a time; in both cases nothing changes. *)
Theorem route_update_missing (now1 now2 : Z) (ck : Clock) (idp : string) (b : json) (db : DB)
    (id : Z) (upd : UpdateWorkLog.t) :
  parse_update NS b = ZOk upd -> parseInt idp = Some id ->
  (int4_ok id = false -> @route_update DB (DatabaseStorage tz) tz NS now1 now2 ck idp b db = (internal_error, db)) /\
  (int4_ok id = true -> rows db !! id = None ->
   @route_update DB (DatabaseStorage tz) tz NS now1 now2 ck idp b db = (not_found, db)).
Proof.
  intros Hp Hid. unfold route_update, update_guard. rewrite Hp, Hid.
  split; intros Hi; rewrite Hi; cbn [negb]; [done|]. intros E.
  cbn [getWorkLog updateWorkLog DatabaseStorage]. unfold db_updateWorkLog, db_getWorkLog.
  rewrite E. by destruct (_ || _)%bool.
Qed.

(** C16: [DELETE] of a parameter that [parseInt] reads as [id] answers
    500 and changes nothing when [id] is outside the [integer] range of
    the column; otherwise it answers 404 and changes nothing when [id]
    has no record, and 204 and removes that record only when it has one;
    afterwards [id] has no record. *)
Theorem route_delete_spec (idp : string) (db : DB) (id : Z) :
  parseInt idp = Some id ->
  @route_delete DB (DatabaseStorage tz) idp db =
    (if int4_ok id then
       match rows db !! id with
       | None => (not_found, db)
       | Some _ => (mkResponse 204 PEmpty, db_deleteWorkLog id db)
       end
     else (internal_error, db)) /\
  (int4_ok id = true -> db_getWorkLog id (@route_delete DB (DatabaseStorage tz) idp db).2 = None).
Proof.
  intros Hid. unfold route_delete. rewrite Hid.
  destruct (int4_ok id) eqn:Hi; cbn [negb]; [|split; [done|discriminate]].
  cbn [getWorkLog deleteWorkLog DatabaseStorage].
  unfold db_getWorkLog at 1 3. destruct (rows db !! id) eqn:E; cbn; split; try done; intros _.
  - unfold db_getWorkLog, db_deleteWorkLog. cbn. by rewrite lookup_delete_eq.
  - unfold db_getWorkLog. by rewrite E.
Qed.

(** C17: A setting written by [PUT /api/settings/:key] with a string
    [value] is what [GET] then answers. *)
Theorem route_settings_roundtrip (key v : string) (fs : list (string * json)) (db : DB) :
  lookup_field "value" fs = Some (JString v) ->
  let (r, db') := @route_put_setting DB (DatabaseStorage tz) key (JObject fs) db in
  r = Some (mkResponse 200 (PSetting key v)) /\
  @route_get_setting DB (DatabaseStorage tz) key db' = mkResponse 200 (PSetting key v).
Proof.
  intros Hv. unfold route_put_setting, route_get_setting. rewrite Hv.
  cbn [getSetting updateSetting DatabaseStorage]. unfold db_getSetting, db_updateSetting. cbn.
  by rewrite lookup_insert_eq.
Qed.

(** A [PUT /api/settings/:key] whose body has no string [value] is
    rejected by zod outside any [try]: no response is sent and nothing is
    written. *)
Theorem route_put_setting_invalid {S : Type} `{IStorage S} (key : string) (fs : list (string * json)) (s : S) :
  (forall v, lookup_field "value" fs <> Some (JString v)) ->
  route_put_setting key (JObject fs) s = (None, s).
Proof.
  intros Hv. unfold route_put_setting.
  destruct (lookup_field "value" fs) as [[]|]; try done. by destruct (Hv s0).
Qed.

End WriteRoutes.


(** ** The responses the API contract declares *)

(** The [responses] of [api] in [src/shared/routes.ts]: the status codes
    each route declares with the shape of their bodies
    ([errorSchemas.validation] and [errorSchemas.notFound] are error
    objects, [z.custom] a record, [z.void()] no body). *)
Definition create_contract (r : Response) : bool :=
  match status r, payload_of r with
  | 201, PLog _ | 400, PError _ _ => true
  | _, _ => false
  end.

Definition update_contract (r : Response) : bool :=
  match status r, payload_of r with
  | 200, PLog _ | 400, PError _ _ | 404, PError _ _ => true
  | _, _ => false
  end.

Definition delete_contract (r : Response) : bool :=
  match status r, payload_of r with
  | 204, PEmpty | 404, PError _ _ => true
  | _, _ => false
  end.

Definition setting_get_contract (r : Response) : bool :=
  match status r, payload_of r with
  | 200, PSetting _ _ | 404, PError _ _ => true
  | _, _ => false
  end.

Definition setting_put_contract (r : Response) : bool :=
  match status r, payload_of r with 200, PSetting _ _ => true | _, _ => false end.

Section Contract.
Context {S : Type} `{IStorage S}.
Variables (tz : Z) (NS : string -> option Z).

(** C12: Every response of the write routes is one the API contract
    declares for that route, or the generic 500 of the [catch]; the
    settings routes answer only declared responses (the update one, when
    it answers at all). *)
Theorem route_responses_conform (now1 now2 : Z) (ck : Clock) (idp key : string) (b : json) (s : S) :
  (create_contract (route_create tz NS now1 now2 ck b s).1 = true \/
   (route_create tz NS now1 now2 ck b s).1 = internal_error) /\
  (update_contract (route_update tz NS now1 now2 ck idp b s).1 = true \/
   (route_update tz NS now1 now2 ck idp b s).1 = internal_error) /\
  (delete_contract (route_delete idp s).1 = true \/ (route_delete idp s).1 = internal_error) /\
  setting_get_contract (route_get_setting key s) = true /\
  (forall r, (route_put_setting key b s).1 = Some r -> setting_put_contract r = true).
Proof.
  split_and!.
  - unfold route_create. repeat case_match; simpl; auto.
  - unfold route_update, update_guard. repeat case_match; simplify_eq; simpl; auto.
  - unfold route_delete. repeat case_match; simpl; auto.
  - unfold route_get_setting. by case_match.
  - intros r. unfold route_put_setting. repeat case_match; simpl; intros; simplify_eq; done.
Qed.

End Contract.

(** ** Requests of the spec's scenarios *)

(** A [Number] of strings that reads none (the client sends numbers). *)
Definition NS0 : string -> option Z := fun _ => None.

Definition ck_at (n : Z) : Clock := mkClock n n n.

Definition create_body (d st et : string) (rate : Z) : json :=
  JObject [("date", JString d); ("startTime", JString st); ("endTime", JString et);
           ("hourlyRate", JNumber rate)].

(** Record 1 of [three_shifts 0]: Monday 09:00 to 17:00. *)
Definition row1 : Row := mkRow (mkDate 2024 3 4) 540 1020 (JNum 800) (Some 2000) (now_wed 0) (now_wed 0).

Definition seeded : option DB :=
  @seed DB (DatabaseStorage 0) 0 (now_wed 0) [ck_at (now_wed 0); ck_at (now_wed 0); ck_at (now_wed 0)] empty_db.

Definition rate_update : Response * DB :=
  @route_update DB (DatabaseStorage 0) 0 NS0 (now_wed 0) (now_wed 0) (ck_at (now_wed 0)) "1"
    (JObject [("hourlyRate", JNumber 2500)]) (three_shifts 0).

(** The first shift of spec section 8 sent to [POST /api/work-logs]
    on an empty store is stored as record 1 with 8.00 hours. *)
Lemma route_create_ok_witness :
  exists log db',
    @route_create DB (DatabaseStorage 0) 0 NS0 (now_wed 0) (now_wed 0) (ck_at (now_wed 0))
      (create_body "2024-03-04" "09:00" "17:00" 2000) empty_db = (mkResponse 201 (PLog log), db') /\
    WorkLog.id log = serial empty_db /\ WorkLog.hoursWorked log = JNum (round_div (5 * (1020 - 540)) 3) /\
    db_getWorkLog (serial empty_db) db' = Some log /\ serial db' = serial empty_db + 1.
Proof.
  apply (route_create_ok 0 NS0 _ _ _ _ _ monday_shift (mkDate 2024 3 4)); vm_compute; try reflexivity; done.
Defined.

Lemma route_create_end_not_after_start_witness :
  @route_create DB (DatabaseStorage 0) 0 NS0 (now_wed 0) (now_wed 0) (ck_at (now_wed 0))
    (create_body "2024-03-04" "17:00" "09:00" 2000) empty_db =
    (mkResponse 400 (PError "End time must be after start time" (Some "endTime")), empty_db).
Proof.
  apply (route_create_end_not_after_start 0 NS0 _ _ _ _ _ (InsertWorkLog.mk "2024-03-04" "17:00" "09:00" (Some 2000))
           1020 540); vm_compute; try reflexivity; done.
Defined.

Lemma route_create_midnight_nan_witness :
  exists log db',
    @route_create DB (DatabaseStorage 0) 0 NS0 (now_wed 0) (now_wed 0) (ck_at (now_wed 0))
      (create_body "2024-03-04" "18:00" "24:00" 2000) empty_db = (mkResponse 201 (PLog log), db') /\
    WorkLog.hoursWorked log = JNaN.
Proof.
  apply (route_create_midnight_nan 0 NS0 _ _ _ _ _ (InsertWorkLog.mk "2024-03-04" "18:00" "24:00" (Some 2000))
           (mkDate 2024 3 4) 1080); vm_compute; reflexivity.
Defined.

(** Moving the end of Monday's 09:00 shift to 08:00 is accepted. *)
Lemma route_update_guard_bypass_witness :
  exists l db',
    @route_update DB (DatabaseStorage 0) 0 NS0 (now_wed 0) (now_wed 0) (ck_at (now_wed 0)) "1"
      (JObject [("endTime", JString "08:00")]) (three_shifts 0) = (mkResponse 200 (PLog l), db') /\
    WorkLog.hoursWorked l = JNaN.
Proof.
  apply (route_update_guard_bypass 0 NS0 _ _ _ _ _ _ 1 row1 (UpdateWorkLog.mk None None (Some "08:00") None)
           "08:00" 480);
    [apply three_shifts_wf; left; reflexivity | vm_compute; try reflexivity; done ..].
Defined.

(** "0x7" is record 7 in hexadecimal, which [three_shifts] does not
    have; 3000000000 is beyond the [integer] column. *)
Lemma route_update_missing_witness :
  @route_update DB (DatabaseStorage 0) 0 NS0 (now_wed 0) (now_wed 0) (ck_at (now_wed 0)) "0x7"
    (JObject [("startTime", JString "08:00")]) (three_shifts 0) = (not_found, three_shifts 0) /\
  @route_update DB (DatabaseStorage 0) 0 NS0 (now_wed 0) (now_wed 0) (ck_at (now_wed 0)) "3000000000"
    (JObject [("startTime", JString "08:00")]) (three_shifts 0) = (internal_error, three_shifts 0).
Proof.
  split.
  - apply (route_update_missing 0 NS0 _ _ _ _ _ _ 7 (UpdateWorkLog.mk None (Some "08:00") None None));
      vm_compute; reflexivity.
  - apply (route_update_missing 0 NS0 _ _ _ _ _ _ 3000000000 (UpdateWorkLog.mk None (Some "08:00") None None));
      vm_compute; reflexivity.
Defined.

(** [parseInt] reads "0x1" (hexadecimal) and "1abc" (a prefix) as 1:
    both requests delete record 1. *)
Lemma route_delete_spec_witness :
  @route_delete DB (DatabaseStorage 0) "0x1" (three_shifts 0) = (mkResponse 204 PEmpty, db_deleteWorkLog 1 (three_shifts 0)) /\
  @route_delete DB (DatabaseStorage 0) "1abc" (three_shifts 0) = (mkResponse 204 PEmpty, db_deleteWorkLog 1 (three_shifts 0)) /\
  db_getWorkLog 1 (@route_delete DB (DatabaseStorage 0) "0x1" (three_shifts 0)).2 = None.
Proof.
  destruct (route_delete_spec 0 "0x1" (three_shifts 0) 1 ltac:(vm_compute; reflexivity)) as [E1 H1].
  destruct (route_delete_spec 0 "1abc" (three_shifts 0) 1 ltac:(vm_compute; reflexivity)) as [E2 _].
  split_and!; [rewrite E1; vm_compute; reflexivity|rewrite E2; vm_compute; reflexivity|by apply H1].
Defined.

Lemma route_settings_roundtrip_witness :
  let (r, db') := @route_put_setting DB (DatabaseStorage 0) "defaultHourlyRate"
                    (JObject [("value", JString "3500")]) empty_db in
  r = Some (mkResponse 200 (PSetting "defaultHourlyRate" "3500")) /\
  @route_get_setting DB (DatabaseStorage 0) "defaultHourlyRate" db' =
    mkResponse 200 (PSetting "defaultHourlyRate" "3500").
Proof. apply (route_settings_roundtrip 0). reflexivity. Defined.

(** The calculator's rate sent as a number: no response. *)
Lemma route_put_setting_invalid_witness :
  @route_put_setting DB (DatabaseStorage 0) "defaultHourlyRate" (JObject [("value", JNumber 3500)]) empty_db =
    (None, empty_db).
Proof. apply route_put_setting_invalid. intros v. discriminate. Defined.

(** zod reports the first failing field in the schema's order: a
    body with a bad date and a bad start time is answered with the date's
    message, and nothing is written. *)
Example route_create_first_error :
  @route_create DB (DatabaseStorage 0) 0 NS0 (now_wed 0) (now_wed 0) (ck_at (now_wed 0))
    (JObject [("startTime", JString "9:00"); ("date", JString "2024-3-4")]) empty_db =
    (mkResponse 400 (PError date_msg (Some "date")), empty_db).
Proof. vm_compute. reflexivity. Qed.

(** Seeding an empty store on Wednesday 2024-03-06 gives the week of
    spec section 8: 23.00 hours and 460.00 of pay; seeding again changes
    nothing. *)
Example seed_week_summary :
  option_map (fun sm => (totalWeeklyHours sm, totalPay sm))
    (seeded ≫= @getSummary DB (DatabaseStorage 0) 0 (now_wed 0) (now_wed 0) None) = Some (JNum 2300, JNum 46000) /\
  (seeded ≫= @seed DB (DatabaseStorage 0) 0 (now_wed 0) [ck_at (now_wed 0); ck_at (now_wed 0); ck_at (now_wed 0)])
    = seeded.
Proof. vm_compute. split; reflexivity. Qed.

End Routes.
