(* ===== verification/Client.v ===== *)
(** The browser side of the application, as far as it decides anything:
    the data hooks of [src/client/src/hooks/use-work-logs.ts] (what a
    response becomes: a value, or a thrown [Error] with its message),
    [buildUrl] of [src/shared/routes.ts] and the route parameter the
    server reads back from the URL, the work-log form of
    [src/client/src/components/WorkLogForm.tsx] (its initial values, its
    zod resolver and its end-after-start check), the week navigation of
    [src/client/src/components/WeekSelector.tsx] and the pieces of
    [src/client/src/pages/Dashboard.tsx] that compute values (the default
    rate, the form defaults, the date shown for a record).  The theorems
    compose these with the server handlers of [Routes.v]. *)

From Stdlib Require Import String Ascii ZArith.
From stdpp Require Import base list option gmap strings.
From S2P Require Import Prelude JsRuntime Calendar Duration Store Summary Routes.

Open Scope Z_scope.

Module Client.
Import Database Summary Routes.

(** ** The data hooks *)

(** What an [async] function of the client ends with: its value, or the
    error it throws ([Error(message)], or the [ZodError] of a [parse]). *)
Inductive error := Err (message : string) | ZodErr.

Inductive outcome (A : Type) := Done (a : A) | Thrown (e : error).
Arguments Done {A} a.
Arguments Thrown {A} e.

(** [res.ok]: a status in 200..299. *)
Definition res_ok (r : Response) : bool := (200 <=? status r) && (status r <? 300).

(** [errorSchemas.validation.parse(await res.json())]
    ([src/shared/routes.ts], lines 5-8): an object with a string
    [message] and an optional string [field]. *)
Definition validation_message (p : payload) : outcome string :=
  match p with PError m _ => Done m | _ => Thrown ZodErr end.

(** The [mutationFn] of [useCreateWorkLog] and [useUpdateWorkLog]
    (lines 33-60 and 62-90): a 400 throws the server's message, another
    failure a fixed one; the success body is accepted as it is
    ([z.custom]). *)
Definition mutation_result (fail : string) (r : Response) : outcome payload :=
  if res_ok r then Done (payload_of r)
  else if status r =? 400 then
    match validation_message (payload_of r) with Done m => Thrown (Err m) | Thrown e => Thrown e end
  else Thrown (Err fail).

Definition use_create (r : Response) : outcome payload := mutation_result "Failed to create work log" r.
Definition use_update (r : Response) : outcome payload := mutation_result "Failed to update work log" r.

(** [useDeleteWorkLog] (lines 92-110). *)
Definition use_delete (r : Response) : outcome unit :=
  if res_ok r then Done tt else Thrown (Err "Failed to delete work log").

(** [useWorkLogs] (lines 5-17): the body must be an array. *)
Definition use_work_logs (r : Response) : outcome (list WorkLog.t) :=
  if negb (res_ok r) then Thrown (Err "Failed to fetch work logs")
  else match payload_of r with PLogs l => Done l | _ => Thrown ZodErr end.

(** [useWeeklySummary] (lines 19-31): the body must pass
    [weeklySummarySchema]. *)
Definition use_weekly_summary (r : Response) : outcome json :=
  if negb (res_ok r) then Thrown (Err "Failed to fetch summary")
  else match payload_of r with
       | PJson j => if zod_weekly_summary j then Done j else Thrown ZodErr
       | _ => Thrown ZodErr
       end.

(** The query both hooks send: [?date=format(date, 'yyyy-MM-dd')]. *)
Definition week_query (tz d : Z) : option string := Some (format_ymd tz d).

(** ** URLs *)

Fixpoint strip_prefix (p s : string) : option string :=
  match p, s with
  | EmptyString, _ => Some s
  | String a p', String b s' => if Ascii.eqb a b then strip_prefix p' s' else None
  | String _ _, EmptyString => None
  end.

(** [url.includes(pat)] and [url.replace(pat, rep)] (first occurrence):
    [None] when [pat] does not occur. *)
Fixpoint replace_first (pat rep s : string) : option string :=
  match strip_prefix pat s with
  | Some rest => Some (rep ++ rest)%string
  | None =>
      match s with
      | EmptyString => None
      | String c s' => String c <$> replace_first pat rep s'
      end
  end.

(** [buildUrl] ([src/shared/routes.ts], lines 107-117); the values are
    already [String(value)]. *)
Definition buildUrl (path : string) (params : option (list (string * string))) : string :=
  match params with
  | None => path
  | Some ps =>
      fold_left (fun url '(k, v) =>
        match replace_first (":" ++ k)%string v url with Some u => u | None => url end) ps path
  end.

Definition work_log_path : string := "/api/work-logs/:id".

Fixpoint has_slash (s : string) : bool :=
  match s with EmptyString => false | String c s' => Ascii.eqb c "/" || has_slash s' end.

(** Express's match of ["/api/work-logs/:id"]: [req.params.id] is the
    non-empty segment after the prefix. *)
Definition param_id (url : string) : option string :=
  match strip_prefix "/api/work-logs/" url with
  | Some rest => if String.eqb rest "" || has_slash rest then None else Some rest
  | None => None
  end.

(** ** The work-log form *)

(** The values the form holds; the rate input holds a number or, once
    typed into, a string. *)
Record FormValues := mkForm {
  f_date : string; f_startTime : string; f_endTime : string; f_hourlyRate : json
}.

(** [Partial<InsertWorkLog>] given as [defaultValues]. *)
Record FormDefaults := mkDefaults {
  dv_date : option string; dv_startTime : option string; dv_endTime : option string;
  dv_hourlyRate : option jsnum
}.

(** [x || d] on a number: 0, NaN and [undefined] give [d]. *)
Definition or_number (o : option jsnum) (d : Z) : Z :=
  match o with Some (JNum x) => if x =? 0 then d else x | _ => d end.

(** [useForm({ defaultValues: ... })] (lines 26-34); [now] is the
    [new Date()] of line 29. *)
Definition form_init (tz now : Z) (dv : FormDefaults) : FormValues :=
  mkForm (or_str (dv_date dv) (format_ymd tz now)) (or_str (dv_startTime dv) "09:00")
    (or_str (dv_endTime dv) "17:00") (JNumber (or_number (dv_hourlyRate dv) 5000)).

Definition form_json (v : FormValues) : json :=
  JObject [("date", JString (f_date v)); ("startTime", JString (f_startTime v));
           ("endTime", JString (f_endTime v)); ("hourlyRate", f_hourlyRate v)].

(** [new Date(`2000-01-01T${t}`)] for the ["HH:mm"] times the resolver
    lets through: ECMAScript's date-time format, local time, with 24:00
    the end of the day; minutes after local midnight. *)
Definition iso_time (s : string) : option Z :=
  match s with
  | String h1 (String h2 (String ":" (String m1 (String m2 EmptyString)))) =>
      match two_digits h1 h2, two_digits m1 m2 with
      | Some h, Some mi =>
          if ((h <=? 23) && (mi <=? 59)) || ((h =? 24) && (mi =? 0)) then Some (60 * h + mi) else None
      | _, _ => None
      end
  | _ => None
  end.

Definition iso_instant (tz : Z) (s : string) : option Z :=
  (fun m => local_midnight tz (days_from_civil (mkDate 2000 1 1)) + m * 60000) <$> iso_time s.

Inductive form_result := FieldError (field message : string) | Submitted (ins : InsertWorkLog.t).

Definition form_end_msg : string := "La hora de fin debe ser posterior a la de inicio".

(** What [JSON.stringify(data)] sends for the parsed values: an absent
    rate is left out. *)
Definition ins_json (ins : InsertWorkLog.t) : json :=
  JObject ([("date", JString (InsertWorkLog.date ins)); ("startTime", JString (InsertWorkLog.startTime ins));
            ("endTime", JString (InsertWorkLog.endTime ins))] ++
           match InsertWorkLog.hourlyRate ins with Some x => [("hourlyRate", JNumber x)] | None => [] end).

(** ** The week selector *)

(** [subWeeks(currentDate, 1)], [addWeeks(currentDate, 1)] and the
    calendar's [onSelect] (lines 29-32, 70-73, 58). *)
Definition ws_prev (d : Z) : Z := addDays d (-7).
Definition ws_next (d : Z) : Z := addDays d 7.
Definition ws_select (picked : option Z) (d : Z) : Z := match picked with Some d' => d' | None => d end.

(** The week it shows (lines 15-16). *)
Definition ws_range (tz d : Z) : Z * Z := (startOfWeek tz d, endOfWeek tz d).

(** ** The dashboard *)

(** date-fns [parseISO] of ["yyyy-MM-dd"]: local midnight of a valid
    date. *)
Definition parseISO_date (tz : Z) (s : string) : option Z :=
  match s with
  | String y1 (String y2 (String y3 (String y4 (String "-"
      (String m1 (String m2 (String "-" (String d1 (String d2 EmptyString))))))))) =>
      match two_digits y1 y2, two_digits y3 y4, two_digits m1 m2, two_digits d1 d2 with
      | Some yh, Some yl, Some m, Some d =>
          let c := mkDate (100 * yh + yl) m d in
          if valid_date c then Some (local_midnight tz (days_from_civil c)) else None
      | _, _, _, _ => None
      end
  | _ => None
  end.

(** The date shown for a record (lines 189-201): [addMinutes(logDate,
    logDate.getTimezoneOffset())] and its local date; the offset in
    minutes is [-tz]. *)
Definition display_date (tz : Z) (date : string) : option cdate :=
  (fun t => local_civil tz (t + (- tz) * 60000)) <$> parseISO_date tz date.

Section Dashboard.
Variable Number_string : string -> option Z.

(** [hourlyRateSetting?.value ? Number(value) : 3500] (line 70). *)
Definition default_rate (setting : option string) : jsnum :=
  match setting with
  | Some v => if String.eqb v "" then JNum 350000
              else match Number_string v with Some x => JNum x | None => JNaN end
  | None => JNum 350000
  end.

(** The create dialog's defaults (lines 283-286) and the edit dialog's
    (lines 299-304; [Number(null)] is 0). *)
Definition create_defaults (tz d : Z) (rate : jsnum) : FormDefaults :=
  mkDefaults (Some (format_ymd tz d)) None None (Some rate).

Definition edit_defaults (l : WorkLog.t) : FormDefaults :=
  mkDefaults (Some (WorkLog.date l)) (Some (WorkLog.startTime l)) (Some (WorkLog.endTime l))
    (Some (match WorkLog.hourlyRate l with Some x => JNum x | None => JNum 0 end)).

(** [form.handleSubmit]: the zod resolver, then [handleSubmit] of lines
    36-50. *)
Definition form_submit (tz : Z) (v : FormValues) : form_result :=
  match parse_insert Number_string (form_json v) with
  | ZErr m f => FieldError f m
  | ZOk ins =>
      if date_le (iso_instant tz (InsertWorkLog.endTime ins)) (iso_instant tz (InsertWorkLog.startTime ins))
      then FieldError "endTime" form_end_msg
      else Submitted ins
  end.

Inductive ui_result := UIFieldError (field message : string) | UISent (o : outcome payload).

Context {S : Type} `{IStorage S}.

(** Saving the create dialog: the form, [handleCreate] (lines 81-93), the
    hook and the server's handler. *)
Definition create_flow (tz now1 now2 : Z) (ck : Clock) (v : FormValues) (s : S) : ui_result * S :=
  match form_submit tz v with
  | FieldError f m => (UIFieldError f m, s)
  | Submitted ins =>
      let '(r, s') := route_create tz Number_string now1 now2 ck (ins_json ins) s in (UISent (use_create r), s')
  end.

(** Saving the edit dialog of record [l] ([handleUpdate], lines 95-108):
    [PUT] to [buildUrl(path, { id })] with the form's values. *)
Definition update_flow (tz now1 now2 : Z) (ck : Clock) (l : WorkLog.t) (v : FormValues) (s : S) : ui_result * S :=
  match form_submit tz v with
  | FieldError f m => (UIFieldError f m, s)
  | Submitted ins =>
      match param_id (buildUrl work_log_path (Some [("id", z_to_string (WorkLog.id l))])) with
      | Some p =>
          let '(r, s') := route_update tz Number_string now1 now2 ck p (ins_json ins) s in (UISent (use_update r), s')
      | None => (UISent (use_update (mkResponse 404 PEmpty)), s)
      end
  end.

End Dashboard.

(** The numbers of a summary. *)
Definition jsnum_ok (x : jsnum) : bool := match x with JNum _ => true | JNaN => false end.

Definition summary_numbers (sm : WeeklySummary) : list jsnum :=
  totalWeeklyHours sm :: totalPay sm :: quincenaHours sm :: quincenaPay sm :: (ds_totalHours <$> days sm).

(** ** Lemmas *)

Lemma forallb_zod_days (ds : list DaySummary) :
  forallb zod_day (day_json <$> ds) = forallb jsnum_ok (ds_totalHours <$> ds).
Proof.
  induction ds as [|d ds IH]; [done|]. cbn [fmap list_fmap forallb]. rewrite IH.
  unfold zod_day, day_json. cbn. by destruct (ds_totalHours d).
Qed.

Lemma zod_summary_json (sm : WeeklySummary) :
  zod_weekly_summary (summary_json sm) = forallb jsnum_ok (summary_numbers sm).
Proof.
  unfold summary_json. cbn. rewrite forallb_zod_days.
  destruct (totalWeeklyHours sm), (totalPay sm), (quincenaHours sm), (quincenaPay sm);
    cbn; by destruct (forallb jsnum_ok _).
Qed.

Lemma strip_prefix_app (p s : string) : strip_prefix p (p ++ s) = Some s.
Proof. induction p as [|c p IH]; simpl; [by destruct s|]. by rewrite Ascii.eqb_refl. Qed.

Lemma replace_work_log_path (v : string) :
  replace_first ":id" v work_log_path = Some ("/api/work-logs/" ++ v)%string.
Proof. unfold work_log_path. cbn. by rewrite string_app_nil_r. Qed.

Lemma digit_not_special (c : ascii) (d : Z) :
  char_digit c = Some d -> is_ws c = false /\ Ascii.eqb c "-" = false /\ Ascii.eqb c "+" = false.
Proof.
  intros Hc. split_and!.
  - unfold is_ws. unfold char_digit in Hc. destruct (_ && _)%bool eqn:E; [|done].
    apply andb_prop in E as [E1%Nat.leb_le E2%Nat.leb_le].
    apply not_true_is_false. intros Hw. apply orb_prop in Hw as [Hw|Hw].
    + apply andb_prop in Hw as [_ Hw%Nat.leb_le]. lia.
    + apply Nat.eqb_eq in Hw. lia.
  - destruct (Ascii.eqb_spec c "-"); [subst; discriminate|done].
  - destruct (Ascii.eqb_spec c "+"); [subst; discriminate|done].
Qed.

Lemma read_digits_value (s : string) (acc v : Z) :
  digits_value s acc = Some v -> read_digits 10 s acc true = Some v.
Proof.
  revert acc. induction s as [|c s IH]; intros acc; simpl; [done|]. change (radix_digit 10 c) with (char_digit c).
  destruct (char_digit c); [apply IH|done].
Qed.

(** A string of decimal digits has no [0x] prefix. *)
Lemma strip_radix_digits (s : string) (acc v : Z) : digits_value s acc = Some v -> strip_radix s = (10, s).
Proof.
  destruct s as [|c [|x s]]; simpl; [done|done|].
  destruct (char_digit c); [simpl|done]. destruct (char_digit x) eqn:Ex; [|done]. intros _.
  destruct (Ascii.eqb_spec x "x") as [->|_]; [discriminate|].
  destruct (Ascii.eqb_spec x "X") as [->|_]; [discriminate|]. by rewrite andb_false_r.
Qed.

Lemma digits_no_slash (s : string) (acc v : Z) : digits_value s acc = Some v -> has_slash s = false.
Proof.
  revert acc. induction s as [|c s IH]; intros acc; simpl; [done|].
  destruct (char_digit c) eqn:E; [|done]. intros Hv.
  destruct (Ascii.eqb_spec c "/"); [subst; discriminate|]. simpl. eapply IH, Hv.
Qed.

(** [parseInt] of a string of digits is its value. *)
Lemma parseInt_digits (s : string) (v : Z) : s <> "" -> digits_value s 0 = Some v -> parseInt s = Some v.
Proof.
  destruct s as [|c s]; [done|]. intros _ Hv. simpl in Hv.
  destruct (char_digit c) as [d|] eqn:E; [|done].
  destruct (digit_not_special c d E) as (Hw & Hm & Hp). simpl. rewrite Hw, Hm, Hp.
  assert (Hs : digits_value (String c s) 0 = Some v) by (simpl; by rewrite E).
  unfold read_int. rewrite (strip_radix_digits _ _ _ Hs). simpl. change (radix_digit 10 c) with (char_digit c). rewrite E.
  by apply read_digits_value.
Qed.

Lemma ndigits_fuel_pos (f : nat) (n : Z) : (1 <= ndigits_fuel f n)%nat.
Proof. destruct f; simpl; [lia|]. destruct (n <? 10); lia. Qed.

Lemma z_to_string_nonempty (n : Z) : z_to_string n <> "".
Proof.
  intros E. pose proof (length_zdigits (ndigits n) n) as L. unfold z_to_string in E.
  rewrite E in L. pose proof (ndigits_fuel_pos (S (Z.to_nat (Z.log2 n))) n). unfold ndigits in L.
  cbn [String.length] in L. lia.
Qed.

Lemma iso_time_pg (s : string) : iso_time s = pg_time_in s.
Proof. reflexivity. Qed.

Lemma iso_instant_some (tz : Z) (s : string) (a : Z) :
  time_shape s = true -> parse_HHmm s = Some a ->
  iso_instant tz s = Some (local_midnight tz (days_from_civil (mkDate 2000 1 1)) + a * 60000).
Proof. intros Hs Ha. unfold iso_instant. by rewrite iso_time_pg, (time_shape_pg _ _ Hs Ha). Qed.

Lemma ymd_digits (c : cdate) :
  valid_date c = true -> 1 <= year c <= 9999 ->
  ymd_string c =
    String (digit_char (year c / 1000)) (String (digit_char (year c / 100 mod 10))
    (String (digit_char (year c / 10 mod 10)) (String (digit_char (year c mod 10)) (String "-"
    (String (digit_char (month c / 10)) (String (digit_char (month c mod 10)) (String "-"
    (String (digit_char (day c / 10)) (String (digit_char (day c mod 10)) EmptyString))))))))).
Proof.
  intros Hv Hy. apply valid_date_spec in Hv as [Hm Hd].
  pose proof (days_in_month_bounds (year c) (month c)).
  unfold ymd_string. destruct (Z.ltb_spec 0 (year c)); [|lia].
  rewrite pad4_small, (pad2_small (month c)), (pad2_small (day c)) by lia.
  by rewrite !string_app_cons, !string_app_nil.
Qed.

Lemma date_shape_ymd (c : cdate) :
  valid_date c = true -> 1 <= year c <= 9999 -> date_shape (ymd_string c) = true.
Proof.
  intros Hv Hy. rewrite ymd_digits by done. cbn [date_shape forallb]. unfold is_digit.
  apply valid_date_spec in Hv as [Hm Hd]. pose proof (days_in_month_bounds (year c) (month c)).
  rewrite !char_digit_char by zdiv. done.
Qed.

Lemma parseISO_ymd (tz : Z) (c : cdate) :
  valid_date c = true -> 1 <= year c <= 9999 ->
  parseISO_date tz (ymd_string c) = Some (local_midnight tz (days_from_civil c)).
Proof.
  intros Hv Hy. pose proof Hv as Hv'. apply valid_date_spec in Hv' as [Hm Hd].
  pose proof (days_in_month_bounds (year c) (month c)).
  rewrite ymd_digits by done. unfold parseISO_date, two_digits.
  rewrite !char_digit_char by zdiv.
  destruct c as [y m d]. cbn [year month day] in *.
  replace (100 * (10 * (y / 1000) + y / 100 mod 10) + (10 * (y / 10 mod 10) + y mod 10)) with y by zdiv.
  replace (10 * (m / 10) + m mod 10) with m by zdiv.
  replace (10 * (d / 10) + d mod 10) with d by zdiv.
  cbn zeta. by rewrite Hv.
Qed.

Lemma time_shape_stored (m : Z) : 0 <= m <= 1440 -> time_shape (pg_time_out m) = false.
Proof.
  intros Hm. unfold pg_time_out.
  rewrite (pad2_small (m / 60)), (pad2_small (m mod 60)) by zdiv.
  by rewrite !string_app_cons, !string_app_nil.
Qed.

Lemma startOfWeek_local (tz t t' : Z) : local_day tz t = local_day tz t' -> startOfWeek tz t = startOfWeek tz t'.
Proof. intros E. unfold startOfWeek, getDay. by rewrite E. Qed.

Lemma endOfWeek_local (tz t t' : Z) : local_day tz t = local_day tz t' -> endOfWeek tz t = endOfWeek tz t'.
Proof. intros E. unfold endOfWeek, getDay. by rewrite E. Qed.

Lemma weekday_add7 (z k : Z) : weekday (z + 7 * k) = weekday z.
Proof. unfold weekday. replace (z + 7 * k + 4) with (z + 4 + k * 7) by ring. apply Z_mod_plus_full. Qed.

Lemma week_addDays7 (tz t k : Z) :
  startOfWeek tz (addDays t (7 * k)) = addDays (startOfWeek tz t) (7 * k) /\
  endOfWeek tz (addDays t (7 * k)) = addDays (endOfWeek tz t) (7 * k).
Proof.
  unfold startOfWeek, endOfWeek, getDay. rewrite local_day_addDays, weekday_add7.
  unfold local_midnight, addDays. split; case_ltb; lia.
Qed.

Lemma param_id_build (id : Z) :
  0 <= id -> param_id (buildUrl work_log_path (Some [("id", z_to_string id)])) = Some (z_to_string id).
Proof.
  intros Hid. unfold buildUrl. cbn [fold_left]. rewrite replace_work_log_path.
  unfold param_id. rewrite strip_prefix_app.
  rewrite (digits_no_slash _ _ _ (z_to_string_value id Hid)).
  destruct (String.eqb_spec (z_to_string id) "") as [E|_]; [by destruct (z_to_string_nonempty id)|done].
Qed.

Lemma parseInt_z_to_string (id : Z) : 0 <= id -> parseInt (z_to_string id) = Some id.
Proof. intros Hid. apply parseInt_digits; [apply z_to_string_nonempty|by apply z_to_string_value]. Qed.

(** ** Theorems *)

(** C24: The client accepts the summary the server sends exactly when none
    of its numbers is NaN; one NaN (sent as [null]) makes
    [weeklySummarySchema] reject the whole response, and the dashboard
    shows no summary. *)
Theorem client_accepts_summary {S : Type} `{IStorage S} (tz now1 now2 : Z) (q : option string) (s : S)
    (sm : WeeklySummary) :
  getSummary tz now1 now2 q s = Some sm ->
  use_weekly_summary (route_summary tz now1 now2 q s) =
    if forallb jsnum_ok (summary_numbers sm) then Done (summary_json sm) else Thrown ZodErr.
Proof.
  intros Hs. unfold route_summary. rewrite Hs. unfold use_weekly_summary. cbn [res_ok status payload_of].
  by rewrite zod_summary_json.
Qed.

(** C22: The URL the hooks build for record [id] is matched by the
    server's route, and [parseInt] of its parameter is [id] again. *)
Theorem work_log_url_roundtrip (id : Z) :
  0 <= id ->
  exists p, param_id (buildUrl work_log_path (Some [("id", z_to_string id)])) = Some p /\ parseInt p = Some id.
Proof. intros Hid. exists (z_to_string id). split; [by apply param_id_build|by apply parseInt_z_to_string]. Qed.

Section FormTheorems.
Variable NS : string -> option Z.

(** C21: On times of one day both can read, the form's own check rejects a
    submission exactly when the server's guard would: the end not after
    the start. *)
Theorem form_matches_server_guard (tz now1 now2 : Z) (v : FormValues) (ins : InsertWorkLog.t) (a e : Z) :
  parse_insert NS (form_json v) = ZOk ins ->
  parse_HHmm (InsertWorkLog.startTime ins) = Some a -> parse_HHmm (InsertWorkLog.endTime ins) = Some e ->
  local_day tz now1 = local_day tz now2 ->
  form_submit NS tz v =
    if end_not_after_start tz now1 now2 (InsertWorkLog.startTime ins) (InsertWorkLog.endTime ins)
    then FieldError "endTime" form_end_msg else Submitted ins.
Proof.
  intros Hp Ha He Hday. destruct (parse_insert_shape NS _ ins Hp) as (_ & Hsa & Hse).
  unfold form_submit. rewrite Hp, (iso_instant_some _ _ _ Hsa Ha), (iso_instant_some _ _ _ Hse He).
  rewrite (end_not_after_start_lt tz _ _ _ _ _ _ Ha He Hday). cbn [date_le].
  replace (_ + e * 60000 <=? _ + a * 60000) with (e <=? a); [done|].
  apply eq_true_iff_eq. rewrite !Z.leb_le. lia.
Qed.

(** C23: What the form sends is what the server's schema reads back: the
    JSON of parsed values of the right shapes parses to the same values. *)
Theorem ins_json_roundtrip (ins : InsertWorkLog.t) :
  date_shape (InsertWorkLog.date ins) = true -> time_shape (InsertWorkLog.startTime ins) = true ->
  time_shape (InsertWorkLog.endTime ins) = true ->
  parse_insert NS (ins_json ins) = ZOk ins.
Proof.
  destruct ins as [d st et r]. cbn [InsertWorkLog.date InsertWorkLog.startTime InsertWorkLog.endTime].
  intros Hd Hs He. unfold parse_insert, ins_json. cbn [InsertWorkLog.hourlyRate].
  destruct r; cbn -[date_shape time_shape]; by rewrite Hd, Hs, He.
Qed.

(** C30: The edit dialog is filled with the record as the server returns
    it, whose times are "HH:MM:SS": saving it without retyping the start
    time fails the form's own schema on [startTime]. *)
Theorem edit_form_rejects_stored_times (tz now : Z) (db : DB) (id : Z) (r : Row) :
  db_wf db -> rows db !! id = Some r -> year (row_date r) <= 9999 ->
  form_submit NS tz (form_init tz now (edit_defaults (row_to_log id r))) = FieldError "startTime" time_msg.
Proof.
  intros Hwf Er Hy. apply Hwf in Er as [_ (Hv & Hy1 & Hs & _)].
  unfold form_submit, form_init, edit_defaults, row_to_log. cbn [dv_date dv_startTime dv_endTime WorkLog.date
    WorkLog.startTime WorkLog.endTime]. unfold or_str, pg_date_out.
  rewrite ymd_string_nonempty.
  destruct (String.eqb (pg_time_out (row_start r)) "") eqn:E.
  { apply String.eqb_eq in E. unfold pg_time_out in E. by destruct (pad2 _). }
  unfold parse_insert, form_json. cbn [f_date f_startTime f_endTime f_hourlyRate lookup_field].
  cbn -[date_shape time_shape pg_time_out ymd_string].
  rewrite date_shape_ymd, time_shape_stored by (done || lia). done.
Qed.

End FormTheorems.

(** At or east of UTC the week the selector shows for a date and the
    week of the summary the dashboard fetches for it are the same. *)
Theorem week_agrees_east (tz now d : Z) :
  0 <= tz < 1440 -> 1 <= year (local_civil tz d) <= 9999 ->
  getWeekRange tz now (week_query tz d) =
    Some (format_ymd tz (ws_range tz d).1, format_ymd tz (ws_range tz d).2, (ws_range tz d).1).
Proof.
  intros Htz Hy. unfold getWeekRange, target_date, week_query, ws_range. cbn [fst snd].
  replace (format_ymd tz d) with (ymd_string (local_civil tz d)) by reflexivity.
  rewrite ymd_string_nonempty, js_date_parse_ymd by (done || apply local_civil_valid).
  unfold local_civil at 1. rewrite days_from_civil_from_days. cbn [mbind option_bind].
  assert (E : local_day tz (local_day tz d * ms_per_day) = local_day tz d) by (apply local_day_utc_east; done).
  by rewrite (startOfWeek_local _ _ _ E), (endOfWeek_local _ _ _ E).
Qed.

(** The arrows of the week selector move the date, and the week it
    shows, by exactly seven days, and undo each other. *)
Theorem week_selector_steps (tz d : Z) :
  ws_range tz (ws_next d) = (addDays (ws_range tz d).1 7, addDays (ws_range tz d).2 7) /\
  ws_range tz (ws_prev d) = (addDays (ws_range tz d).1 (-7), addDays (ws_range tz d).2 (-7)) /\
  ws_prev (ws_next d) = d /\ ws_next (ws_prev d) = d.
Proof.
  unfold ws_range, ws_next, ws_prev. cbn [fst snd].
  destruct (week_addDays7 tz d 1) as [A1 B1]. destruct (week_addDays7 tz d (-1)) as [A2 B2].
  change (7 * 1) with 7 in A1, B1. change (7 * -1) with (-7) in A2, B2.
  rewrite A1, B1, A2, B2. unfold addDays. split_and!; try done; lia.
Qed.

(** C29: A record's date is shown as that date at or west of UTC, but as
    the day before east of UTC: [parseISO] already gives local midnight,
    and adding [getTimezoneOffset()] minutes moves it back across it. *)
Theorem display_date_shift (tz : Z) (c : cdate) :
  -1440 < tz < 1440 -> valid_date c = true -> 1 <= year c <= 9999 ->
  display_date tz (pg_date_out c) = Some (if 0 <? tz then civil_from_days (days_from_civil c - 1) else c).
Proof.
  intros Htz Hv Hy. unfold display_date, pg_date_out. rewrite parseISO_ymd by done. cbn.
  unfold local_civil, local_day, local_midnight, ms_per_day. f_equal.
  case_ltb.
  - f_equal. zdiv.
  - rewrite <- (civil_from_days_from_civil c Hv) at 2. f_equal. zdiv.
Qed.

(** ** Scenarios *)

Definition summary_wed : WeeklySummary :=
  mkSummary "2024-03-04" "2024-03-10"
    [mkDay "2024-03-04" "Mon" (JNum 800); mkDay "2024-03-05" "Tue" (JNum 900);
     mkDay "2024-03-06" "Wed" (JNum 600); mkDay "2024-03-07" "Thu" (JNum 0);
     mkDay "2024-03-08" "Fri" (JNum 0); mkDay "2024-03-09" "Sat" (JNum 0);
     mkDay "2024-03-10" "Sun" (JNum 0)]
    (JNum 2300) (JNum 46000) "1ra Quincena" (JNum 2300) (JNum 46000).

(** The create dialog opened on Wednesday 2024-03-06 with the seeded
    default rate of 3500. *)
Definition create_form : FormValues := form_init 0 (now_wed 0) (create_defaults 0 (now_wed 0) (JNum 350000)).

Lemma client_accepts_summary_witness :
  use_weekly_summary (@route_summary DB (DatabaseStorage 0) 0 (now_wed 0) (now_wed 0) None (three_shifts 0)) =
    if forallb jsnum_ok (summary_numbers summary_wed) then Done (summary_json summary_wed) else Thrown ZodErr.
Proof. apply client_accepts_summary. vm_compute. reflexivity. Defined.

Lemma work_log_url_roundtrip_witness :
  exists p, param_id (buildUrl work_log_path (Some [("id", z_to_string 42)])) = Some p /\ parseInt p = Some 42.
Proof. apply work_log_url_roundtrip. lia. Defined.

Lemma form_matches_server_guard_witness :
  form_submit NS0 0 (mkForm "2024-03-04" "17:00" "09:00" (JNumber 2000)) =
    if end_not_after_start 0 (now_wed 0) (now_wed 0) "17:00" "09:00"
    then FieldError "endTime" form_end_msg else Submitted (InsertWorkLog.mk "2024-03-04" "17:00" "09:00" (Some 2000)).
Proof.
  apply (form_matches_server_guard NS0 0 _ _ _ (InsertWorkLog.mk "2024-03-04" "17:00" "09:00" (Some 2000)) 1020 540);
    vm_compute; reflexivity.
Defined.

Lemma ins_json_roundtrip_witness : parse_insert NS0 (ins_json monday_shift) = ZOk monday_shift.
Proof. apply ins_json_roundtrip; vm_compute; reflexivity. Defined.

Lemma edit_form_rejects_stored_times_witness :
  form_submit NS0 0 (form_init 0 (now_wed 0) (edit_defaults (row_to_log 1 row1))) = FieldError "startTime" time_msg.
Proof.
  apply (edit_form_rejects_stored_times NS0 0 _ (three_shifts 0) 1 row1);
    [apply three_shifts_wf; left; reflexivity | vm_compute; reflexivity | vm_compute; discriminate].
Defined.

Lemma week_agrees_east_witness :
  getWeekRange 60 (now_wed 60) (week_query 60 (at_local 60 2024 3 4 720)) =
    Some (format_ymd 60 (ws_range 60 (at_local 60 2024 3 4 720)).1,
          format_ymd 60 (ws_range 60 (at_local 60 2024 3 4 720)).2, (ws_range 60 (at_local 60 2024 3 4 720)).1).
Proof. apply week_agrees_east; [lia | vm_compute; split; discriminate]. Defined.

Lemma display_date_shift_witness :
  display_date 120 (pg_date_out (mkDate 2024 3 4)) =
    Some (if 0 <? 120 then civil_from_days (days_from_civil (mkDate 2024 3 4) - 1) else mkDate 2024 3 4).
Proof. apply display_date_shift; [lia | reflexivity | split; discriminate]. Defined.

(** West of UTC, with Monday 2024-03-04 selected the selector shows
    the week of 4 March but the summary fetched for it is the week of 26
    February. *)
Example week_disagrees_west :
  option_map (fun '(a, b, _) => (a, b)) (getWeekRange (-180) (now_wed (-180)) (week_query (-180) (at_local (-180) 2024 3 4 720)))
    = Some ("2024-02-26", "2024-03-03") /\
  format_ymd (-180) (ws_range (-180) (at_local (-180) 2024 3 4 720)).1 = "2024-03-04".
Proof. vm_compute. split; reflexivity. Qed.

(** Changing only the rate of Monday's shift answers 200 but stores
    NaN hours, and from then on the dashboard's summary query fails: the
    client's schema rejects the [null] totals. *)
Example rate_update_breaks_summary :
  status rate_update.1 = 200 /\
  use_weekly_summary (@route_summary DB (DatabaseStorage 0) 0 (now_wed 0) (now_wed 0) None rate_update.2) = Thrown ZodErr.
Proof. vm_compute. split; reflexivity. Qed.

(** Through the user interface: the create dialog's defaults save an
    8.00-hour shift, and the edit dialog of that shift cannot be saved
    as it opens. *)
Example create_then_edit :
  match @create_flow NS0 DB (DatabaseStorage 0) 0 (now_wed 0) (now_wed 0) (ck_at (now_wed 0)) create_form empty_db with
  | (UISent (Done (PLog l)), db1) =>
      WorkLog.hoursWorked l = JNum 800 /\
      (@update_flow NS0 DB (DatabaseStorage 0) 0 (now_wed 0) (now_wed 0) (ck_at (now_wed 0)) l
         (form_init 0 (now_wed 0) (edit_defaults l)) db1).1 = UIFieldError "startTime" time_msg
  | _ => False
  end.
Proof. vm_compute. split; reflexivity. Qed.

(** The form accepts the end time 24:00 (ECMAScript reads it as the
    end of the day), and the server stores the shift with NaN hours. *)
Example create_flow_midnight :
  match @create_flow NS0 DB (DatabaseStorage 0) 0 (now_wed 0) (now_wed 0) (ck_at (now_wed 0))
          (mkForm "2024-03-04" "18:00" "24:00" (JNumber 350000)) empty_db with
  | (UISent (Done (PLog l)), _) => WorkLog.hoursWorked l = JNaN
  | _ => False
  end.
Proof. vm_compute. reflexivity. Qed.

End Client.
