(* ===== verification/Calculator.v ===== *)
(** The calculator widget of
    [src/client/src/components/PersistentCalculator.tsx] as a state
    machine: its React state (open or closed, the display and the history
    line), the two [localStorage] entries it persists them to, the
    buttons of its keypad and the transition each one makes.  JavaScript's
    [eval] of the typed expression is a parameter [eval_js]: [Some r] is
    [String(result)], [None] a thrown error.  The theorems show that every
    state the page can reach is the one [localStorage] holds, so a reload
    restores it, and that the keypad can enter any number. *)

From S2P Require Import Prelude JsRuntime.

Open Scope Z_scope.

Module Calculator.

(** ** State *)

(** The two [localStorage] entries, [None] when absent. *)
Record Storage := mkStorage { calc_display : option string; calc_history : option string }.

Record Calc := mkCalc { isOpen : bool; display : string; history : string }.

(** [useState(() => localStorage.getItem(...) || default)] (lines 7-9). *)
Definition init (ls : Storage) : Calc :=
  mkCalc false (or_str (calc_display ls) "0") (or_str (calc_history ls) "").

(** The [useEffect] of lines 11-14: after a render in which [display] or
    [history] changed (and after the first one) both are written. *)
Definition persist (c : Calc) : Storage := mkStorage (Some (display c)) (Some (history c)).

Definition effect (c c' : Calc) (ls : Storage) : Storage :=
  if String.eqb (display c) (display c') && String.eqb (history c) (history c') then ls else persist c'.

(** ** Handlers *)

(** [handleDigit] (lines 16-18). *)
Definition handleDigit (d : string) (c : Calc) : Calc :=
  mkCalc (isOpen c) (if String.eqb (display c) "0" then d else (display c ++ d)%string) (history c).

(** [handleOp] (lines 20-22). *)
Definition handleOp (op : string) (c : Calc) : Calc :=
  mkCalc (isOpen c) (display c ++ " " ++ op ++ " ")%string (history c).

(** [display.replace(/x/g, "*")]. *)
Fixpoint replace_x (s : string) : string :=
  match s with
  | EmptyString => EmptyString
  | String a s' => String (if Ascii.eqb a "x" then "*" else a) (replace_x s')
  end.

(** [clear] (lines 35-38). *)
Definition clear (c : Calc) : Calc := mkCalc (isOpen c) "0" "".

(** The keys of the keypad (lines 73, 76, 79, 82), by their value [v]. *)
Definition keypad : list string :=
  ["7"; "8"; "9"; "/"; "4"; "5"; "6"; "*"; "1"; "2"; "3"; "-"; "0"; "."; "="; "+"].

Inductive button := Open | Close | Key (v : string) | ClearKey.

Section Eval.
Variable eval_js : string -> option string.

(** [calculate] (lines 24-33). *)
Definition calculate (c : Calc) : Calc :=
  match eval_js (replace_x (display c)) with
  | Some r => mkCalc (isOpen c) r (display c ++ " = " ++ r)%string
  | None => mkCalc (isOpen c) "Error" (history c)
  end.

(** The [onClick] of a key (lines 74, 77, 80, 85): the value [v] of the
    key decides between an operator, [calculate] and a digit. *)
Definition press (v : string) (c : Calc) : Calc :=
  if String.eqb v "/" then handleOp "/" c
  else if String.eqb v "*" then handleOp "x" c
  else if String.eqb v "-" then handleOp "-" c
  else if String.eqb v "=" then calculate c
  else if String.eqb v "+" then handleOp "+" c
  else handleDigit v c.

(** A click: the closed widget shows only its opening button (lines
    40-50), the open one its close button, the keys and [Limpiar]
    (lines 58-94).  [None]: no such button on screen. *)
Definition next (c : Calc) (b : button) : option Calc :=
  match b, isOpen c with
  | Open, false => Some (mkCalc true (display c) (history c))
  | Close, true => Some (mkCalc false (display c) (history c))
  | Key v, true => if bool_decide (v ∈ keypad) then Some (press v c) else None
  | ClearKey, true => Some (clear c)
  | _, _ => None
  end.

(** The same as a step relation. *)
Inductive step : Calc -> button -> Calc -> Prop :=
| step_open c : isOpen c = false -> step c Open (mkCalc true (display c) (history c))
| step_close c : isOpen c = true -> step c Close (mkCalc false (display c) (history c))
| step_key c v : isOpen c = true -> v ∈ keypad -> step c (Key v) (press v c)
| step_clear c : isOpen c = true -> step c ClearKey (clear c).

(** The states of a page session opened on a [localStorage] [ls0]: the
    first render and its effect, a click followed by the effect, and a
    reload, which starts again from what [localStorage] holds. *)
Inductive reachable (ls0 : Storage) : Calc -> Storage -> Prop :=
| reach_init : reachable ls0 (init ls0) (persist (init ls0))
| reach_step c ls b c' : reachable ls0 c ls -> step c b c' -> reachable ls0 c' (effect c c' ls)
| reach_reload c ls : reachable ls0 c ls -> reachable ls0 (init ls) (persist (init ls)).

(** A sequence of clicks, executed. *)
Fixpoint run (c : Calc) (bs : list button) : option Calc :=
  match bs with
  | [] => Some c
  | b :: bs' => c' ← next c b; run c' bs'
  end.

(** Sequences of clicks. *)
Inductive steps : Calc -> list button -> Calc -> Prop :=
| steps_nil c : steps c [] c
| steps_cons c b c' bs c'' : step c b c' -> steps c' bs c'' -> steps c (b :: bs) c''.

End Eval.

(** The keys that type a number. *)
Definition digit_keys : list string := ["0"; "1"; "2"; "3"; "4"; "5"; "6"; "7"; "8"; "9"; "."].

Definition keys_text (ds : list string) : string := foldr (fun d t => (d ++ t)%string) "" ds.

(** ** Lemmas *)

Lemma string_app_nonempty_r (s t : string) : t <> "" -> (s ++ t)%string <> "".
Proof. destruct s; [done|]. rewrite string_app_cons. done. Qed.

Lemma string_app_not_zero (s t : string) : s <> "" -> t <> "" -> (s ++ t)%string <> "0".
Proof.
  intros Hs Ht E. apply (f_equal String.length) in E. rewrite string_length_app in E.
  destruct s, t; [done..|]. simpl in E. lia.
Qed.

Lemma or_str_nonempty (o : option string) (d : string) : d <> "" -> or_str o d <> "".
Proof. intros Hd. destruct o as [x|]; simpl; [|done]. destruct (String.eqb_spec x ""); congruence. Qed.

Lemma or_str_some (x d : string) : x <> "" -> or_str (Some x) d = x.
Proof. intros Hx. simpl. destruct (String.eqb_spec x ""); congruence. Qed.

Lemma or_str_some_empty (x : string) : or_str (Some x) "" = x.
Proof. simpl. destruct (String.eqb_spec x ""); congruence. Qed.

Lemma digit_press (ev : string -> option string) (d : string) (c : Calc) :
  d ∈ digit_keys -> press ev d c = handleDigit d c.
Proof. intros Hd. repeat (apply elem_of_cons in Hd as [->|Hd]; [done|]). by apply elem_of_nil in Hd. Qed.

Lemma digit_keypad (d : string) : d ∈ digit_keys -> d ∈ keypad.
Proof. intros Hd. unfold keypad. repeat (apply elem_of_cons in Hd as [->|Hd]; [set_solver|]). by apply elem_of_nil in Hd. Qed.

Lemma digit_nonempty (d : string) : d ∈ digit_keys -> d <> "".
Proof. intros Hd. repeat (apply elem_of_cons in Hd as [->|Hd]; [done|]). by apply elem_of_nil in Hd. Qed.

Section Props.
Variable eval_js : string -> option string.
(** [String(x)] is never empty. *)
Hypothesis eval_nonempty : forall e r, eval_js e = Some r -> r <> "".

Lemma next_step (c : Calc) (b : button) (c' : Calc) : next eval_js c b = Some c' <-> step eval_js c b c'.
Proof.
  split.
  - intros H. unfold next in H. destruct b, (isOpen c) eqn:E; try discriminate.
    all: try (injection H as <-; by constructor).
    destruct (bool_decide (_ ∈ keypad)) eqn:Hb; [|discriminate].
    apply bool_decide_eq_true in Hb. injection H as <-. by constructor.
  - induction 1 as [c E|c E|c v E Hv|c E]; simpl; rewrite E; try done.
    by rewrite bool_decide_eq_true_2.
Qed.

Lemma run_steps (c : Calc) (bs : list button) (c' : Calc) :
  run eval_js c bs = Some c' -> steps eval_js c bs c'.
Proof.
  revert c. induction bs as [|b bs IH]; intros c; simpl; [intros [= <-]; constructor|].
  destruct (next eval_js c b) as [c1|] eqn:E; [|done]. intros H.
  econstructor; [apply next_step, E|by apply IH].
Qed.

Lemma next_key (c : Calc) (v : string) :
  isOpen c = true -> v ∈ keypad -> next eval_js c (Key v) = Some (press eval_js v c).
Proof. intros Ho Hv. unfold next. rewrite Ho. by rewrite bool_decide_eq_true_2. Qed.

Lemma calculate_isOpen (c : Calc) : isOpen (calculate eval_js c) = isOpen c.
Proof. unfold calculate. by destruct (eval_js _). Qed.

Lemma handleOp_nonempty (op : string) (c : Calc) : display (handleOp op c) <> "".
Proof. simpl. apply string_app_nonempty_r. by rewrite string_app_cons. Qed.

Lemma handleDigit_nonempty (d : string) (c : Calc) : d <> "" -> display (handleDigit d c) <> "".
Proof. intros Hd. simpl. case_match; [done|by apply string_app_nonempty_r]. Qed.

Lemma calculate_nonempty (c : Calc) : display (calculate eval_js c) <> "".
Proof. unfold calculate. destruct (eval_js _) eqn:E; simpl; [by apply (eval_nonempty _ _ E)|done]. Qed.

Lemma press_nonempty (v : string) (c : Calc) : v <> "" -> display (press eval_js v c) <> "".
Proof.
  intros Hv. unfold press.
  destruct (String.eqb v "/"); [apply handleOp_nonempty|].
  destruct (String.eqb v "*"); [apply handleOp_nonempty|].
  destruct (String.eqb v "-"); [apply handleOp_nonempty|].
  destruct (String.eqb v "="); [apply calculate_nonempty|].
  destruct (String.eqb v "+"); [apply handleOp_nonempty|].
  by apply handleDigit_nonempty.
Qed.

Lemma step_nonempty (c : Calc) (b : button) (c' : Calc) :
  display c <> "" -> step eval_js c b c' -> display c' <> "".
Proof.
  intros Hc. destruct 1 as [c0 E|c0 E|c0 v E Hv|c0 E]; simpl; try done.
  apply press_nonempty. intros ->. unfold keypad in Hv.
  repeat (apply elem_of_cons in Hv as [Hv|Hv]; [discriminate|]). by apply elem_of_nil in Hv.
Qed.

Lemma effect_persist (c c' : Calc) : effect c c' (persist c) = persist c'.
Proof.
  unfold effect, persist. destruct (String.eqb_spec (display c) (display c')), (String.eqb_spec (history c) (history c'));
    simpl; congruence.
Qed.

(** Every reachable state is what [localStorage] holds, with a display
    that is never empty. *)
Lemma reachable_persisted (ls0 : Storage) (c : Calc) (ls : Storage) :
  reachable eval_js ls0 c ls -> ls = persist c /\ display c <> "".
Proof.
  induction 1 as [|c ls b c' _ [-> Hc] Hs|c ls _ _].
  - split; [done|]. apply or_str_nonempty. done.
  - split; [apply effect_persist|]. by apply (step_nonempty c b).
  - split; [done|]. apply or_str_nonempty. done.
Qed.

Lemma keys_digits (ds : list string) (acc h : string) :
  acc <> "" -> acc <> "0" -> Forall (fun d => d ∈ digit_keys) ds ->
  steps eval_js (mkCalc true acc h) (Key <$> ds) (mkCalc true (acc ++ keys_text ds) h).
Proof.
  revert acc. induction ds as [|d ds IH]; intros acc Ha Hz Hds; simpl.
  - rewrite string_app_nil_r. constructor.
  - apply Forall_cons in Hds as [Hd Hds].
    econstructor; [apply step_key; [done|by apply digit_keypad]|].
    rewrite digit_press by done. unfold handleDigit; simpl.
    destruct (String.eqb_spec acc "0"); [done|].
    replace (acc ++ d ++ keys_text ds)%string with ((acc ++ d) ++ keys_text ds)%string
      by (by rewrite string_app_assoc).
    apply IH; [by apply string_app_nonempty_r, digit_nonempty|apply string_app_not_zero; auto using digit_nonempty|done].
Qed.

(** C10: Every state a page session reaches is the one [localStorage]
    holds, so a reload (which starts closed) restores the display and the
    history exactly, whatever was typed, calculated or cleared before. *)
Theorem calculator_survives_reload (ls0 : Storage) (c : Calc) (ls : Storage) :
  reachable eval_js ls0 c ls -> ls = persist c /\ init ls = mkCalc false (display c) (history c).
Proof.
  intros R. destruct (reachable_persisted ls0 c ls R) as [-> Hd]. split; [done|].
  unfold init, persist. cbn [calc_display calc_history]. by rewrite or_str_some, or_str_some_empty.
Qed.

(** C11: From any open state, [Limpiar] followed by the keys of a number
    (digits and the point, not starting with 0) shows exactly that number
    with an empty history: every number can be typed. *)
Theorem keypad_enters_number (c : Calc) (d : string) (ds : list string) :
  isOpen c = true -> Forall (fun k => k ∈ digit_keys) (d :: ds) -> d <> "0" ->
  steps eval_js c (ClearKey :: (Key <$> d :: ds)) (mkCalc true (keys_text (d :: ds)) "").
Proof.
  intros Ho Hds Hd0. apply Forall_cons in Hds as [Hd Hds].
  econstructor; [by apply step_clear|]. unfold clear. rewrite Ho.
  econstructor; [apply step_key; [done|by apply digit_keypad]|].
  rewrite digit_press by done. unfold handleDigit. simpl.
  apply keys_digits; [by apply digit_nonempty|done|done].
Qed.

End Props.

(** C15: [=] followed by a digit never starts a new number: the digit is
    appended to the result (unless the result is "0"), and the history
    shows the expression; after a failed evaluation it is appended to
    "Error" and the history is kept. *)
Theorem calculator_result_then_digit (eval_js : string -> option string) (c : Calc) (d : string) :
  isOpen c = true -> d ∈ digit_keys ->
  run eval_js c [Key "="; Key d] =
    Some (match eval_js (replace_x (display c)) with
          | Some r => mkCalc true (if String.eqb r "0" then d else r ++ d)%string (display c ++ " = " ++ r)%string
          | None => mkCalc true ("Error" ++ d)%string (history c)
          end).
Proof.
  intros Ho Hd. cbn [run]. rewrite next_key; [|done|unfold keypad; set_solver].
  change (press eval_js "=" c) with (calculate eval_js c). cbn [mbind option_bind].
  rewrite next_key; [|by rewrite calculate_isOpen|by apply digit_keypad].
  rewrite digit_press by done. cbn [mbind option_bind]. unfold handleDigit, calculate.
  destruct (eval_js (replace_x (display c))); cbn [isOpen display history]; by rewrite Ho.
Qed.

(** ** Scenarios *)

(** [eval] on the two expressions typed below. *)
Definition eval_demo (e : string) : option string :=
  if String.eqb e "2 + 3" then Some "5" else if String.eqb e "6 * 7" then Some "42" else None.

Lemma eval_demo_nonempty : forall e r, eval_demo e = Some r -> r <> "".
Proof. intros e r. unfold eval_demo. repeat case_match; intros [= <-]; done. Qed.

Lemma calculator_survives_reload_witness :
  reachable eval_demo (mkStorage (Some "12") None) (mkCalc true "12" "") (persist (mkCalc true "12" "")) /\
  (persist (mkCalc true "12" "") = persist (mkCalc true "12" "") /\
   init (persist (mkCalc true "12" "")) = mkCalc false (display (mkCalc true "12" "")) (history (mkCalc true "12" ""))).
Proof.
  assert (R : reachable eval_demo (mkStorage (Some "12") None) (mkCalc true "12" "") (persist (mkCalc true "12" ""))).
  { change (persist (mkCalc true "12" "")) with
      (effect (init (mkStorage (Some "12") None)) (mkCalc true "12" "") (persist (init (mkStorage (Some "12") None)))).
    eapply reach_step; [apply reach_init|]. by apply step_open. }
  split; [exact R|]. exact (calculator_survives_reload eval_demo eval_demo_nonempty _ _ _ R).
Defined.

Lemma keypad_enters_number_witness :
  steps eval_demo (mkCalc true "Error" "") (ClearKey :: (Key <$> ["4"; "."; "5"])) (mkCalc true (keys_text ["4"; "."; "5"]) "").
Proof.
  apply (keypad_enters_number eval_demo (mkCalc true "Error" "") "4" ["."; "5"]); [reflexivity | |discriminate].
  repeat constructor; unfold digit_keys; set_solver.
Defined.

(** The expression 2 + 3, then [=] and 7: the display shows 57. *)
Lemma calculator_result_then_digit_witness :
  isOpen (mkCalc true "2 + 3" "") = true /\ "7" ∈ digit_keys /\
  run eval_demo (mkCalc true "2 + 3" "") [Key "="; Key "7"] =
    Some (match eval_demo (replace_x (display (mkCalc true "2 + 3" ""))) with
          | Some r => mkCalc true (if String.eqb r "0" then "7" else r ++ "7")%string
                        (display (mkCalc true "2 + 3" "") ++ " = " ++ r)%string
          | None => mkCalc true ("Error" ++ "7")%string (history (mkCalc true "2 + 3" ""))
          end).
Proof.
  assert (H7 : "7" ∈ digit_keys) by (unfold digit_keys; set_solver).
  split; [reflexivity|]. split; [exact H7|].
  exact (calculator_result_then_digit eval_demo (mkCalc true "2 + 3" "") "7" eq_refl H7).
Defined.

End Calculator.
