(* ===== verification/Views.v ===== *)
(** What the dashboard shows and the two flows of it not covered by
    [Client.v]: the weekly summary cards of
    [src/client/src/components/WeeklySummary.tsx] (the number of active
    days, the bar of each day, its Spanish initial, the fortnight's
    title), the default-rate setting of [src/client/src/pages/Dashboard.tsx]
    (the settings query, the mutation on blur and the value the create
    dialog then starts from) and its delete confirmation ([handleDelete]
    with the hook and the server's route).  Number formatting
    ([toFixed(1)], [toLocaleString('es-AR')]) is not modelled. *)

From S2P Require Import Prelude JsRuntime Calendar Duration Store Summary Routes Client.

Open Scope Z_scope.

Module Views.
Import Database Summary Routes Client.

(** ** The summary cards *)

(** [spanishDayNames] (lines 86-88). *)
Definition spanishDayNames (n : string) : option string :=
  if String.eqb n "Mon" then Some "L" else if String.eqb n "Tue" then Some "M"
  else if String.eqb n "Wed" then Some "M" else if String.eqb n "Thu" then Some "J"
  else if String.eqb n "Fri" then Some "V" else if String.eqb n "Sat" then Some "S"
  else if String.eqb n "Sun" then Some "D" else None.

(** [s.charAt(0)]. *)
Definition charAt0 (s : string) : string :=
  match s with EmptyString => EmptyString | String c _ => String c EmptyString end.

(** [spanishDayNames[day.dayName] || day.dayName.charAt(0)] (line 95). *)
Definition day_letter (n : string) : string :=
  match spanishDayNames n with Some l => l | None => charAt0 n end.

(** [x > 0] on a number (false on NaN). *)
Definition positive (x : jsnum) : bool := match x with JNum v => 0 <? v | JNaN => false end.

(** [summary.days.filter(d => d.totalHours > 0).length] (line 75). *)
Definition active_days (sm : WeeklySummary) : nat :=
  List.length (filter (fun d => positive (ds_totalHours d)) (days sm)).

(** [Math.min((day.totalHours / 12) * 100, 100)] percent (line 93), in
    twelfths of a percent of hundredths of an hour: [h / 12] percent is
    [min(h, 1200) / 12]. *)
Definition bar_twelfths (x : jsnum) : option Z :=
  match x with JNum v => Some (Z.min v 1200) | JNaN => None end.

(** [summary.quincenaLabel || 'Quincenal'] (line 51). *)
Definition quincena_title (sm : WeeklySummary) : string := or_str (Some (quincenaLabel sm)) "Quincenal".

Record SummaryView := mkView {
  v_active : nat; v_bars : list (option Z); v_filled : list bool; v_letters : list string; v_title : string
}.

(** The cards for a summary the hook accepted (lines 21-99). *)
Definition summary_view (sm : WeeklySummary) : SummaryView :=
  mkView (active_days sm) ((fun d => bar_twelfths (ds_totalHours d)) <$> days sm)
    ((fun d => positive (ds_totalHours d)) <$> days sm) ((fun d => day_letter (ds_dayName d)) <$> days sm)
    (quincena_title sm).

(** ** The default rate *)

Definition rate_key : string := "defaultHourlyRate".

(** The data of the settings query (lines 50-52): the body of a 200. *)
Definition setting_data (r : Response) : option string :=
  match status r, payload_of r with 200, PSetting _ v => Some v | _, _ => None end.

Section Flows.
Context {S : Type} `{IStorage S}.
Variable NS : string -> option Z.

(** Leaving the rate input (line 265): [updateRateMutation] (lines 54-68)
    puts the typed text, the query is refetched, and the page's
    [defaultHourlyRate] (line 70) is read again. *)
Definition save_rate_flow (typed : string) (s : S) : jsnum * S :=
  let '(_, s') := route_put_setting rate_key (JObject [("value", JString typed)]) s in
  (default_rate NS (setting_data (route_get_setting rate_key s')), s').

(** [handleDelete] (lines 110-123) for the record chosen
    ([deletingLogId]): nothing when no id (or 0) is chosen; otherwise the
    hook's [DELETE] to [buildUrl(path, { id })] and its outcome. *)
Definition delete_flow (deletingLogId : option Z) (s : S) : option (outcome unit) * S :=
  match deletingLogId with
  | Some id =>
      if id =? 0 then (None, s)
      else match param_id (buildUrl work_log_path (Some [("id", z_to_string id)])) with
           | Some p => let '(r, s') := route_delete p s in (Some (use_delete r), s')
           | None => (Some (use_delete (mkResponse 404 PEmpty)), s)
           end
  | None => (None, s)
  end.

End Flows.

(** ** Theorems *)

(** C13: Leaving the rate input with a non-empty text [typed] that
    [Number] reads as [x] stores [typed] under ["defaultHourlyRate"],
    the page's default rate becomes [x], and the next create dialog
    starts from [x], except that a rate of 0 starts it from 50: the form
    takes [defaultValues.hourlyRate || 50]. *)
Theorem save_rate_create_form (NS : string -> option Z) (tz now d : Z) (typed : string) (x : Z) (db : DB) :
  typed <> "" -> NS typed = Some x ->
  db_getSetting rate_key (@save_rate_flow DB (DatabaseStorage tz) NS typed db).2 = Some typed /\
  (@save_rate_flow DB (DatabaseStorage tz) NS typed db).1 = JNum x /\
  f_hourlyRate (form_init tz now (create_defaults tz d (@save_rate_flow DB (DatabaseStorage tz) NS typed db).1)) =
    JNumber (if x =? 0 then 5000 else x).
Proof.
  intros Ht Hx. unfold save_rate_flow, route_put_setting, route_get_setting. cbn -[rate_key].
  unfold db_getSetting, db_updateSetting. cbn [settings]. rewrite lookup_insert_eq.
  unfold setting_data, default_rate. cbn [status payload_of].
  destruct (String.eqb_spec typed "") as [|_]; [done|]. rewrite Hx. done.
Qed.

(** C14: Confirming the deletion of the record [id] (a non-negative id, as
    the store hands out): with no id chosen, or id 0, nothing is sent;
    otherwise the URL the hook builds reaches [DELETE /api/work-logs/:id]
    with [id], the record is removed and the hook resolves, or, when the
    record does not exist (404) or [id] is beyond the [integer] column
    (500), the hook throws its fixed message and the store is
    unchanged. *)
Theorem delete_flow_db (tz id : Z) (db : DB) :
  0 <= id ->
  (@delete_flow DB (DatabaseStorage tz) (Some id) db =
    if id =? 0 then (None, db)
     else match (if int4_ok id then db_getWorkLog id db else None) with
          | Some _ => (Some (Done tt), db_deleteWorkLog id db)
          | None => (Some (Thrown (Err "Failed to delete work log")), db)
          end) /\
  forall id', db_getWorkLog id' (@delete_flow DB (DatabaseStorage tz) (Some id) db).2 =
    if (id' =? id) && negb (id =? 0) && int4_ok id && bool_decide (is_Some (db_getWorkLog id db)) then None
    else db_getWorkLog id' db.
Proof.
  intros Hid. unfold delete_flow. destruct (Z.eqb_spec id 0) as [->|Hne].
  { split; [done|]. intros id'. by rewrite andb_false_r, andb_false_l. }
  rewrite param_id_build by done. unfold route_delete. rewrite parseInt_z_to_string by done.
  destruct (int4_ok id); cbn [negb]; [|split; [done|intros id'; by rewrite andb_false_r, andb_false_l]].
  cbn [getWorkLog deleteWorkLog DatabaseStorage].
  destruct (db_getWorkLog id db) as [l|] eqn:E; cbn.
  - split; [done|]. intros id'. rewrite !andb_true_r.
    unfold db_getWorkLog, db_deleteWorkLog. cbn [rows].
    destruct (Z.eqb_spec id' id) as [->|Hne']; [by rewrite lookup_delete_eq|by rewrite lookup_delete_ne].
  - split; [done|]. intros id'. by rewrite !andb_false_r.
Qed.

(** The cards of the week of Wednesday 2024-03-06 with the three
    shifts of [Summary.three_shifts]: at UTC, three active days and the
    initials L M M J V S D under Monday to Sunday; at UTC-3 the same
    dates are labelled D L M M J V S, so Monday's 8-hour bar stands under
    a D. *)
Example summary_view_letters :
  option_map (fun sm => (v_active (summary_view sm), v_letters (summary_view sm)))
    (@getSummary DB (DatabaseStorage 0) 0 (now_wed 0) (now_wed 0) None (three_shifts 0)) =
    Some (3%nat, ["L"; "M"; "M"; "J"; "V"; "S"; "D"]) /\
  option_map (fun sm => (map ds_date (days sm), v_bars (summary_view sm), v_letters (summary_view sm)))
    (@getSummary DB (DatabaseStorage (-180)) (-180) (now_wed (-180)) (now_wed (-180)) None (three_shifts (-180))) =
    Some (["2024-03-04"; "2024-03-05"; "2024-03-06"; "2024-03-07"; "2024-03-08"; "2024-03-09"; "2024-03-10"],
          [Some 800; Some 900; Some 600; Some 0; Some 0; Some 0; Some 0],
          ["D"; "L"; "M"; "M"; "J"; "V"; "S"]).
Proof. vm_compute. split; reflexivity. Qed.

(** ** Witnesses *)

(** [Number] on the decimal integers, in hundredths. *)
Definition NS_num (v : string) : option Z := (fun n => 100 * n) <$> parseInt v.

Lemma save_rate_create_form_witness :
  db_getSetting rate_key (@save_rate_flow DB (DatabaseStorage 0) NS_num "0" empty_db).2 = Some "0" /\
  (@save_rate_flow DB (DatabaseStorage 0) NS_num "0" empty_db).1 = JNum 0 /\
  f_hourlyRate (form_init 0 (now_wed 0) (create_defaults 0 (now_wed 0) (@save_rate_flow DB (DatabaseStorage 0) NS_num "0" empty_db).1)) =
    JNumber (if 0 =? 0 then 5000 else 0).
Proof. apply (save_rate_create_form NS_num 0 (now_wed 0) (now_wed 0) "0" 0 empty_db); vm_compute; [discriminate|reflexivity]. Defined.

Lemma delete_flow_db_witness :
  (@delete_flow DB (DatabaseStorage 0) (Some 1) (three_shifts 0) =
    if 1 =? 0 then (None, three_shifts 0)
     else match (if int4_ok 1 then db_getWorkLog 1 (three_shifts 0) else None) with
          | Some _ => (Some (Done tt), db_deleteWorkLog 1 (three_shifts 0))
          | None => (Some (Thrown (Err "Failed to delete work log")), three_shifts 0)
          end) /\
  forall id', db_getWorkLog id' (@delete_flow DB (DatabaseStorage 0) (Some 1) (three_shifts 0)).2 =
    if (id' =? 1) && negb (1 =? 0) && int4_ok 1 && bool_decide (is_Some (db_getWorkLog 1 (three_shifts 0))) then None
    else db_getWorkLog id' (three_shifts 0).
Proof. apply (delete_flow_db 0 1 (three_shifts 0)). lia. Defined.

End Views.
